(* ===== verification/_CoqProject ===== *)
-Q . S2P
Prelude.v
Calendar.v
TaskId.v
History.v
Stats.v
Session.v
Rotation.v
Display.v
Panel.v
Load.v
Gui.v
Ui.v
Radar.v
Clock.v
