(* ===== verification/Prelude.v ===== *)
(** * A verification development of the ToDo list application (src/todo.py)

    ** The program

    src/todo.py is one Tk application, class [TodoApp].  Its state is
    - [self.tasks]: a list of task dicts [{task_id, description, created,
      completed_count, skipped_count}] used as a rotating queue;
    - [self.statistics]: a dict with a per-day completion count [daily]
      (keys [YYYY-MM-DD]), [total_done] and [total_skipped];
    - [self.history] / [self.history_index]: an undo stack of snapshots.
    Every button calls one method.  [add_task], [edit_task],
    [delete_task], [mark_current_done] / [_skip] and [mark_selected_done]
    / [_skip] call [save_state] (push a snapshot) and then mutate the
    queue and the statistics; [undo] / [redo] move the cursor and
    install a snapshot.  The statistics panel derives averages and rates
    from the state.  [main] builds the window ([__init__] and the four
    [create_*_section] methods), refreshes it, and [root.mainloop()]
    runs the callbacks of the user's clicks.

    ** The files, in dependency order

    - Prelude.v (this file): the Python built-ins the code relies on
      (indexing, [pop], slicing with negative indices, [IndexError] as
      [None], truthiness of strings, [str] of an int, [len] and [s[:n]]
      on the code points of a UTF-8 string), the [py] hint
      databases and the shared list and string lemmas.
    - Calendar.v, [Module PyDate]: the calendar behind
      [datetime.now().strftime('%Y-%m-%d')] and [timedelta(days=i)].  A day
      is its proleptic Gregorian ordinal; [ord2ymd] / [ymd2ord]
      transcribe CPython's [_ord2ymd] / [_ymd2ord]; [date_key] renders the
      key.  The round trip is checked by evaluation over one 400-year
      cycle (146097 days, [vm_compute]) and lifted to every integer by
      periodicity; distinct days have distinct keys.
    - TaskId.v, [Module TaskId]: the identifier allocator of [add_task]
      (lines 194-213).  Its [while] loop is a fixpoint with fuel
      [len(existing_ids) + 1], shown always sufficient by a pigeonhole
      argument; the result is the least free identifier in the code's
      order.
    - History.v, [Module History]: [save_state]'s list-and-cursor update
      ([push]), [undo] and [redo], generic in the snapshot type.  An
      abstract zipper (entries behind, under and ahead of the cursor) is
      the contract; [history_refines] shows the index arithmetic
      implements it, and the cursor invariant, branch truncation, the
      undo/redo round trip and the undo depth follow.
    - Stats.v, [Module Stats]: the statistics as a value, the updates of
      the mark handlers, [calculate_daily_average] (and the weekly and
      monthly figures derived from it), [success_rate] and the last-7-days
      table, with exact rationals for Python's floats.
    - Session.v, [Module Session]: the whole [TodoApp].  [save_state]
      takes *shallow* copies, so snapshots share the task dicts and the
      [daily] dict with the live state; the model is an object store
      ([heap] from identities to task dicts, one [daily_obj]) and each
      handler is a program in a state-and-exception monad [PyM].  A
      button press is an [event] carrying the widget inputs (selection,
      dialog answers) and the clock; [step] runs its handler and
      [reachable] closes the initial state under [step].
    - Rotation.v, [Module Rotation]: runs of "Done (Current)" / "Skip
      (Current)" presses, with a step lemma (one press) and a loop lemma
      ([k] presses).
    - Display.v, [Module Display]: [update_task_display] with the Tk
      listbox as a value (rows and selection) and the buttons' states,
      [on_task_select], the [sorted(..., key=task_id)] order of the
      statistics panel and the per-task chart (a stable sort on [str]
      order), and the 7-day chart's counts and colour rule.
    - Panel.v, [Module Panel]: the text of [update_statistics_display]
      line by line, what [update_daily_chart] and
      [update_individual_task_chart] draw, and [update_displays], the
      four views computed from a Session state.  Float printing is the
      class [FloatFormat] ([format(x, '.Nf')]); the theorems hold for
      every instance, and [exact_format] rounds the exact value half to
      even.
    - Load.v, [Module Load]: [save_data] and [load_data] on the value
      [json.dump] writes and [json.load] returns, what a failing [open]
      or [json.dump] leaves on disk and the message boxes, [on_closing],
      the backward-compatibility migration of task dicts without
      identifiers or counts, and [start], the state [__init__] builds.
    - Gui.v, [Module Gui]: the window [__init__] builds: widgets with
      their parents and behavioural options, the [self.<name>]
      attributes ([AttributeError] when one is missing), the log of Tk
      configuration calls, in the monad [GuiM]; [update_displays] as the
      window sees it (the attributes each view reads, then
      Panel.update_displays); [init], [main] and [launch].
    - Ui.v, [Module Ui]: [root.mainloop()]: a click on a listbox row
      ([on_task_select]) or on an enabled button (the Session handler
      with the inputs it reads, then the refresh; "Save Progress" and
      the close button through Load.save_data_io), composing Session,
      Display, Panel, Load and Gui; [ui_reachable] closes the launched
      window under gestures.
    - Radar.v, [Module Radar]: the per-task bars as sectors of the polar
      axes [create_radar_chart_section] makes, with angles in [R].
    - Clock.v, [Module Clock]: [datetime.now()] read once per call, as
      the code does inside its loops: [calculate_daily_average] (434-447)
      and [get_recent_daily_counts] (425-430) over a list of readings,
      one per loop iteration, and [datetime] with [isoformat()] behind
      the [created] field and the ['%Y-%m-%d'] key.

    ** What is proved

    - Session: the invariant of every reachable state (distinct
      identifiers, a well-formed bounded history); the rotation of
      [mark_current_done]; [add_task]'s effect; the [IndexError] paths
      (raised after [save_state] for delete and mark-selected, before it
      for edit); that undo and redo never touch a task dict or the
      [daily] dict; that the first action of a session cannot be undone;
      that forward handlers keep [total_done] equal to the sum of
      [daily]; that the current-task buttons are the selected-task
      handlers on row 0; that no press (undo included) lowers a count
      or renames a task, and counts stay non-negative; that undo right
      after "Done" leaves [total_done] strictly below the sum of [daily]
      (the completion stays in [daily] and in the task dict), on every
      reachable state with a non-empty history, the specification's
      scenario being one instance; and that redo right after undo
      installs the list and counters from *before* the last action.
      The invariant [done_bounded] ([total_done], live and in every
      snapshot, at most the sum of [daily]) holds on every reachable
      state.
    - Rotation: liveness of the queue discipline (whatever mixture of
      current-task presses, the task at position [i] is current after
      exactly [i] presses) and the full round (one press per task acts
      on each once and restores the order).
    - History: refinement of the abstract contract, invariant
      preservation, branch truncation, the round trip, that undo right
      after [save_state] returns the entry *before* the current one, and
      that at most 49 actions can be undone in a row.
    - TaskId: termination of the counter loop and minimality of the
      identifier.
    - Stats: the daily average as sum over present days divided by their
      number, its bounds, the success-rate bounds, and that recording
      keeps [total_done] consistent with [daily].
    - Load: from a file whose identifiers are distinct, every reachable
      state keeps the Session invariant; saving and restarting gives
      back the queue, the statistics and the very same screen; the
      migration gives distinct identifiers exactly when the file's own
      identifiers are distinct and none is the positional identifier of
      a dict without one (so a file without identifiers gets distinct
      positional ones, and a file mixing both can load two tasks with
      one identifier).
    - Display: the refresh's effect (one row per task, no selection, so
      the selected-task buttons are always disabled afterwards), the
      sort as a stable sort on the identifier strings (evaluated:
      [Task10] before [Task2], both between [T] and [U]), and the colour
      rule of the chart's bars.
    - Panel: the refresh never fails on a reachable state and draws
      every per-task bar inside its axis; the statistics text's lines
      (headings, one line per task, seven day lines); the 7-day chart
      shows the table's counts in reverse; its average line lies between
      the shortest and the tallest bar.
    - Gui: start-up never raises and shows the refresh of the loaded
      state, every attribute a callback reads exists; the widget tree
      has no two widgets in one grid cell.
    - Ui: the listbox always lists the queue and its selection is one of
      its rows; no gesture makes a callback raise (the [IndexError]
      paths of Session are dead from the window, started on a file with
      distinct identifiers); the row selected is
      the task "Done (Selected)" acts on (a click below the last row
      selects the last row, as Tk's [index @x,y] does); closing with a good save and
      starting again shows the same screen.
    - Radar: up to six tasks no two tasks' bars overlap; from seven on,
      the seventh task's bars (6 rad) fall on the first task's.
    - Clock: a midnight crossing during the average's loop
      makes its 30 keys repeat one day and miss another (so the average
      can differ from the one of either day), and during the table's
      loop gives a line one day's name and the other's date.  Two
      supporting lemmas: with every reading on one day the per-call
      loops agree with Stats and Panel, and the first ten characters of
      [isoformat()] are the day's key for four-digit years.
    - Calendar: the ordinal/date round trip with valid month and day, and
      injectivity of date keys.
    Each property with hypotheses has a [_witness] lemma applying it to
    a concrete input.

    ** Bounds and fuel

    Python ints are unbounded and are modelled by [Z]; no width applies.
    The only loop that is not structural, [while f"Task{counter}" in
    existing_ids], gets fuel [len(existing_ids) + 1], which
    [TaskId.counter_loop_terminates] shows is enough (and that more fuel
    changes nothing).  The calendar check evaluates 146097 days once.
    The geometry of Radar.v needs [3 < PI < 3.35], from the Standard
    Library's [PI2_3_2] and the first term of Machin's series.
    The [isoformat] prefix is checked by evaluation over the years
    1000-9999 and the numbers 0-99 ([forallb] over [seqZ]).

    ** Not modelled

    - the looks of the window: fonts, paddings, [sticky], figure sizes,
      and the Tk and matplotlib calls that draw a view (the views
      themselves are values); the imports and [DATA_FILE] (lines 1-13);
    - Tk's [exportselection], by which a dialog's text selection can
      clear the listbox's selection: it can only turn a selection into
      none, a case every handler that reads it warns about;
    - binary floating point: averages are exact rationals and printing
      is the [FloatFormat] class.  [exact_format] agrees with CPython on
      the averages (see Panel.v); for negative values that round to
      zero it prints [0.00] where CPython prints [-0.00], which no
      reachable state produces;
    - JSON text and file I/O: a data file is the value [json.load]
      returns, [json.dump] then [json.load] is taken to be the identity on
      the values written, and a missing or unreadable file is one case;
      a [json.dump] that raises after [open(DATA_FILE, 'w')] is taken
      to leave a text [json.load] rejects (a proper prefix of the JSON
      text), which is assumed, not derived, since the text itself is
      not modelled;
    - task dicts without ['description'] or ['created'], and statistics
      without one of their keys, in a data file: the program raises
      [KeyError] on them later, outside the handlers modelled here;
    - where the clock's readings come from: each [datetime.now()] is an
      input (a day ordinal, or a [datetime] record for [created]); the
      handlers of Session read it once per handler as a [clock], while
      Clock.v gives the two loops one reading per iteration;
    - the [weekly] and [monthly] dicts, which the code never reads or
      writes;
    - [OverflowError] of [timedelta] near year 1, outside any real
      clock. *)

From stdpp Require Export base list gmap strings.
From Stdlib Require Export ZArith Lia.
From Stdlib Require Import DecimalString DecimalZ.

(** * Python semantics shared by every component

    The program is a single Python class; its data lives in Python lists,
    dicts and ints.  This file fixes how those are read in Rocq:
    - a Python [int] is a [Z] (unbounded, as in Python);
    - a Python [list] used as a value is a Rocq [list];
    - [l[i]], [l.pop(i)] and [l[:k]] follow Python's indexing rules,
      negative indices included, with [None] standing for [IndexError];
    - the truthiness test [if s:] on a [str] or an [Optional[str]]. *)

Declare Scope py_scope.
Delimit Scope py_scope with py.

(** ** Indices *)

(** The position denoted by a Python index [i] in a list of length
    [len]: a negative index counts from the end; out of range is [None]
    (Python raises [IndexError]). *)
Definition py_norm_index (len : nat) (i : Z) : option nat :=
  let j := if (i <? 0)%Z then (Z.of_nat len + i)%Z else i in
  if ((0 <=? j)%Z && (j <? Z.of_nat len)%Z)%bool then Some (Z.to_nat j) else None.

(** [l[i]] *)
Definition py_getitem {A} (l : list A) (i : Z) : option A :=
  match py_norm_index (length l) i with
  | Some n => l !! n
  | None => None
  end.

(** [l.pop(i)]: the removed element and the list without it. *)
Definition py_pop {A} (l : list A) (i : Z) : option (A * list A) :=
  match py_norm_index (length l) i with
  | Some n =>
      match l !! n with
      | Some x => Some (x, delete n l)
      | None => None
      end
  | None => None
  end.

(** [l[:k]]: a negative stop counts from the end; the slice never fails. *)
Definition py_slice_to {A} (l : list A) (k : Z) : list A :=
  take (Z.to_nat (if (k <? 0)%Z then (Z.of_nat (length l) + k) else k)%Z) l.

(** [if s:] for a [str]: only the empty string is false. *)
Definition py_str_truthy (s : string) : bool :=
  match s with
  | EmptyString => false
  | String _ _ => true
  end.

(** [if answer:] for the [Optional[str]] that [simpledialog.askstring]
    returns ([None] when the dialog is cancelled). *)
Definition py_answer (o : option string) : option string :=
  match o with
  | Some s => if py_str_truthy s then Some s else None
  | None => None
  end.

(** [str(z)] for a Python [int]: its decimal digits, with a leading [-]
    when negative. *)
Definition py_str_int (z : Z) : string :=
  NilEmpty.string_of_int (Z.to_int z).

(** A Python [str] is held as its UTF-8 encoding; a byte [10xxxxxx]
    continues the code point before it. *)
Definition utf8_continuation (a : Ascii.ascii) : bool :=
  (128 <=? Ascii.nat_of_ascii a)%nat && (Ascii.nat_of_ascii a <? 192)%nat.

(** [len(s)]: the number of code points. *)
Fixpoint py_str_len (s : string) : nat :=
  match s with
  | EmptyString => 0
  | String a s' => (if utf8_continuation a then 0 else 1) + py_str_len s'
  end.

(** [s[:n]]: the first [n] code points. *)
Fixpoint py_str_prefix (n : nat) (s : string) : string :=
  match s with
  | EmptyString => EmptyString
  | String a s' =>
      if utf8_continuation a then String a (py_str_prefix n s')
      else match n with O => EmptyString | S n' => String a (py_str_prefix n' s') end
  end.

Notation "l .[ i ]" := (py_getitem l i) (at level 1, i at level 200, format "l .[ i ]") : py_scope.

(** * Automation *)

Create HintDb py discriminated.
Create Rewrite HintDb py_rw.

(** Case analysis on the boolean comparisons of [Z] that the Python
    conditions become, leaving [lia]-friendly hypotheses. *)
Ltac case_zbool :=
  repeat match goal with
  | |- context [(?a <? ?b)%Z] => destruct (Z.ltb_spec a b)
  | |- context [(?a <=? ?b)%Z] => destruct (Z.leb_spec a b)
  | |- context [(?a =? ?b)%Z] => destruct (Z.eqb_spec a b)
  | |- context [(?a >? ?b)%Z] => rewrite (Z.gtb_ltb a b)
  | H : context [(?a <? ?b)%Z] |- _ => destruct (Z.ltb_spec a b)
  | H : context [(?a <=? ?b)%Z] |- _ => destruct (Z.leb_spec a b)
  | H : context [(?a =? ?b)%Z] |- _ => destruct (Z.eqb_spec a b)
  | H : context [(?a >? ?b)%Z] |- _ => rewrite (Z.gtb_ltb a b) in H
  end; simpl in *.

(** * Lemmas on the Python helpers *)

Lemma py_norm_index_Some len i n :
  py_norm_index len i = Some n -> n < len.
Proof.
  unfold py_norm_index. case_zbool; intros Hn; simplify_eq; lia.
Qed.

Lemma py_norm_index_nat len (n : nat) :
  n < len -> py_norm_index len (Z.of_nat n) = Some n.
Proof.
  intros Hn. unfold py_norm_index. case_zbool; try lia. by rewrite Nat2Z.id.
Qed.

Lemma py_norm_index_nonneg len i :
  (0 <= i < Z.of_nat len)%Z -> py_norm_index len i = Some (Z.to_nat i).
Proof. intros Hi. unfold py_norm_index. case_zbool; try lia. done. Qed.

Lemma py_norm_index_out len i :
  (0 <= i)%Z -> (Z.of_nat len <= i)%Z -> py_norm_index len i = None.
Proof. intros ??. unfold py_norm_index. case_zbool; try lia; done. Qed.

Lemma py_getitem_nonneg {A} (l : list A) i :
  (0 <= i < Z.of_nat (length l))%Z -> py_getitem l i = l !! Z.to_nat i.
Proof. intros Hi. unfold py_getitem. by rewrite py_norm_index_nonneg. Qed.

Lemma py_pop_Some {A} (l : list A) i x l' :
  py_pop l i = Some (x, l') ->
  exists n, py_norm_index (length l) i = Some n /\ l !! n = Some x /\ l' = delete n l.
Proof.
  unfold py_pop. destruct (py_norm_index _ _) as [n|]; [|done].
  destruct (l !! n) eqn:E; [|done]. intros [= <- <-]. eauto.
Qed.

Lemma py_pop_None {A} (l : list A) i :
  py_pop l i = None <-> py_norm_index (length l) i = None.
Proof.
  unfold py_pop. destruct (py_norm_index _ _) as [n|] eqn:E; [|done].
  apply py_norm_index_Some in E. destruct (lookup_lt_is_Some_2 l n E) as [x ->].
  done.
Qed.

Lemma py_pop_nonneg {A} (l : list A) i :
  (0 <= i < Z.of_nat (length l))%Z ->
  exists x, l !! Z.to_nat i = Some x /\ py_pop l i = Some (x, delete (Z.to_nat i) l).
Proof.
  intros Hi. unfold py_pop. rewrite py_norm_index_nonneg by done.
  destruct (lookup_lt_is_Some_2 l (Z.to_nat i)) as [x Hx]; [lia|].
  rewrite Hx. eauto.
Qed.

Lemma py_pop_head {A} (x : A) l : py_pop (x :: l) 0 = Some (x, l).
Proof. reflexivity. Qed.

(** Popping an element and appending it at the end (the rotation of
    [mark_*]) permutes the list. *)
Lemma py_pop_rotate_perm {A} (l : list A) i x l' :
  py_pop l i = Some (x, l') -> l' ++ [x] ≡ₚ l.
Proof.
  intros (n & _ & Hx & ->)%py_pop_Some.
  rewrite Permutation_app_comm. symmetry. by apply delete_Permutation.
Qed.

Lemma py_pop_length {A} (l : list A) i x l' :
  py_pop l i = Some (x, l') -> length l = S (length l').
Proof.
  intros (n & _ & Hx & ->)%py_pop_Some.
  rewrite length_delete by eauto. apply lookup_lt_Some in Hx. lia.
Qed.

Lemma py_pop_elem {A} (l : list A) i x l' :
  py_pop l i = Some (x, l') -> x ∈ l.
Proof. intros (n & _ & Hx & _)%py_pop_Some. by eapply list_elem_of_lookup_2. Qed.

Lemma py_slice_to_nonneg {A} (l : list A) k :
  (0 <= k)%Z -> py_slice_to l k = take (Z.to_nat k) l.
Proof. intros Hk. unfold py_slice_to. by case_zbool; [lia|]. Qed.

Lemma py_answer_Some o s : py_answer o = Some s -> s <> EmptyString.
Proof. destruct o as [[|??]|]; simpl; intros; simplify_eq; done. Qed.

#[export] Hint Rewrite @py_pop_head : py_rw.
#[export] Hint Resolve py_norm_index_nat py_pop_elem : py.

(** * Strings *)

(** [s[:n]] has [min(n, len(s))] code points and is a prefix of [s]. *)
Lemma py_str_prefix_len n s : py_str_len (py_str_prefix n s) = Nat.min n (py_str_len s).
Proof.
  revert n. induction s as [|a s IH]; intros n; simpl; [lia|].
  destruct (utf8_continuation a) eqn:E; simpl; rewrite ?E; [rewrite IH; lia|].
  destruct n; simpl; rewrite ?E; [lia|rewrite IH; lia].
Qed.

Lemma py_str_prefix_app n s : exists r, s = py_str_prefix n s +:+ r.
Proof.
  revert n. induction s as [|a s IH]; intros n; simpl; [by exists ""|].
  destruct (utf8_continuation a).
  - destruct (IH n) as [r Hr]. exists r. rewrite Hr at 1. reflexivity.
  - destruct n as [|n]; [exists (String a s); reflexivity|].
    destruct (IH n) as [r Hr]. exists r. rewrite Hr at 1. reflexivity.
Qed.

Lemma py_str_int_inj z z' : py_str_int z = py_str_int z' -> z = z'.
Proof.
  unfold py_str_int. intros H.
  apply (f_equal NilEmpty.int_of_string) in H. rewrite !NilEmpty.isi in H.
  apply DecimalZ.to_int_inj. congruence.
Qed.

Lemma string_length_app (s t : string) :
  String.length (s +:+ t) = String.length s + String.length t.
Proof. induction s; simpl; auto. Qed.

(** Two concatenations with suffixes of equal length are equal piecewise:
    the cancellation used to read fields back out of formatted strings. *)
Lemma string_app_inj (s1 t1 s2 t2 : string) :
  s1 +:+ t1 = s2 +:+ t2 -> String.length t1 = String.length t2 ->
  s1 = s2 /\ t1 = t2.
Proof.
  revert s2. induction s1 as [|a s1 IH]; intros [|b s2] Heq Hlen; simpl in *.
  - done.
  - apply (f_equal String.length) in Heq.
    rewrite !string_length_app in Heq. simpl in Heq. lia.
  - apply (f_equal String.length) in Heq.
    rewrite !string_length_app in Heq. simpl in Heq. lia.
  - injection Heq as -> Heq. destruct (IH s2 Heq Hlen) as [-> ->]. done.
Qed.

Lemma string_app_assoc (s t u : string) : (s +:+ t) +:+ u = s +:+ (t +:+ u).
Proof. induction s as [|a s IH]; [reflexivity|exact (f_equal (String a) IH)]. Qed.

(** The first [length s] characters of [s ++ t] are [s]. *)
Lemma substring_app_prefix (s t : string) : String.substring 0 (String.length s) (s +:+ t) = s.
Proof. induction s as [|a s IH]; [by destruct t|exact (f_equal (String a) IH)]. Qed.
