(* ===== verification/Calendar.v ===== *)
(** * Calendar: the date keys of the [daily] statistics

    The program keys its per-day completion counts by
    [datetime.now().strftime('%Y-%m-%d')] (src/todo.py, [mark_current_done],
    [mark_selected_done]) and scans the last 30 / 7 days with
    [(datetime.now() - timedelta(days=i)).strftime('%Y-%m-%d')]
    ([calculate_daily_average], [update_statistics_display]).

    A date is its proleptic Gregorian ordinal ([date.toordinal()],
    0001-01-01 = 1), so [now - timedelta(days=i)] is [ord - i].  The
    conversion to year, month and day transcribes CPython's reference
    implementation ([_ord2ymd], [_ymd2ord] in Lib/datetime.py); [%Y] is
    glibc's unpadded decimal year and [%m], [%d] are two-digit fields.

    The theorems: [_ymd2ord] inverts [_ord2ymd] on every integer, the
    month and day are always in range, and so the date key is injective:
    distinct days never share a key of the [daily] dict. *)

From S2P Require Import Prelude.

Module PyDate.
Local Open Scope Z_scope.

(** ** CPython's tables and helpers *)

Definition DAYS_IN_MONTH : list Z := [-1; 31; 28; 31; 30; 31; 30; 31; 31; 30; 31; 30; 31].

(** [for dim in _DAYS_IN_MONTH[1:]: _DAYS_BEFORE_MONTH.append(dbm); dbm += dim] *)
Fixpoint running_sums (dbm : Z) (dims : list Z) : list Z :=
  match dims with
  | [] => []
  | dim :: rest => dbm :: running_sums (dbm + dim) rest
  end.

Definition DAYS_BEFORE_MONTH : list Z := -1 :: running_sums 0 (tail DAYS_IN_MONTH).

(** A table read [T[i]] at an index the algorithm keeps in range. *)
Definition tbl (t : list Z) (i : Z) : Z := default 0 (py_getitem t i).

Definition is_leap (year : Z) : bool :=
  (year mod 4 =? 0) && (negb (year mod 100 =? 0) || (year mod 400 =? 0)).

Definition days_before_year (year : Z) : Z :=
  let y := year - 1 in
  y * 365 + y / 4 - y / 100 + y / 400.

Definition days_in_month (year month : Z) : Z :=
  if (month =? 2) && is_leap year then 29 else tbl DAYS_IN_MONTH month.

Definition days_before_month (year month : Z) : Z :=
  tbl DAYS_BEFORE_MONTH month + Z.b2z ((month >? 2) && is_leap year).

Definition ymd2ord (year month day : Z) : Z :=
  days_before_year year + days_before_month year month + day.

Definition DI400Y : Z := days_before_year 401.
Definition DI100Y : Z := days_before_year 101.
Definition DI4Y : Z := days_before_year 5.

(** [_ord2ymd]: Python's [divmod] by a positive divisor is [Z.div] /
    [Z.modulo] (both round toward minus infinity). *)
Definition ord2ymd (n0 : Z) : Z * Z * Z :=
  let n := n0 - 1 in
  let n400 := n / DI400Y in
  let n := n mod DI400Y in
  let year := n400 * 400 + 1 in
  let n100 := n / DI100Y in
  let n := n mod DI100Y in
  let n4 := n / DI4Y in
  let n := n mod DI4Y in
  let n1 := n / 365 in
  let n := n mod 365 in
  let year := year + n100 * 100 + n4 * 4 + n1 in
  if (n1 =? 4) || (n100 =? 4) then (year - 1, 12, 31)
  else
    let leapyear := (n1 =? 3) && (negb (n4 =? 24) || (n100 =? 3)) in
    let month := Z.shiftr (n + 50) 5 in
    let preceding := tbl DAYS_BEFORE_MONTH month + Z.b2z ((month >? 2) && leapyear) in
    let '(month, preceding) :=
      if preceding >? n then
        let month := month - 1 in
        (month, preceding - (tbl DAYS_IN_MONTH month + Z.b2z ((month =? 2) && leapyear)))
      else (month, preceding) in
    let n := n - preceding in
    (year, month, n + 1).

(** ** strftime('%Y-%m-%d') *)

(** [%m] and [%d]: zero-padded to two digits. *)
Definition pad2 (v : Z) : string :=
  if v <? 10 then "0" +:+ py_str_int v else py_str_int v.

Definition strftime_Ymd (year month day : Z) : string :=
  py_str_int year +:+ ("-" +:+ (pad2 month +:+ ("-" +:+ pad2 day))).

(** The key of the day with ordinal [ord]. *)
Definition date_key (ord : Z) : string :=
  let '(y, m, d) := ord2ymd ord in strftime_Ymd y m d.

(** The days [now - timedelta(days=i)] for [i in range(k)], as keys. *)
Definition window_keys (today : Z) (k : nat) : list string :=
  map (fun i => date_key (today - Z.of_nat i)) (seq 0 k).

(** ** One 400-year cycle, checked by evaluation *)

Definition cycle_ok (r : Z) : bool :=
  let '(y, m, d) := ord2ymd (r + 1) in
  (ymd2ord y m d =? r + 1) && (1 <=? m) && (m <=? 12) && (1 <=? d)
  && (d <=? days_in_month y m) && (1 <=? y) && (y <=? 400).

Fixpoint check_cycle (fuel : nat) (r : Z) : bool :=
  match fuel with
  | O => true
  | S f => if cycle_ok r then check_cycle f (r + 1) else false
  end.

Definition pad2_ok : bool :=
  forallb (fun a =>
    (String.length (pad2 a) =? 2)%nat &&
    forallb (fun b => negb (String.eqb (pad2 a) (pad2 b)) || (a =? b))
      (map Z.of_nat (seq 0 100)))
    (map Z.of_nat (seq 0 100)).

(** ** Lemmas *)

Lemma check_cycle_spec fuel r :
  check_cycle fuel r = true -> forall k, r <= k < r + Z.of_nat fuel -> cycle_ok k = true.
Proof.
  revert r. induction fuel as [|f IH]; intros r H k Hk; simpl in *; [lia|].
  destruct (cycle_ok r) eqn:E; [|done].
  destruct (Z.eq_dec k r) as [->|]; [done|]. apply (IH (r + 1)); [done|lia].
Qed.

(** Every day of one 400-year cycle, by evaluation. *)
Lemma cycle_verified : check_cycle 146097 0 = true.
Proof. vm_compute. reflexivity. Qed.

Lemma cycle_ok_all r : 0 <= r < 146097 -> cycle_ok r = true.
Proof.
  intros Hr. apply (check_cycle_spec _ _ cycle_verified).
  assert (Z.of_nat 146097 = 146097) as -> by (vm_compute; reflexivity). lia.
Qed.

(** [_ord2ymd] commutes with a shift by whole 400-year cycles. *)
Lemma ord2ymd_shift n q :
  ord2ymd (n + 146097 * q) = let '(y, m, d) := ord2ymd n in (y + 400 * q, m, d).
Proof.
  unfold ord2ymd. change DI400Y with 146097.
  replace (n + 146097 * q - 1) with ((n - 1) + q * 146097) by lia.
  rewrite Z.div_add, Z_mod_plus_full by lia.
  repeat case_match; simplify_eq; rewrite ?pair_equal_spec; repeat split; ring.
Qed.

Lemma is_leap_shift y q : is_leap (y + 400 * q) = is_leap y.
Proof.
  unfold is_leap.
  assert ((y + 400 * q) mod 4 = y mod 4) as -> by (Z.div_mod_to_equations; lia).
  assert ((y + 400 * q) mod 100 = y mod 100) as -> by (Z.div_mod_to_equations; lia).
  assert ((y + 400 * q) mod 400 = y mod 400) as -> by (Z.div_mod_to_equations; lia).
  done.
Qed.

Lemma ymd2ord_shift y m d q : ymd2ord (y + 400 * q) m d = ymd2ord y m d + 146097 * q.
Proof.
  unfold ymd2ord, days_before_month. rewrite is_leap_shift.
  unfold days_before_year. Z.div_mod_to_equations. lia.
Qed.

Lemma days_in_month_shift y m q : days_in_month (y + 400 * q) m = days_in_month y m.
Proof. unfold days_in_month. by rewrite is_leap_shift. Qed.

Lemma days_in_month_le_31 y m : 1 <= m <= 12 -> days_in_month y m <= 31.
Proof.
  intros Hm. unfold days_in_month.
  assert (m = 1 \/ m = 2 \/ m = 3 \/ m = 4 \/ m = 5 \/ m = 6 \/ m = 7 \/ m = 8
          \/ m = 9 \/ m = 10 \/ m = 11 \/ m = 12) as Hcase by lia.
  destruct (is_leap y); repeat destruct Hcase as [->|Hcase]; subst; vm_compute; congruence.
Qed.

(** Every integer is a day of a cycle shifted by whole cycles. *)
Lemma ord_decompose n :
  exists r q, 0 <= r < 146097 /\ n = (r + 1) + 146097 * q.
Proof.
  exists ((n - 1) mod 146097), ((n - 1) / 146097).
  pose proof (Z.div_mod (n - 1) 146097) as Hd. pose proof (Z.mod_pos_bound (n - 1) 146097).
  split; lia.
Qed.

Lemma cycle_facts r :
  0 <= r < 146097 ->
  let '(y, m, d) := ord2ymd (r + 1) in
  ymd2ord y m d = r + 1 /\ 1 <= m <= 12 /\ 1 <= d <= days_in_month y m /\ 1 <= y <= 400.
Proof.
  intros Hr. pose proof (cycle_ok_all r Hr) as Hc. unfold cycle_ok in Hc.
  destruct (ord2ymd (r + 1)) as [[y m] d].
  rewrite !andb_true_iff, Z.eqb_eq, !Z.leb_le in Hc. lia.
Qed.

Lemma pad2_spec a b :
  0 <= a < 100 -> 0 <= b < 100 ->
  String.length (pad2 a) = 2%nat /\ (pad2 a = pad2 b -> a = b).
Proof.
  intros Ha Hb.
  assert (Hin : forall v, 0 <= v < 100 -> In v (map Z.of_nat (seq 0 100))).
  { intros v Hv. apply in_map_iff. exists (Z.to_nat v). rewrite in_seq. lia. }
  assert (Hok : pad2_ok = true) by (vm_compute; reflexivity).
  unfold pad2_ok in Hok. rewrite forallb_forall in Hok.
  specialize (Hok a (Hin a Ha)). apply andb_true_iff in Hok as [Hlen Hok].
  rewrite forallb_forall in Hok. specialize (Hok b (Hin b Hb)).
  split; [by apply Nat.eqb_eq|].
  intros Heq. rewrite Heq, String.eqb_refl in Hok. simpl in Hok. by apply Z.eqb_eq.
Qed.

Lemma strftime_Ymd_inj y m d y' m' d' :
  0 <= m < 100 -> 0 <= d < 100 -> 0 <= m' < 100 -> 0 <= d' < 100 ->
  strftime_Ymd y m d = strftime_Ymd y' m' d' -> y = y' /\ m = m' /\ d = d'.
Proof.
  intros Hm Hd Hm' Hd' H. unfold strftime_Ymd in H.
  destruct (pad2_spec m m' Hm Hm') as [Hlm Him].
  destruct (pad2_spec d d' Hd Hd') as [Hld Hid].
  destruct (pad2_spec m' m Hm' Hm) as [Hlm' _].
  destruct (pad2_spec d' d Hd' Hd) as [Hld' _].
  apply string_app_inj in H as [Hy H];
    [|simpl; rewrite !string_length_app; simpl; lia].
  simpl in H. injection H as H.
  apply (string_app_inj (pad2 m) _ (pad2 m')) in H as [Hm0 H]; [|simpl; rewrite ?string_length_app; simpl; lia].
  simpl in H. injection H as H.
  split; [by apply py_str_int_inj|]. auto.
Qed.

(** [_ymd2ord] inverts [_ord2ymd] on every integer ordinal. *)
Lemma ord2ymd_ymd2ord n : let '(y, m, d) := ord2ymd n in ymd2ord y m d = n.
Proof.
  destruct (ord_decompose n) as (r & q & Hr & ->).
  rewrite ord2ymd_shift. pose proof (cycle_facts r Hr) as Hc.
  destruct (ord2ymd (r + 1)) as [[y m] d]. rewrite ymd2ord_shift. lia.
Qed.

(** The month and day [_ord2ymd] returns are always in range. *)
Lemma ord2ymd_valid n :
  let '(y, m, d) := ord2ymd n in 1 <= m <= 12 /\ 1 <= d <= days_in_month y m.
Proof.
  destruct (ord_decompose n) as (r & q & Hr & ->).
  rewrite ord2ymd_shift. pose proof (cycle_facts r Hr) as Hc.
  destruct (ord2ymd (r + 1)) as [[y m] d]. rewrite days_in_month_shift. lia.
Qed.

(** Distinct days have distinct [strftime('%Y-%m-%d')] keys. *)
Lemma date_key_inj n n' : date_key n = date_key n' -> n = n'.
Proof.
  unfold date_key. pose proof (ord2ymd_ymd2ord n) as Hn. pose proof (ord2ymd_ymd2ord n') as Hn'.
  pose proof (ord2ymd_valid n) as Vn. pose proof (ord2ymd_valid n') as Vn'.
  destruct (ord2ymd n) as [[y m] d], (ord2ymd n') as [[y' m'] d'].
  pose proof (days_in_month_le_31 y m ltac:(lia)) as Hy.
  pose proof (days_in_month_le_31 y' m' ltac:(lia)) as Hy'.
  intros Hk. apply strftime_Ymd_inj in Hk as (-> & -> & ->); lia.
Qed.

(** The [k] days of a window ending today have pairwise distinct keys. *)
Lemma window_keys_NoDup today k : NoDup (window_keys today k).
Proof.
  unfold window_keys. apply NoDup_ListNoDup, Finite.Injective_map_NoDup.
  - intros i j Hij%date_key_inj. lia.
  - apply NoDup_ListNoDup, NoDup_seq.
Qed.

(** ** Theorems *)

(** [_ord2ymd] and [_ymd2ord] are inverse on every integer ordinal, and
    the month and day [_ord2ymd] returns are always in range. *)
Theorem ord2ymd_correct n :
  let '(y, m, d) := ord2ymd n in
  ymd2ord y m d = n /\ 1 <= m <= 12 /\ 1 <= d <= days_in_month y m.
Proof.
  pose proof (ord2ymd_ymd2ord n) as H1. pose proof (ord2ymd_valid n) as H2.
  destruct (ord2ymd n) as [[y m] d]. auto.
Qed.

(** Distinct days have distinct [strftime('%Y-%m-%d')] keys, so the days
    [now - timedelta(days=i)], [i in range(k)], give [k] distinct keys of
    the [daily] dict. *)
Theorem date_keys_distinct :
  (forall n n', date_key n = date_key n' -> n = n') /\
  (forall today k, NoDup (window_keys today k)).
Proof. split; [apply date_key_inj|apply window_keys_NoDup]. Qed.

End PyDate.
