(* ===== verification/TaskId.v ===== *)
(** * Task identifiers: the allocator of [add_task]

    src/todo.py, [add_task] lines 194-213: collect the [task_id] of every
    task into a set, take the first letter of [A..Z] not in it, and when
    all 26 letters are taken search [Task1], [Task2], ... with a [while]
    loop for the first unused label.

    The [while] loop is modelled with fuel; [next_task_id] gives it one
    more iteration than there are identifiers, which the theorems show is
    always enough: the allocator always returns, its result is never an
    existing identifier, and it is the least one in the code's order. *)

From S2P Require Import Prelude.

Module TaskId.
Local Open Scope Z_scope.

(** [chr(65 + i)] *)
Definition letter (i : nat) : string := String (Ascii.ascii_of_nat (65 + i)) EmptyString.

(** [range(26)] mapped to the candidate letters, in order. *)
Definition letters : list string := map letter (seq 0 26).

(** [for candidate_id in ...: if candidate_id not in existing_ids: task_id = candidate_id; break] *)
Fixpoint first_unused (existing_ids : gset string) (cands : list string) : option string :=
  match cands with
  | [] => None
  | c :: rest => if decide (c ∈ existing_ids) then first_unused existing_ids rest else Some c
  end.

(** [f"Task{counter}"] *)
Definition task_label (counter : Z) : string := "Task" +:+ py_str_int counter.

(** [while f"Task{counter}" in existing_ids: counter += 1], with fuel;
    [None] when the fuel runs out. *)
Fixpoint counter_loop (fuel : nat) (existing_ids : gset string) (counter : Z) : option Z :=
  match fuel with
  | O => None
  | S f =>
      if decide (task_label counter ∈ existing_ids)
      then counter_loop f existing_ids (counter + 1)
      else Some counter
  end.

(** The whole allocation: letters first, then [Task<N>] from [N = 1].
    The fuel is one more than the number of identifiers. *)
Definition next_task_id (existing_ids : gset string) : option string :=
  match first_unused existing_ids letters with
  | Some c => Some c
  | None => task_label <$> counter_loop (S (size existing_ids)) existing_ids 1
  end.

(** ** Lemmas *)

Lemma task_label_inj k k' : task_label k = task_label k' -> k = k'.
Proof. unfold task_label. simpl. intros [= H]. by apply py_str_int_inj. Qed.

Lemma letter_length i : String.length (letter i) = 1%nat.
Proof. reflexivity. Qed.

Lemma task_label_length k : (4 <= String.length (task_label k))%nat.
Proof. unfold task_label. rewrite string_length_app. change (String.length "Task") with 4%nat. lia. Qed.

Lemma letter_not_task_label i k : letter i <> task_label k.
Proof.
  intros H. pose proof (task_label_length k). rewrite <- H, letter_length in *. lia.
Qed.

(** [chr(65 + i)] is injective on the 26 positions it is used at. *)
Lemma letter_inj i j : (i < 26)%nat -> (j < 26)%nat -> letter i = letter j -> i = j.
Proof.
  unfold letter. intros Hi Hj [= H].
  apply (f_equal Ascii.nat_of_ascii) in H. rewrite !Ascii.nat_ascii_embedding in H by lia. lia.
Qed.

Lemma first_unused_letters_Some ids s n c :
  first_unused ids (map letter (seq s n)) = Some c ->
  exists i, (s <= i < s + n)%nat /\ c = letter i /\ (c ∉ ids) /\
            forall j, (s <= j < i)%nat -> letter j ∈ ids.
Proof.
  revert s. induction n as [|n IH]; intros s; simpl; [done|].
  case_decide as Hin.
  - intros (i & Hi & -> & Hc & Hbelow)%IH. exists i. split; [lia|]. split_and!; [done|done|].
    intros j Hj. destruct (decide (j = s)) as [->|]; [done|]. apply Hbelow. lia.
  - intros [= <-]. exists s. split; [lia|]. split_and!; [done|done|lia].
Qed.

Lemma first_unused_None ids cands :
  first_unused ids cands = None -> Forall (fun c => c ∈ ids) cands.
Proof.
  induction cands as [|c cs IH]; simpl; [done|].
  case_decide; [|done]. intros Hnone. constructor; auto.
Qed.

Lemma counter_loop_Some f ids c k :
  counter_loop f ids c = Some k ->
  c <= k /\ (task_label k ∉ ids) /\ forall j, c <= j < k -> task_label j ∈ ids.
Proof.
  revert c. induction f as [|f IH]; intros c; simpl; [done|].
  case_decide as Hin.
  - intros (Hck & Hk & Hbelow)%IH. split_and!; [lia|done|].
    intros j Hj. destruct (decide (j = c)) as [->|]; [done|]. apply Hbelow. lia.
  - intros [= <-]. split_and!; [lia|done|lia].
Qed.

Lemma counter_loop_None f ids c :
  counter_loop f ids c = None -> forall j, c <= j < c + Z.of_nat f -> task_label j ∈ ids.
Proof.
  revert c. induction f as [|f IH]; intros c; simpl; [lia|].
  case_decide as Hin; [|done]. intros H j Hj.
  destruct (decide (j = c)) as [->|]; [done|]. apply (IH (c + 1) H). lia.
Qed.

(** Pigeonhole: the labels [Task1 .. Task<size+1>] cannot all be taken. *)
Lemma counter_loop_enough ids : is_Some (counter_loop (S (size ids)) ids 1).
Proof.
  destruct (counter_loop _ _ _) eqn:E; [by eauto|]. exfalso.
  pose proof (counter_loop_None _ _ _ E) as Hall.
  set (L := map (fun i => task_label (Z.of_nat i)) (seq 1 (S (size ids)))).
  assert (HL : NoDup L).
  { apply NoDup_ListNoDup, Finite.Injective_map_NoDup.
    - intros i j Hij%task_label_inj. lia.
    - apply NoDup_ListNoDup, NoDup_seq. }
  assert (Hsub : (list_to_set L : gset string) ⊆ ids).
  { intros x Hx. apply elem_of_list_to_set, list_elem_of_In, in_map_iff in Hx.
    destruct Hx as (i & <- & Hi%in_seq). apply Hall. lia. }
  apply subseteq_size in Hsub. rewrite size_list_to_set in Hsub by done.
  unfold L in Hsub. rewrite length_map, length_seq in Hsub. lia.
Qed.

Lemma counter_loop_more_fuel f f' ids c k :
  counter_loop f ids c = Some k -> (f <= f')%nat -> counter_loop f' ids c = Some k.
Proof.
  revert f' c. induction f as [|f IH]; intros f' c; simpl; [done|].
  intros Hk Hle. destruct f' as [|f']; [lia|]. simpl.
  case_decide; [|done]. apply IH; [done|lia].
Qed.

(** The fuel given to the [while] loop always suffices: [add_task] always
    obtains an identifier. *)
Lemma next_task_id_total ids : is_Some (next_task_id ids).
Proof.
  unfold next_task_id. destruct (first_unused _ _); [by eauto|].
  destruct (counter_loop_enough ids) as [k ->]. by eauto.
Qed.

(** The allocated identifier is never one already in use. *)
Lemma next_task_id_fresh ids t : next_task_id ids = Some t -> t ∉ ids.
Proof.
  unfold next_task_id. destruct (first_unused _ _) as [c|] eqn:E.
  - intros [= <-]. unfold letters in E. by apply first_unused_letters_Some in E as (i & _ & -> & ? & _).
  - destruct (counter_loop _ _ _) as [k|] eqn:Ek; [|done].
    intros [= <-]. by apply counter_loop_Some in Ek as (_ & ? & _).
Qed.

(** ** Theorems *)

(** C23: Termination of [while f"Task{counter}" in existing_ids]: from
    [counter = 1] the loop stops within [len(existing_ids) + 1]
    iterations, and any larger fuel gives the same answer, so the fuel of
    [next_task_id] is never what decides its result. *)
Theorem counter_loop_terminates ids f :
  (size ids < f)%nat ->
  exists k, counter_loop f ids 1 = Some k /\ counter_loop (S (size ids)) ids 1 = Some k /\
            (k <= Z.of_nat (size ids) + 1)%Z.
Proof.
  intros Hf. destruct (counter_loop_enough ids) as [k Hk]. exists k. split_and!.
  - eapply counter_loop_more_fuel; [done|lia].
  - done.
  - clear Hf. assert (H : forall g c, counter_loop g ids c = Some k -> (k < c + Z.of_nat g)%Z).
    { induction g as [|g IH]; intros c; simpl; [done|].
      case_decide; [intros Hg; specialize (IH _ Hg); lia|intros [= <-]; lia]. }
    specialize (H _ _ Hk). lia.
Qed.

(** With all 26 letters and [Task1], [Task2] taken, fuel 40 finds [Task3]. *)
Lemma counter_loop_terminates_witness :
  (size (list_to_set (letters ++ ["Task1"; "Task2"]) : gset string) < 40)%nat /\
  counter_loop 40 (list_to_set (letters ++ ["Task1"; "Task2"])) 1 = Some 3.
Proof.
  assert (Hs : (size (list_to_set (letters ++ ["Task1"; "Task2"]) : gset string) < 40)%nat)
    by (vm_compute; lia).
  split; [exact Hs|].
  destruct (counter_loop_terminates _ 40 Hs) as (k & Hk & _). rewrite Hk.
  vm_compute in Hk. exact (eq_sym Hk).
Defined.

(** C22: The identifier is the first free letter in alphabetical order; when
    all 26 letters are taken, it is [Task<k>] for the least [k >= 1]
    whose label is free. *)
Theorem next_task_id_least ids :
  exists t, next_task_id ids = Some t /\
  ((exists i, (i < 26)%nat /\ t = letter i /\ (t ∉ ids) /\ forall j, (j < i)%nat -> letter j ∈ ids)
   \/ (Forall (fun c => c ∈ ids) letters /\
       exists k, 1 <= k /\ t = task_label k /\ (t ∉ ids) /\
                 forall j, 1 <= j < k -> task_label j ∈ ids)).
Proof.
  unfold next_task_id. destruct (first_unused _ _) as [c|] eqn:E.
  - exists c. split; [done|]. left. unfold letters in E.
    apply first_unused_letters_Some in E as (i & Hi & -> & Hc & Hbelow).
    exists i. split_and!; [lia|done|done|]. intros j Hj. apply Hbelow. lia.
  - destruct (counter_loop_enough ids) as [k Hk]. rewrite Hk.
    exists (task_label k). split; [done|]. right.
    split; [by apply first_unused_None|].
    apply counter_loop_Some in Hk as (? & ? & ?). eauto.
Qed.

End TaskId.
