(* ===== verification/History.v ===== *)
(** * History: the undo/redo stack of [TodoApp]

    src/todo.py keeps [self.history] (a list of snapshots) and
    [self.history_index] (a cursor, [-1] when the list is empty).
    [save_state] (lines 171-187) truncates the entries after the cursor,
    appends the new snapshot, moves the cursor onto it and evicts the
    oldest entry beyond 50; [undo] (333-340) and [redo] (342-349) move the
    cursor and hand back the snapshot it lands on.

    The stack is generic in the snapshot type [A]; what a snapshot holds
    (and how much of the live state it shares) is the business of
    Session.v.  Here:
    - [push], [undo], [redo] translate the three methods;
    - [hist_wf] is the cursor invariant they preserve;
    - [zipper] is the abstract contract (entries behind the cursor,
      the entry under it, entries ahead of it) and [abs] maps the
      implementation onto it; [history_refines] shows the index
      arithmetic implements it;
    - the consequences: branch truncation, the 50-entry bound, the
      undo/redo round trip, how far undo reaches, and the off-by-one of
      undoing to the entry *before* the current one. *)

From S2P Require Import Prelude.

Module History.
Local Open Scope Z_scope.

Section History.
Context {A : Type}.

(** [self.history], [self.history_index] *)
Record history := mkHistory { entries : list A; index : Z }.

(** [if len(self.history) > 50] *)
Definition history_limit : Z := 50.

(** [__init__]: [self.history = []], [self.history_index = -1] *)
Definition empty_history : history := mkHistory [] (-1).

(** [save_state], once the snapshot [state] has been built. *)
Definition push (h : history) (state : A) : history :=
  let es :=
    if index h <? Z.of_nat (length (entries h)) - 1
    then py_slice_to (entries h) (index h + 1)
    else entries h in
  let es := es ++ [state] in
  let i := index h + 1 in
  if Z.of_nat (length es) >? history_limit
  then mkHistory (tail es) (i - 1)
  else mkHistory es i.

(** The outcome of [undo] / [redo]: the cursor moved and the snapshot
    under it is handed back; the guard was false and nothing happened;
    or the read [self.history[self.history_index]] raised [IndexError]
    after the cursor had been moved. *)
Inductive move :=
  | Moved (h : history) (state : A)
  | Unmoved
  | MoveFault (h : history).

Definition undo (h : history) : move :=
  if index h >? 0 then
    let i := index h - 1 in
    match py_getitem (entries h) i with
    | Some st => Moved (mkHistory (entries h) i) st
    | None => MoveFault (mkHistory (entries h) i)
    end
  else Unmoved.

Definition redo (h : history) : move :=
  if index h <? Z.of_nat (length (entries h)) - 1 then
    let i := index h + 1 in
    match py_getitem (entries h) i with
    | Some st => Moved (mkHistory (entries h) i) st
    | None => MoveFault (mkHistory (entries h) i)
    end
  else Unmoved.

(** [n] successive undos that all move the cursor. *)
Fixpoint undo_n (n : nat) (h : history) : option history :=
  match n with
  | O => Some h
  | S k => match undo h with Moved h' _ => undo_n k h' | _ => None end
  end.

(** ** The cursor invariant *)

Definition hist_wf (h : history) : Prop :=
  (entries h = [] /\ index h = -1) \/
  (0 <= index h < Z.of_nat (length (entries h)) /\ Z.of_nat (length (entries h)) <= history_limit).

(** ** The abstract contract: a bounded cursor over a sequence *)

Record zipper := mkZipper {
  past : list A;        (** entries behind the cursor, nearest first *)
  present : option A;   (** the entry under the cursor *)
  future : list A       (** entries ahead of the cursor, nearest first *)
}.

Definition opt_list (o : option A) : list A := match o with Some x => [x] | None => [] end.

(** A new entry drops whatever lay ahead and keeps at most 49 behind. *)
Definition zpush (z : zipper) (st : A) : zipper :=
  mkZipper (take (Z.to_nat history_limit - 1) (opt_list (present z) ++ past z)) (Some st) [].

Definition zundo (z : zipper) : option zipper :=
  match past z with
  | p :: ps => Some (mkZipper ps (Some p) (opt_list (present z) ++ future z))
  | [] => None
  end.

Definition zredo (z : zipper) : option zipper :=
  match future z with
  | f :: fs => Some (mkZipper (opt_list (present z) ++ past z) (Some f) fs)
  | [] => None
  end.

Definition abs (h : history) : zipper :=
  if index h <? 0 then mkZipper [] None (entries h)
  else
    let i := Z.to_nat (index h) in
    mkZipper (rev (take i (entries h))) (entries h !! i) (drop (S i) (entries h)).

(** ** Lemmas *)

Lemma rev_take_S (l : list A) n x :
  l !! n = Some x -> rev (take (S n) l) = x :: rev (take n l).
Proof. intros Hx. by rewrite (take_S_r l n x Hx), rev_app_distr. Qed.

Lemma hist_wf_cases h :
  hist_wf h ->
  (entries h = [] /\ index h = -1) \/
  (exists x, entries h !! Z.to_nat (index h) = Some x /\ 0 <= index h /\
             (Z.to_nat (index h) < length (entries h))%nat /\ (length (entries h) <= 50)%nat).
Proof.
  intros [Hw|(Hi & Hlen)]; [by left|right].
  destruct (lookup_lt_is_Some_2 (entries h) (Z.to_nat (index h))) as [x Hx]; [lia|].
  exists x. unfold history_limit in Hlen. split_and!; [done|lia|lia|lia].
Qed.

(** What [save_state] does to the entries, in one formula: keep the
    entries up to the cursor, append, and drop the oldest beyond 50. *)
Lemma push_shape h st :
  hist_wf h ->
  let es := take (Z.to_nat (index h + 1)) (entries h) ++ [st] in
  push h st =
    if (50 <? length es)%nat then mkHistory (tail es) (index h) else mkHistory es (index h + 1).
Proof.
  intros Hwf es. unfold push, history_limit.
  replace (if index h <? Z.of_nat (length (entries h)) - 1
           then py_slice_to (entries h) (index h + 1) else entries h)
    with (take (Z.to_nat (index h + 1)) (entries h)).
  2:{ destruct Hwf as [[-> ->]|[Hi Hl]]; [done|]. case_zbool.
      - rewrite py_slice_to_nonneg by lia. done.
      - rewrite take_ge; [done|lia]. }
  fold es. replace (index h + 1 - 1) with (index h) by lia.
  destruct (Nat.ltb_spec 50 (length es)); case_zbool; done || lia.
Qed.

Lemma undo_shape h :
  hist_wf h ->
  undo h =
    if index h >? 0 then
      match entries h !! Z.to_nat (index h - 1) with
      | Some st => Moved (mkHistory (entries h) (index h - 1)) st
      | None => MoveFault (mkHistory (entries h) (index h - 1))
      end
    else Unmoved.
Proof.
  intros Hwf. unfold undo. case_zbool; [|done].
  destruct Hwf as [[_ Hi]|[Hi _]]; [lia|]. by rewrite py_getitem_nonneg by lia.
Qed.

Lemma redo_shape h :
  hist_wf h ->
  redo h =
    if index h <? Z.of_nat (length (entries h)) - 1 then
      match entries h !! Z.to_nat (index h + 1) with
      | Some st => Moved (mkHistory (entries h) (index h + 1)) st
      | None => MoveFault (mkHistory (entries h) (index h + 1))
      end
    else Unmoved.
Proof.
  intros Hwf. unfold redo. case_zbool; [|done].
  destruct Hwf as [[He Hi]|[Hi _]]; [rewrite He in *; simpl in *; lia|].
  by rewrite py_getitem_nonneg by lia.
Qed.

Lemma abs_nonneg h :
  0 <= index h ->
  abs h = mkZipper (rev (take (Z.to_nat (index h)) (entries h)))
                   (entries h !! Z.to_nat (index h)) (drop (S (Z.to_nat (index h))) (entries h)).
Proof. intros Hi. unfold abs. by case_zbool; [lia|]. Qed.

(** ** Refinement: the index arithmetic implements the cursor contract *)

Lemma push_abs h st : hist_wf h -> abs (push h st) = zpush (abs h) st.
Proof.
  intros Hwf. rewrite (push_shape h st Hwf).
  destruct (hist_wf_cases h Hwf) as [[He Hi]|(x & Hx & Hi0 & Hlt & Hle)].
  { unfold abs, zpush. rewrite He, Hi. reflexivity. }
  rewrite (abs_nonneg h Hi0), Hx. unfold zpush. cbn [present past opt_list app].
  rewrite <- (rev_take_S _ _ x Hx).
  replace (Z.to_nat (index h + 1)) with (S (Z.to_nat (index h))) by lia.
  set (n := Z.to_nat (index h)) in *. set (es := entries h) in *.
  rewrite length_app, length_take. simpl length.
  destruct (Nat.ltb_spec 50 (Nat.min (S n) (length es) + 1)).
  - (* the 51st entry evicts the oldest: the cursor stays at 49 *)
    assert (n = 49%nat /\ length es = 50%nat) as [Hn Hes] by lia.
    rewrite (take_ge es (S n)) by lia.
    destruct es as [|x0 es']; [simpl in Hes; lia|]. simpl in Hes |- *.
    rewrite abs_nonneg by (simpl; lia). simpl entries; simpl index. fold n.
    rewrite Hn. unfold history_limit. simpl (Z.to_nat 50 - 1)%nat.
    rewrite take_app_length' by lia.
    rewrite lookup_app_r by lia. replace (49 - length es')%nat with 0%nat by lia.
    rewrite drop_ge by (rewrite length_app; simpl; lia).
    rewrite take_app_length' by (rewrite length_rev; lia). done.
  - rewrite abs_nonneg by (simpl; lia). simpl entries; simpl index.
    replace (Z.to_nat (index h + 1)) with (S n) by lia.
    rewrite take_app_length' by (rewrite length_take; lia).
    rewrite lookup_app_r by (rewrite length_take; lia).
    rewrite length_take, Nat.min_l, Nat.sub_diag by lia. simpl.
    rewrite drop_ge by (rewrite length_app, length_take; cbn [length]; lia).
    rewrite (take_ge (rev (take (S n) es))) by (rewrite length_rev, length_take; lia).
    done.
Qed.

Lemma undo_abs h :
  hist_wf h ->
  match undo h with
  | Moved h' st => zundo (abs h) = Some (abs h') /\ present (abs h') = Some st
  | Unmoved => zundo (abs h) = None
  | MoveFault _ => False
  end.
Proof.
  intros Hwf. rewrite (undo_shape h Hwf).
  destruct (hist_wf_cases h Hwf) as [[He Hi]|(x & Hx & Hi0 & Hlt & Hle)].
  { unfold abs. rewrite Hi. reflexivity. }
  set (n := Z.to_nat (index h)) in *. set (es := entries h) in *.
  rewrite (abs_nonneg h Hi0). fold n es. unfold zundo. cbn [past present future].
  case_zbool.
  - replace (Z.to_nat (index h - 1)) with (pred n) by lia.
    destruct (lookup_lt_is_Some_2 es (pred n)) as [y Hy]; [lia|]. rewrite Hy.
    rewrite abs_nonneg by (simpl; lia). cbn [entries index present].
    replace (Z.to_nat (index h - 1)) with (pred n) by lia.
    assert (Hrev : rev (take n es) = y :: rev (take (pred n) es)).
    { replace n with (S (pred n)) at 1 by lia. by apply rev_take_S. }
    rewrite Hrev, Hx. split; [|done]. do 2 f_equal; [by rewrite Hy|]. simpl.
    replace (S (pred n)) with n by lia. symmetry. by apply drop_S.
  - replace n with 0%nat by lia. reflexivity.
Qed.

Lemma redo_abs h :
  hist_wf h ->
  match redo h with
  | Moved h' st => zredo (abs h) = Some (abs h') /\ present (abs h') = Some st
  | Unmoved => zredo (abs h) = None
  | MoveFault _ => False
  end.
Proof.
  intros Hwf. rewrite (redo_shape h Hwf).
  destruct (hist_wf_cases h Hwf) as [[He Hi]|(x & Hx & Hi0 & Hlt & Hle)].
  { unfold abs. rewrite He, Hi. reflexivity. }
  set (n := Z.to_nat (index h)) in *. set (es := entries h) in *.
  rewrite (abs_nonneg h Hi0). fold n es. unfold zredo. cbn [past present future].
  case_zbool.
  - replace (Z.to_nat (index h + 1)) with (S n) by lia.
    destruct (lookup_lt_is_Some_2 es (S n)) as [y Hy]; [lia|]. rewrite Hy.
    rewrite (drop_S es y (S n) Hy).
    rewrite abs_nonneg by (simpl; lia). cbn [entries index present].
    replace (Z.to_nat (index h + 1)) with (S n) by lia.
    rewrite Hx, (rev_take_S es n x Hx), Hy. done.
  - rewrite drop_ge by lia. done.
Qed.

(** ** The cursor invariant is preserved *)

Lemma push_wf h st : hist_wf h -> hist_wf (push h st).
Proof.
  intros Hwf. rewrite (push_shape h st Hwf). unfold hist_wf, history_limit.
  destruct (hist_wf_cases h Hwf) as [[He Hi]|(x & Hx & Hi0 & Hlt & Hle)].
  { rewrite He, Hi. simpl. right. lia. }
  rewrite length_app, length_take. cbn [length].
  destruct (Nat.ltb_spec 50 (Nat.min (Z.to_nat (index h + 1)) (length (entries h)) + 1));
    cbn [entries index]; right.
  - rewrite length_tl, length_app, length_take. cbn [length]. lia.
  - rewrite length_app, length_take. cbn [length]. lia.
Qed.

Lemma undo_wf h h' st : hist_wf h -> undo h = Moved h' st -> hist_wf h'.
Proof.
  intros Hwf. rewrite (undo_shape h Hwf). case_zbool; [|done].
  destruct (entries h !! _); intros [= <- _]. unfold hist_wf. simpl.
  destruct Hwf as [[He Hi]|[Hi Hl]]; [rewrite He in *; simpl in *; lia|]. right. lia.
Qed.

Lemma redo_wf h h' st : hist_wf h -> redo h = Moved h' st -> hist_wf h'.
Proof.
  intros Hwf. rewrite (redo_shape h Hwf). case_zbool; [|done].
  destruct (entries h !! _); intros [= <- _]. unfold hist_wf. simpl.
  destruct Hwf as [[He Hi]|[Hi Hl]]; [rewrite He in *; simpl in *; lia|]. right. lia.
Qed.

Lemma undo_no_fault h h' : hist_wf h -> undo h <> MoveFault h'.
Proof. intros Hwf E. pose proof (undo_abs h Hwf) as R. by rewrite E in R. Qed.

Lemma redo_no_fault h h' : hist_wf h -> redo h <> MoveFault h'.
Proof. intros Hwf E. pose proof (redo_abs h Hwf) as R. by rewrite E in R. Qed.

Lemma abs_present_None h : hist_wf h -> present (abs h) = None -> past (abs h) = [].
Proof.
  intros Hwf. destruct (hist_wf_cases h Hwf) as [[He Hi]|(x & Hx & Hi0 & _)].
  - unfold abs. by rewrite Hi.
  - rewrite abs_nonneg by done. simpl. by rewrite Hx.
Qed.

(** What the entries of the stack can be after each operation: a
    property of every stored snapshot survives [push], and [undo] /
    [redo] only hand back stored snapshots. *)
Lemma push_Forall (P : A -> Prop) h st :
  hist_wf h -> Forall P (entries h) -> P st -> Forall P (entries (push h st)).
Proof.
  intros Hwf Hh Hst. rewrite (push_shape h st Hwf).
  assert (Forall P (take (Z.to_nat (index h + 1)) (entries h) ++ [st]))
    by (apply Forall_app; split; [by apply Forall_take|by constructor]).
  case_match; simpl; [by apply Forall_tail|done].
Qed.

Lemma undo_moved h h' sn :
  hist_wf h -> undo h = Moved h' sn -> entries h' = entries h /\ sn ∈ entries h.
Proof.
  intros Hwf. rewrite (undo_shape h Hwf). case_zbool; [|done].
  destruct (entries h !! _) eqn:E; [|done]. intros [= <- <-].
  split; [done|]. by eapply list_elem_of_lookup_2.
Qed.

Lemma redo_moved h h' sn :
  hist_wf h -> redo h = Moved h' sn -> entries h' = entries h /\ sn ∈ entries h.
Proof.
  intros Hwf. rewrite (redo_shape h Hwf). case_zbool; [|done].
  destruct (entries h !! _) eqn:E; [|done]. intros [= <- <-].
  split; [done|]. by eapply list_elem_of_lookup_2.
Qed.

(** Undo then redo comes back to the same history, handing back the
    entry under its cursor. *)
Lemma undo_redo_back h h' st :
  hist_wf h -> undo h = Moved h' st ->
  exists x, redo h' = Moved h x /\ entries h !! Z.to_nat (index h) = Some x /\ 0 < index h.
Proof.
  intros Hwf E. pose proof (undo_wf h h' st Hwf E) as Hwf'.
  rewrite (undo_shape h Hwf) in E. case_zbool; [|done].
  destruct (entries h !! _) eqn:Hy; [|done]. injection E as <- <-.
  rewrite (redo_shape _ Hwf'). cbn [entries index].
  destruct (hist_wf_cases h Hwf) as [[_ Hi]|(x & Hx & Hi0 & Hlt & _)]; [lia|].
  case_zbool; [|lia].
  replace (Z.to_nat (index h - 1 + 1)) with (Z.to_nat (index h)) by lia. rewrite Hx.
  replace (index h - 1 + 1) with (index h) by lia. destruct h as [es i].
  exists x. split_and!; [done|done|simpl in *; lia].
Qed.

(** After [push], the cursor is on the entry just stored. *)
Lemma push_top h st :
  hist_wf h -> entries (push h st) !! Z.to_nat (index (push h st)) = Some st /\ 0 <= index (push h st).
Proof.
  intros Hwf. pose proof (f_equal present (push_abs h st Hwf)) as P. simpl in P.
  unfold abs in P. destruct (Z.ltb_spec (index (push h st)) 0); [done|]. by split.
Qed.

(** ** Theorems *)

(** C19: The index arithmetic of [save_state], [undo] and [redo] implements
    the cursor contract: pushing drops the entries ahead of the cursor
    and keeps at most 49 behind it, undo and redo move the cursor by one
    and hand back the entry under it, and they do nothing exactly when
    the contract has nowhere to move. *)
Theorem history_refines h st :
  hist_wf h ->
  abs (push h st) = zpush (abs h) st /\
  match undo h with
  | Moved h' sn => zundo (abs h) = Some (abs h') /\ present (abs h') = Some sn
  | Unmoved => zundo (abs h) = None
  | MoveFault _ => False
  end /\
  match redo h with
  | Moved h' sn => zredo (abs h) = Some (abs h') /\ present (abs h') = Some sn
  | Unmoved => zredo (abs h) = None
  | MoveFault _ => False
  end.
Proof. intros Hwf. split_and!; [by apply push_abs|by apply undo_abs|by apply redo_abs]. Qed.

(** The cursor invariant [0 <= index < len(history) <= 50] (or the empty
    history with cursor [-1]) holds after every operation, and the read
    [self.history[self.history_index]] of [undo] / [redo] never raises. *)
Theorem history_invariant h st :
  hist_wf h ->
  hist_wf (push h st) /\
  (forall h' st', undo h = Moved h' st' -> hist_wf h') /\
  (forall h' st', redo h = Moved h' st' -> hist_wf h') /\
  (forall h', undo h <> MoveFault h' /\ redo h <> MoveFault h').
Proof.
  intros Hwf. split_and!.
  - by apply push_wf.
  - intros ??. by apply undo_wf.
  - intros ??. by apply redo_wf.
  - intros h'. split; [by apply undo_no_fault|by apply redo_no_fault].
Qed.

(** Branch truncation: right after [save_state] there is nothing to redo. *)
Theorem redo_after_push h st : hist_wf h -> redo (push h st) = Unmoved.
Proof.
  intros Hwf. pose proof (redo_abs (push h st) (push_wf h st Hwf)) as R.
  rewrite push_abs in R by done.
  destruct (redo (push h st)); [|done|done]. by destruct R as [R _].
Qed.

(** [undo] right after [save_state] hands back the entry that was under
    the cursor *before* that [save_state], not the snapshot it just
    stored; on an empty history it does nothing. *)
Theorem undo_after_push h st :
  hist_wf h ->
  match present (abs h) with
  | None => undo (push h st) = Unmoved
  | Some prev => exists h', undo (push h st) = Moved h' prev
  end.
Proof.
  intros Hwf. pose proof (undo_abs (push h st) (push_wf h st Hwf)) as R.
  rewrite push_abs in R by done. unfold zpush, zundo in R. cbn [past present] in R.
  destruct (present (abs h)) as [prev|] eqn:Hp.
  - destruct (undo (push h st)) as [h' st'| |]; [|done|done].
    destruct R as [R1 R2]. injection R1 as R1. rewrite <- R1 in R2. simpl in R2.
    injection R2 as ->. eauto.
  - rewrite (abs_present_None h Hwf Hp) in R. simpl in R.
    destruct (undo (push h st)); [by destruct R as [? ?]|done|done].
Qed.

(** C20: Undo then redo returns to the same history, handing back the entry
    that was under the cursor. *)
Theorem undo_redo_roundtrip h h' st :
  hist_wf h -> undo h = Moved h' st ->
  exists st', redo h' = Moved h st' /\ present (abs h) = Some st'.
Proof.
  intros Hwf E. destruct (undo_redo_back h h' st Hwf E) as (x & Hr & Hx & Hi).
  exists x. split; [done|]. by rewrite abs_nonneg by lia.
Qed.

(** C21: Successive undos reach exactly as far back as the cursor, which is
    below 50: at most 49 actions can ever be undone in a row. *)
Theorem undo_depth h n :
  hist_wf h ->
  (is_Some (undo_n n h) <-> Z.of_nat n <= Z.max 0 (index h)) /\ index h < 50.
Proof.
  intros Hwf. split.
  2:{ destruct Hwf as [[_ ->]|[??]]; unfold history_limit in *; lia. }
  revert h Hwf. induction n as [|k IH]; intros h Hwf; simpl.
  { split; [lia|eauto]. }
  destruct (undo h) as [h' st| |h'] eqn:E.
  - rewrite (IH h' (undo_wf h h' st Hwf E)).
    rewrite (undo_shape h Hwf) in E. case_zbool; [|done].
    destruct (entries h !! _); [|done]. injection E as <- _. simpl. lia.
  - rewrite (undo_shape h Hwf) in E. case_zbool.
    + by destruct (entries h !! _).
    + split; [intros [? ?]; done|lia].
  - by apply undo_no_fault in E.
Qed.

End History.

Arguments history : clear implicits.
Arguments zipper : clear implicits.
Arguments move : clear implicits.
Arguments empty_history {A}.
Arguments hist_wf {A} h.

(** ** Witnesses, on the history [[10; 20; 30]] with the cursor on [20]. *)

Local Ltac hist_wf_concrete := right; cbn; unfold history_limit; lia.

Lemma history_refines_witness :
  hist_wf (@mkHistory Z [10; 20; 30] 1) /\
  abs (push (@mkHistory Z [10; 20; 30] 1) 40) = zpush (abs (@mkHistory Z [10; 20; 30] 1)) 40.
Proof.
  assert (Hwf : hist_wf (@mkHistory Z [10; 20; 30] 1)) by hist_wf_concrete.
  split; [exact Hwf|]. apply (history_refines _ 40 Hwf).
Defined.

Lemma history_invariant_witness :
  hist_wf (@mkHistory Z [10; 20; 30] 1) /\ hist_wf (push (@mkHistory Z [10; 20; 30] 1) 40).
Proof.
  assert (Hwf : hist_wf (@mkHistory Z [10; 20; 30] 1)) by hist_wf_concrete.
  split; [exact Hwf|]. apply (history_invariant _ 40 Hwf).
Defined.

Lemma redo_after_push_witness :
  hist_wf (@mkHistory Z [10; 20; 30] 1) /\ redo (push (@mkHistory Z [10; 20; 30] 1) 40) = Unmoved.
Proof.
  assert (Hwf : hist_wf (@mkHistory Z [10; 20; 30] 1)) by hist_wf_concrete.
  split; [exact Hwf|]. apply (redo_after_push _ 40 Hwf).
Defined.

Lemma undo_after_push_witness :
  hist_wf (@mkHistory Z [10; 20; 30] 1) /\
  exists h', undo (push (@mkHistory Z [10; 20; 30] 1) 40) = Moved h' 20.
Proof.
  assert (Hwf : hist_wf (@mkHistory Z [10; 20; 30] 1)) by hist_wf_concrete.
  split; [exact Hwf|]. exact (undo_after_push _ 40 Hwf).
Defined.

Lemma undo_redo_roundtrip_witness :
  undo (@mkHistory Z [10; 20; 30] 1) = Moved (mkHistory [10; 20; 30] 0) 10 /\
  redo (mkHistory [10; 20; 30] 0) = Moved (@mkHistory Z [10; 20; 30] 1) 20.
Proof.
  assert (Hwf : hist_wf (@mkHistory Z [10; 20; 30] 1)) by hist_wf_concrete.
  assert (E : undo (@mkHistory Z [10; 20; 30] 1) = Moved (mkHistory [10; 20; 30] 0) 10)
    by reflexivity.
  split; [exact E|].
  destruct (undo_redo_roundtrip _ _ _ Hwf E) as (st' & R & P).
  cbn in P. injection P as <-. exact R.
Defined.

Lemma undo_depth_witness :
  hist_wf (@mkHistory Z [10; 20; 30] 1) /\ is_Some (undo_n 1 (@mkHistory Z [10; 20; 30] 1)).
Proof.
  assert (Hwf : hist_wf (@mkHistory Z [10; 20; 30] 1)) by hist_wf_concrete.
  split; [exact Hwf|]. destruct (undo_depth _ 1 Hwf) as [[_ H] _]. apply H. cbn. lia.
Defined.

End History.
