(* ===== verification/Stats.v ===== *)
(** * Statistics: the aggregator of completions and skips

    src/todo.py keeps [self.statistics], a dict with a per-day completion
    count [daily] (keys [YYYY-MM-DD], see Calendar.v) and the totals
    [total_done], [total_skipped].  This file holds the statistics as a
    value and the operations on it:
    - [record_done] / [record_skip]: the statistics lines of
      [mark_*_done] (265-267, 300-302) and [mark_*_skip] (282, 320);
    - [calculate_daily_average] (434-447) and the weekly / monthly
      figures derived from it (449-455);
    - [success_rate] (417-418), the per-task figure of the statistics
      panel;
    - [recent_daily_counts] (426-430), the last-7-days table.

    Averages are exact rationals ([Q]); Python computes them in binary
    floating point and prints them rounded to two decimals, which this
    model does not reproduce.  The [weekly] and [monthly] dicts of the
    schema are never read or written by the code and are left out.

    In the running program the [daily] dict is one object shared by the
    live statistics and every history snapshot (Session.v); the value
    here is what that object holds. *)

From S2P Require Import Prelude Calendar.
From Stdlib Require Import QArith.

Module Stats.
Import PyDate.
Local Open Scope Z_scope.

Record statistics := mkStats {
  daily : gmap string Z;
  total_done : Z;
  total_skipped : Z
}.

(** [__init__] lines 24-30 and the default of [load_data]. *)
Definition initial_statistics : statistics := mkStats ∅ 0 0.

(** [self.statistics['daily'][today] = self.statistics['daily'].get(today, 0) + 1] *)
Definition bump_daily (today : string) (d : gmap string Z) : gmap string Z :=
  <[today := default 0 (d !! today) + 1]> d.

(** The statistics part of [mark_current_done] / [mark_selected_done]. *)
Definition record_done (today : string) (st : statistics) : statistics :=
  mkStats (bump_daily today (daily st)) (total_done st + 1) (total_skipped st).

(** The statistics part of [mark_current_skip] / [mark_selected_skip]:
    skips are only counted in total. *)
Definition record_skip (st : statistics) : statistics :=
  mkStats (daily st) (total_done st) (total_skipped st + 1).

(** The loop of [calculate_daily_average]:
    [if date in daily: total += daily[date]; days += 1]. *)
Fixpoint avg_loop (d : gmap string Z) (dates : list string) (total days : Z) : Z * Z :=
  match dates with
  | [] => (total, days)
  | date :: rest =>
      match d !! date with
      | Some v => avg_loop d rest (total + v) (days + 1)
      | None => avg_loop d rest total days
      end
  end.

(** [calculate_daily_average], with [today] the ordinal of [datetime.now()]:
    [if not daily: return 0.0], then the 30 days ending today, and
    [total / max(days, 1)]. *)
Definition calculate_daily_average (d : gmap string Z) (today : Z) : Q :=
  if decide (d = ∅) then 0%Q
  else
    let '(total, days) := avg_loop d (window_keys today 30) 0 0 in
    (inject_Z total / inject_Z (Z.max days 1))%Q.

Definition calculate_weekly_average (d : gmap string Z) (today : Z) : Q :=
  (calculate_daily_average d today * 7)%Q.

Definition calculate_monthly_average (d : gmap string Z) (today : Z) : Q :=
  (calculate_daily_average d today * 30)%Q.

(** [rate = (completed / total * 100) if total > 0 else 0] *)
Definition success_rate (completed skipped : Z) : Q :=
  let total := completed + skipped in
  if total >? 0 then (inject_Z completed / inject_Z total * 100)%Q else 0%Q.

(** [strftime('%A')]: [date.weekday()] is [(toordinal() + 6) % 7], Monday = 0. *)
Definition weekday_name (ord : Z) : string :=
  default "" (py_getitem ["Monday"; "Tuesday"; "Wednesday"; "Thursday"; "Friday"; "Saturday"; "Sunday"]
                         ((ord + 6) mod 7)).

(** The "Recent Daily Counts" table: for [i in range(7)], the day name,
    the date key and [daily.get(date, 0)]. *)
Definition recent_daily_counts (d : gmap string Z) (today : Z) : list (string * string * Z) :=
  map (fun i => let ord := today - Z.of_nat i in
                (weekday_name ord, date_key ord, default 0 (d !! date_key ord)))
      (seq 0 7).

(** The sum of the values of [daily], the quantity [total_done] tracks. *)
Definition daily_sum (d : gmap string Z) : Z := map_fold (fun _ v acc => v + acc) 0 d.

Definition stats_consistent (st : statistics) : Prop := total_done st = daily_sum (daily st).

(** Sum of a list of Python ints. *)
Definition zsum (l : list Z) : Z := foldr Z.add 0 l.

(** The example of the specification: counts 2 and 4 on 2024-01-01 and
    2024-01-03, today 2024-01-03 (ordinal 738888), average 3. *)
Definition daily_example : gmap string Z := <["2024-01-01" := 2]> (<["2024-01-03" := 4]> ∅).

(** ** Lemmas *)

Lemma avg_loop_spec d ks total days :
  avg_loop d ks total days =
    (total + zsum (omap (fun k => d !! k) ks),
     days + Z.of_nat (length (omap (fun k => d !! k) ks))).
Proof.
  unfold zsum. revert total days. induction ks as [|k ks IH]; intros total days; simpl.
  - f_equal; lia.
  - destruct (d !! k); simpl; rewrite IH;
    change (list_omap string Z (fun k => d !! k) ks) with (omap (fun k => d !! k) ks); f_equal; lia.
Qed.

(** Over a window without repeated dates, the number of dates the loop
    counts is the number of distinct window dates present in [daily]. *)
Lemma omap_lookup_count (d : gmap string Z) ks :
  NoDup ks ->
  length (omap (fun k => d !! k) ks) = size (dom d ∩ list_to_set ks : gset string).
Proof.
  induction ks as [|k ks IH]; intros Hnd; simpl.
  { replace (dom d ∩ ∅ : gset string) with (∅ : gset string) by set_solver. done. }
  apply NoDup_cons in Hnd as [Hk Hnd].
  destruct (d !! k) eqn:E; simpl;
    change (list_omap string Z (fun k => d !! k) ks) with (omap (fun k => d !! k) ks).
  - assert (Hkd : k ∈ dom d) by (apply elem_of_dom; eauto).
    replace (dom d ∩ ({[k]} ∪ list_to_set ks) : gset string)
      with ({[k]} ∪ (dom d ∩ list_to_set ks) : gset string) by set_solver.
    rewrite size_union, size_singleton, IH by (done || set_solver). lia.
  - assert (Hkd : k ∉ dom d) by (rewrite not_elem_of_dom; done).
    replace (dom d ∩ ({[k]} ∪ list_to_set ks) : gset string)
      with (dom d ∩ list_to_set ks : gset string) by set_solver.
    by apply IH.
Qed.

Lemma daily_sum_insert_fresh d k v :
  d !! k = None -> daily_sum (<[k := v]> d) = v + daily_sum d.
Proof. intros Hk. unfold daily_sum. rewrite map_fold_insert_L; [done| |done]. intros. lia. Qed.

Lemma daily_sum_insert d k v :
  daily_sum (<[k := v]> d) = daily_sum d - default 0 (d !! k) + v.
Proof.
  destruct (d !! k) as [v0|] eqn:E; simpl.
  - pose proof (daily_sum_insert_fresh (delete k d) k v (lookup_delete_eq d k)) as H1.
    pose proof (daily_sum_insert_fresh (delete k d) k v0 (lookup_delete_eq d k)) as H2.
    rewrite insert_delete_eq in H1, H2. rewrite (insert_id d k v0 E) in H2. lia.
  - rewrite daily_sum_insert_fresh by done. lia.
Qed.

Lemma Q_div_bounds (a b m : Z) :
  (0 < b)%Z -> (0 <= a)%Z -> (a <= m * b)%Z ->
  (0 <= inject_Z a / inject_Z b <= inject_Z m)%Q.
Proof.
  intros Hb Ha Ham. assert (Hbq : (0 < inject_Z b)%Q) by (change 0%Q with (inject_Z 0); rewrite <- Zlt_Qlt; done).
  split.
  - apply Qle_shift_div_l; [done|]. rewrite Qmult_0_l. change 0%Q with (inject_Z 0).
    by rewrite <- Zle_Qle.
  - apply Qle_shift_div_r; [done|]. rewrite <- inject_Z_mult. by rewrite <- Zle_Qle.
Qed.

Lemma zsum_bounds (l : list Z) m :
  Forall (fun v => 0 <= v <= m) l -> 0 <= zsum l <= m * Z.of_nat (length l).
Proof.
  unfold zsum. induction 1 as [|v l Hv _ IH]; simpl; lia.
Qed.

Lemma omap_lookup_Forall (d : gmap string Z) ks (P : Z -> Prop) :
  map_Forall (fun _ v => P v) d -> Forall P (omap (fun k => d !! k) ks).
Proof.
  intros Hd. apply Forall_forall. intros v (k & _ & Hk)%list_elem_of_omap.
  by apply (Hd k v).
Qed.

(** ** Theorems *)

(** C28: The rolling average divides the sum of the counts recorded for the
    30 days ending today by the number of those days present in [daily]
    (at least 1): a day appears once in the window (the keys are
    distinct, Calendar.v), and absent days count toward neither. *)
Theorem daily_average_spec d today :
  d <> ∅ ->
  calculate_daily_average d today =
    (inject_Z (zsum (omap (fun k => d !! k) (window_keys today 30)))
     / inject_Z (Z.max (Z.of_nat (size (dom d ∩ list_to_set (window_keys today 30) : gset string))) 1))%Q.
Proof.
  intros Hd. unfold calculate_daily_average. case_decide; [done|].
  rewrite avg_loop_spec, <- omap_lookup_count by apply window_keys_NoDup. done.
Qed.

Lemma daily_average_spec_witness :
  daily_example <> ∅ /\ (calculate_daily_average daily_example 738888 == 3)%Q.
Proof.
  assert (Hne : daily_example <> ∅).
  { intros Heq. assert (H : daily_example !! "2024-01-01" = Some 2) by reflexivity.
    rewrite Heq, lookup_empty in H. discriminate. }
  split; [exact Hne|]. rewrite (daily_average_spec daily_example 738888 Hne).
  vm_compute. reflexivity.
Defined.

(** When every recorded count lies in [0, m], so do the daily average
    and, scaled by 7 and 30, the weekly and monthly ones. *)
Theorem daily_average_bounds d today m :
  0 <= m -> map_Forall (fun _ v => 0 <= v <= m) d ->
  (0 <= calculate_daily_average d today <= inject_Z m)%Q.
Proof.
  intros Hm Hd. unfold calculate_daily_average. case_decide.
  { split; [done|]. change 0%Q with (inject_Z 0). by rewrite <- Zle_Qle. }
  rewrite avg_loop_spec.
  pose proof (zsum_bounds _ m (omap_lookup_Forall d (window_keys today 30) _ Hd)) as Hb.
  apply Q_div_bounds; nia.
Qed.

Lemma daily_average_bounds_witness :
  (0 <= calculate_daily_average daily_example 738888 <= inject_Z 4)%Q.
Proof.
  apply daily_average_bounds; [lia|].
  apply map_Forall_insert_2; [lia|]. apply map_Forall_insert_2; [lia|]. apply map_Forall_empty.
Defined.

(** The success rate of a task lies between 0 and 100. *)
Theorem success_rate_bounds c sk :
  0 <= c -> 0 <= sk -> (0 <= success_rate c sk <= 100)%Q.
Proof.
  intros Hc Hs. unfold success_rate. case_zbool; [|split; done].
  destruct (Q_div_bounds c (c + sk) 1 ltac:(lia) Hc ltac:(lia)) as [H0 H1].
  split.
  - rewrite <- (Qmult_0_l 100). apply Qmult_le_compat_r; done.
  - rewrite <- (Qmult_1_l 100). apply Qmult_le_compat_r; done.
Qed.

Lemma success_rate_bounds_witness : (0 <= success_rate 3 1 <= 100)%Q.
Proof. apply success_rate_bounds; lia. Defined.

(** Recording a completion or a skip keeps [total_done] equal to the sum
    of the per-day counts. *)
Theorem record_consistent key st :
  stats_consistent st ->
  stats_consistent (record_done key st) /\ stats_consistent (record_skip st).
Proof.
  unfold stats_consistent, record_done, record_skip, bump_daily. simpl.
  rewrite daily_sum_insert. intros H. split; lia.
Qed.

Lemma record_consistent_witness :
  stats_consistent (record_done "2024-01-03" initial_statistics) /\
  stats_consistent (record_skip initial_statistics).
Proof. apply record_consistent. reflexivity. Defined.

End Stats.
