(* ===== verification/Session.v ===== *)
(** * Session: the [TodoApp] object, its handlers and what its snapshots share

    src/todo.py's [TodoApp] owns the task list [self.tasks], the
    statistics dict [self.statistics], and the undo stack
    [self.history] / [self.history_index].  The GUI calls one handler per
    button; each reads its inputs from widgets (the listbox selection,
    [simpledialog.askstring], [messagebox.askyesno]) and the clock.

    What makes the code subtle is Python's object model.  [save_state]
    stores [self.tasks.copy()] and [self.statistics.copy()]: *shallow*
    copies.  The snapshot's list is new, but its elements are the very
    task dicts of the live list, and the snapshot's statistics dict
    points to the very [daily] dict of the live statistics.  The
    handlers then mutate those shared objects in place
    ([task['completed_count'] += 1], [self.tasks[index]['description'] =
    ...], [self.statistics['daily'][today] = ...]).  So this file models
    the store, not values:
    - [heap] maps an object identity [loc] to the task dict it denotes;
      lists of tasks (live or in a snapshot) are lists of identities;
    - [daily_obj] is the one [daily] dict: it is created once (in
      [__init__] / [load_data]) and every [statistics.copy()] refers to it;
    - a snapshot keeps the top-level ints of [statistics] by value.

    Each handler is a program in a small state-and-exception monad
    [PyM]: [IndexError] leaves the state as it was when raised (the Tk
    event loop reports the exception and carries on). *)

From S2P Require Import Prelude Calendar TaskId History Stats.

Module Session.
Import PyDate TaskId History Stats.
Local Open Scope Z_scope.

(** ** Data *)

(** A task dict: [{'task_id', 'description', 'created', 'completed_count',
    'skipped_count'}] (lines 215-221). *)
Record task := mkTask {
  task_id : string;
  description : string;
  created : string;
  completed_count : Z;
  skipped_count : Z
}.

(** The identity of a Python object. *)
Abbreviation loc := nat (only parsing).

(** The top level of a statistics dict: its two ints.  Its ['daily']
    entry is the shared dict [daily_obj]. *)
Record stats_top := mkTop { top_done : Z; top_skipped : Z }.

(** A history entry: [{'tasks': self.tasks.copy(), 'statistics':
    self.statistics.copy()}] (lines 173-176). *)
Record snapshot := mkSnap { snap_tasks : list loc; snap_stats : stats_top }.

Record app := mkApp {
  heap : gmap loc task;        (** the task dicts, by identity *)
  next_loc : loc;              (** the next identity to allocate *)
  daily_obj : gmap string Z;   (** the one ['daily'] dict *)
  tasks : list loc;            (** [self.tasks] *)
  statistics : stats_top;      (** [self.statistics] *)
  hist : history snapshot      (** [self.history], [self.history_index] *)
}.

(** The clock reading of a handler: the ordinal of [datetime.now()] and
    its [isoformat()]. *)
Record clock := mkClock { now_ord : Z; now_iso : string }.

(** What the user sees after a handler: the displays are refreshed
    ([update_displays]), nothing happens, or a warning box. *)
Inductive reply := Refreshed | Silent | Warning (msg : string).

Inductive exn := IndexError.

(** ** The state-and-exception monad *)

Definition PyM (A : Type) : Type := app -> (exn + A) * app.

#[export] Instance PyM_ret : MRet PyM := fun A x s => (inr x, s).
#[export] Instance PyM_bind : MBind PyM := fun A B f m s =>
  match m s with
  | (inr x, s') => f x s'
  | (inl e, s') => (inl e, s')
  end.

Definition raise {A} (e : exn) : PyM A := fun s => (inl e, s).
Definition gets {A} (f : app -> A) : PyM A := fun s => (inr (f s), s).
Definition modify (f : app -> app) : PyM unit := fun s => (inr tt, f s).

Definition set_tasks (ts : list loc) (s : app) : app :=
  mkApp (heap s) (next_loc s) (daily_obj s) ts (statistics s) (hist s).
Definition set_statistics (st : stats_top) (s : app) : app :=
  mkApp (heap s) (next_loc s) (daily_obj s) (tasks s) st (hist s).
Definition set_hist (h : history snapshot) (s : app) : app :=
  mkApp (heap s) (next_loc s) (daily_obj s) (tasks s) (statistics s) h.
Definition set_heap (hp : gmap loc task) (s : app) : app :=
  mkApp hp (next_loc s) (daily_obj s) (tasks s) (statistics s) (hist s).
Definition set_daily (d : gmap string Z) (s : app) : app :=
  mkApp (heap s) (next_loc s) d (tasks s) (statistics s) (hist s).

(** ** Primitive steps *)

(** [save_state]: the snapshot copies the list of identities and the
    top-level ints, and shares everything else. *)
Definition save_state : PyM unit :=
  modify (fun s => set_hist (push (hist s) (mkSnap (tasks s) (statistics s))) s).

(** The state right after [save_state]. *)
Definition pushed (s : app) : app := set_hist (push (hist s) (mkSnap (tasks s) (statistics s))) s.

(** [self.tasks[index]] *)
Definition get_task (i : Z) : PyM loc := fun s =>
  match py_getitem (tasks s) i with
  | Some l => (inr l, s)
  | None => (inl IndexError, s)
  end.

(** [self.tasks.pop(index)] *)
Definition pop_task (i : Z) : PyM loc := fun s =>
  match py_pop (tasks s) i with
  | Some (l, rest) => (inr l, set_tasks rest s)
  | None => (inl IndexError, s)
  end.

(** [self.tasks.append(task)] *)
Definition append_task (l : loc) : PyM unit := modify (fun s => set_tasks (tasks s ++ [l]) s).

(** An in-place update of the task dict [l]. *)
Definition update_task (l : loc) (f : task -> task) : PyM unit :=
  modify (fun s => set_heap (alter f l (heap s)) s).

(** [task_data = {...}]: a new dict, with a fresh identity. *)
Definition alloc_task (t : task) : PyM loc := fun s =>
  let l := next_loc s in
  (inr l, mkApp (<[l := t]> (heap s)) (S l) (daily_obj s) (tasks s) (statistics s) (hist s)).

Definition inc_completed (t : task) : task :=
  mkTask (task_id t) (description t) (created t) (completed_count t + 1) (skipped_count t).
Definition inc_skipped (t : task) : task :=
  mkTask (task_id t) (description t) (created t) (completed_count t) (skipped_count t + 1).
Definition set_description (d : string) (t : task) : task :=
  mkTask (task_id t) d (created t) (completed_count t) (skipped_count t).

(** The task ids of a list of identities, read through the store. *)
Definition ids_of (hp : gmap loc task) (ls : list loc) : list string :=
  omap (fun l => task_id <$> hp !! l) ls.

(** [existing_ids]: [for t in self.tasks: if 'task_id' in t: existing_ids.add(...)] *)
Definition existing_ids (s : app) : gset string := list_to_set (ids_of (heap s) (tasks s)).

(** [self.statistics['daily'][today] = ... + 1; self.statistics['total_done'] += 1] *)
Definition count_done (today : string) : PyM unit :=
  modify (fun s => set_statistics (mkTop (top_done (statistics s) + 1) (top_skipped (statistics s)))
                     (set_daily (bump_daily today (daily_obj s)) s)).

(** [self.statistics['total_skipped'] += 1] *)
Definition count_skip : PyM unit :=
  modify (fun s => set_statistics (mkTop (top_done (statistics s)) (top_skipped (statistics s) + 1)) s).

(** [self.tasks = state['tasks'].copy(); self.statistics = state['statistics'].copy()] *)
Definition restore (sn : snapshot) (s : app) : app :=
  set_statistics (snap_stats sn) (set_tasks (snap_tasks sn) s).

(** ** The handlers *)

(** [add_task] (189-223); [answer] is what [askstring] returned. *)
Definition add_task (c : clock) (answer : option string) : PyM reply :=
  match py_answer answer with
  | None => mret Silent
  | Some desc =>
      save_state;;
      ids ← gets existing_ids;
      match next_task_id ids with
      | Some tid =>
          l ← alloc_task (mkTask tid desc (now_iso c) 0 0);
          append_task l;;
          mret Refreshed
      | None => mret Silent   (* never taken: TaskId.next_task_id_total *)
      end
  end.

(** [edit_task] (225-239): [selection] is [curselection()] ([None] for an
    empty selection), [answer] the dialog's result. *)
Definition edit_task (selection : option Z) (answer : option string) : PyM reply :=
  match selection with
  | None => mret (Warning "Please select a task to edit")
  | Some index =>
      _ ← get_task index;
      match py_answer answer with
      | None => mret Silent
      | Some new_desc =>
          save_state;;
          l ← get_task index;
          update_task l (set_description new_desc);;
          mret Refreshed
      end
  end.

(** [delete_task] (241-252): [confirm] is the [askyesno] answer. *)
Definition delete_task (selection : option Z) (confirm : bool) : PyM reply :=
  match selection with
  | None => mret (Warning "Please select a task to delete")
  | Some index =>
      if confirm then
        save_state;;
        _ ← pop_task index;
        mret Refreshed
      else mret Silent
  end.

(** The common body of [mark_current_done] (259-269) and
    [mark_selected_done] (293-304). *)
Definition mark_done_at (c : clock) (index : Z) : PyM reply :=
  save_state;;
  l ← pop_task index;
  update_task l inc_completed;;
  append_task l;;
  count_done (date_key (now_ord c));;
  mret Refreshed.

(** The common body of [mark_current_skip] (276-284) and
    [mark_selected_skip] (313-322). *)
Definition mark_skip_at (index : Z) : PyM reply :=
  save_state;;
  l ← pop_task index;
  update_task l inc_skipped;;
  append_task l;;
  count_skip;;
  mret Refreshed.

(** [mark_current_done] / [mark_current_skip]: [if not self.tasks: return]. *)
Definition mark_current_done (c : clock) : PyM reply :=
  ts ← gets tasks;
  match ts with [] => mret Silent | _ :: _ => mark_done_at c 0 end.

Definition mark_current_skip : PyM reply :=
  ts ← gets tasks;
  match ts with [] => mret Silent | _ :: _ => mark_skip_at 0 end.

Definition mark_selected_done (c : clock) (selection : option Z) : PyM reply :=
  match selection with
  | None => mret (Warning "Please select a task to mark as done")
  | Some index => mark_done_at c index
  end.

Definition mark_selected_skip (selection : option Z) : PyM reply :=
  match selection with
  | None => mret (Warning "Please select a task to mark as skipped")
  | Some index => mark_skip_at index
  end.

(** [mark_done] / [mark_skip] (325-331): the aliases kept for backward
    compatibility. *)
Definition mark_done (c : clock) : PyM reply := mark_current_done c.
Definition mark_skip : PyM reply := mark_current_skip.

(** [undo] (333-340) and [redo] (342-349): move the cursor and install
    copies of the snapshot's list and top-level statistics. *)
Definition undo_action : PyM reply := fun s =>
  match undo (hist s) with
  | Moved h' sn => (inr Refreshed, restore sn (set_hist h' s))
  | Unmoved => (inr Silent, s)
  | MoveFault h' => (inl IndexError, set_hist h' s)
  end.

Definition redo_action : PyM reply := fun s =>
  match redo (hist s) with
  | Moved h' sn => (inr Refreshed, restore sn (set_hist h' s))
  | Unmoved => (inr Silent, s)
  | MoveFault h' => (inl IndexError, set_hist h' s)
  end.

(** ** The event loop *)

(** A button press, with the widget inputs its handler reads. *)
Inductive event :=
  | AddTask (answer : option string)
  | EditTask (selection : option Z) (answer : option string)
  | DeleteTask (selection : option Z) (confirm : bool)
  | MarkCurrentDone
  | MarkCurrentSkip
  | MarkSelectedDone (selection : option Z)
  | MarkSelectedSkip (selection : option Z)
  | Undo
  | Redo.

#[export] Instance event_eq_dec : EqDecision event.
Proof. solve_decision. Defined.

Definition handler (c : clock) (e : event) : PyM reply :=
  match e with
  | AddTask a => add_task c a
  | EditTask sel a => edit_task sel a
  | DeleteTask sel ok => delete_task sel ok
  | MarkCurrentDone => mark_current_done c
  | MarkCurrentSkip => mark_current_skip
  | MarkSelectedDone sel => mark_selected_done c sel
  | MarkSelectedSkip sel => mark_selected_skip sel
  | Undo => undo_action
  | Redo => redo_action
  end.

(** One event: the state after the handler, whatever it returned. *)
Definition step (c : clock) (e : event) (s : app) : app := snd (handler c e s).

(** A session: events in order, each with its clock reading. *)
Fixpoint run (evs : list (clock * event)) (s : app) : app :=
  match evs with
  | [] => s
  | (c, e) :: rest => run rest (step c e s)
  end.

(** [__init__] when there is no data file. *)
Definition initial_app : app := mkApp ∅ 0 ∅ [] (mkTop 0 0) empty_history.

Inductive reachable : app -> Prop :=
  | reach_init : reachable initial_app
  | reach_step c e s : reachable s -> reachable (step c e s).

(** A clock reading (2024-01-03, ordinal 738888) and the session of the
    specification's example after its two [add_task] presses. *)
Definition demo_clock : clock := mkClock 738888 "2024-01-03T09:00:00".

Definition demo_session : app :=
  run [(demo_clock, AddTask (Some "Buy milk")); (demo_clock, AddTask (Some "Walk dog"))] initial_app.

(** ** What the program shows: the store read back as values *)

(** The task dicts of a list of identities ([None] if one is missing). *)
Definition deref (hp : gmap loc task) (ls : list loc) : option (list task) :=
  mapM (fun l => hp !! l) ls.

Definition live_tasks (s : app) : option (list task) := deref (heap s) (tasks s).

Definition live_statistics (s : app) : Stats.statistics :=
  mkStats (daily_obj s) (top_done (statistics s)) (top_skipped (statistics s)).

(** ** The invariant of a session *)

(** A list of task identities is well formed in a store: every identity
    denotes a dict, none is repeated, and no two share a [task_id]. *)
Definition tasks_ok (hp : gmap loc task) (ls : list loc) : Prop :=
  Forall (fun l => is_Some (hp !! l)) ls /\ NoDup ls /\ NoDup (ids_of hp ls).

Definition app_wf (s : app) : Prop :=
  (forall l, (next_loc s <= l)%nat -> heap s !! l = None) /\
  tasks_ok (heap s) (tasks s) /\
  Forall (fun sn => tasks_ok (heap s) (snap_tasks sn)) (entries (hist s)) /\
  hist_wf (hist s).

(** The store only ever gains dicts and never changes a [task_id]. *)
Definition store_grows (hp hp' : gmap loc task) : Prop :=
  forall l t, hp !! l = Some t -> exists t', hp' !! l = Some t' /\ task_id t' = task_id t.

(** A task dict's update keeps its identifier and never lowers a count. *)
Definition task_grows (t t' : task) : Prop :=
  task_id t' = task_id t /\ completed_count t <= completed_count t' /\ skipped_count t <= skipped_count t'.

Definition counts_grow (hp hp' : gmap loc task) : Prop :=
  forall l t, hp !! l = Some t -> exists t', hp' !! l = Some t' /\ task_grows t t'.

Definition counts_nonneg (hp : gmap loc task) : Prop :=
  map_Forall (fun _ t => 0 <= completed_count t /\ 0 <= skipped_count t) hp.

(** [total_done], live and in every history entry, is at most the sum
    of the shared [daily] dict: undo can lower the one, never the
    other. *)
Definition done_bounded (s : app) : Prop :=
  top_done (statistics s) <= daily_sum (daily_obj s) /\
  Forall (fun sn => top_done (snap_stats sn) <= daily_sum (daily_obj s)) (entries (hist s)).

(** ** Lemmas on the store *)

Lemma ids_of_cons hp l ls :
  ids_of hp (l :: ls) =
    match task_id <$> hp !! l with Some i => i :: ids_of hp ls | None => ids_of hp ls end.
Proof. reflexivity. Qed.

Lemma ids_of_ext hp hp' ls :
  Forall (fun l => task_id <$> hp !! l = task_id <$> hp' !! l) ls -> ids_of hp ls = ids_of hp' ls.
Proof. induction 1 as [|l ls Hl _ IH]; [done|]. by rewrite !ids_of_cons, Hl, IH. Qed.

Lemma ids_of_alter f l hp ls :
  (forall t, task_id (f t) = task_id t) -> ids_of (alter f l hp) ls = ids_of hp ls.
Proof.
  intros Hf. apply ids_of_ext, Forall_forall. intros l' _.
  destruct (decide (l = l')) as [<-|Hne].
  - rewrite lookup_alter_eq. destruct (hp !! l); simpl; [by rewrite Hf|done].
  - by rewrite lookup_alter_ne.
Qed.

Lemma tasks_ok_alter f l hp ls :
  (forall t, task_id (f t) = task_id t) -> tasks_ok hp ls -> tasks_ok (alter f l hp) ls.
Proof.
  intros Hf (Hs & Hnd & Hids). split_and!; [|done|by rewrite ids_of_alter].
  eapply Forall_impl; [done|]. intros l'. by rewrite lookup_alter_is_Some.
Qed.

Lemma ids_of_app hp ls ls' : ids_of hp (ls ++ ls') = ids_of hp ls ++ ids_of hp ls'.
Proof. apply omap_app. Qed.

Lemma not_in_store (hp : gmap loc task) (ls : list loc) (l : loc) :
  hp !! l = None -> Forall (fun l' => is_Some (hp !! l')) ls -> Forall (fun l' => l <> l') ls.
Proof. intros Hl Hs. eapply Forall_impl; [exact Hs|]. intros l' [? ?] ->. congruence. Qed.

Lemma ids_of_insert_fresh hp ls l t :
  hp !! l = None -> Forall (fun l' => is_Some (hp !! l')) ls -> ids_of (<[l := t]> hp) ls = ids_of hp ls.
Proof.
  intros Hl Hs. apply ids_of_ext. eapply Forall_impl; [exact (not_in_store hp ls l Hl Hs)|].
  intros l' ?. by rewrite lookup_insert_ne.
Qed.

Lemma tasks_ok_insert_fresh hp ls l t :
  hp !! l = None -> tasks_ok hp ls -> tasks_ok (<[l := t]> hp) ls.
Proof.
  intros Hl (Hs & Hnd & Hids). split_and!; [| done | by rewrite ids_of_insert_fresh].
  eapply Forall_impl; [exact Hs|]. intros l' ?. rewrite lookup_insert_is_Some'. by right.
Qed.

Lemma tasks_ok_perm hp ls ls' : ls ≡ₚ ls' -> tasks_ok hp ls -> tasks_ok hp ls'.
Proof.
  intros Hp (Hs & Hnd & Hids). split_and!.
  - by rewrite <- Hp.
  - by rewrite <- Hp.
  - unfold ids_of in *. by rewrite <- Hp.
Qed.

Lemma tasks_ok_cons_inv hp l ls : tasks_ok hp (l :: ls) -> tasks_ok hp ls.
Proof.
  intros (Hs & Hnd & Hids). apply Forall_cons in Hs as [_ Hs]. apply NoDup_cons in Hnd as [_ Hnd].
  split_and!; [done|done|]. rewrite ids_of_cons in Hids.
  destruct (task_id <$> hp !! l); [by apply NoDup_cons in Hids as [_ ?]|done].
Qed.

Lemma tasks_ok_delete hp ls n x : ls !! n = Some x -> tasks_ok hp ls -> tasks_ok hp (delete n ls).
Proof.
  intros Hx Hok. apply (tasks_ok_cons_inv hp x). eapply tasks_ok_perm; [|done].
  by apply delete_Permutation.
Qed.

(** A new dict, with a fresh identity and an id not yet used, appended. *)
Lemma tasks_ok_snoc_fresh hp ls l t :
  hp !! l = None -> task_id t ∉ ids_of hp ls -> tasks_ok hp ls ->
  tasks_ok (<[l := t]> hp) (ls ++ [l]).
Proof.
  intros Hl Hid Hok. destruct Hok as (Hs & Hnd & Hids).
  pose proof (not_in_store hp ls l Hl Hs) as Hne.
  split_and!.
  - apply Forall_app. split.
    + eapply Forall_impl; [exact Hs|]. intros l' ?. rewrite lookup_insert_is_Some'. by right.
    + constructor; [|done]. rewrite lookup_insert_eq. eauto.
  - apply NoDup_app. split_and!; [done| |by apply NoDup_singleton].
    intros x Hx ->%list_elem_of_singleton. by eapply Forall_forall in Hne.
  - rewrite ids_of_app, ids_of_insert_fresh by done. rewrite ids_of_cons, lookup_insert_eq.
    simpl. apply NoDup_app. split_and!; [done| |by apply NoDup_singleton].
    by intros x Hx ->%list_elem_of_singleton.
Qed.

(** ** What each handler does to the state *)

Ltac run_monad :=
  cbv [mark_done_at mark_skip_at add_task edit_task delete_task mbind PyM_bind mret PyM_ret
       save_state modify gets get_task pop_task update_task append_task alloc_task count_done
       count_skip set_hist set_tasks set_heap set_daily set_statistics].

Lemma mark_done_at_run c i s :
  mark_done_at c i s =
    match py_pop (tasks s) i with
    | Some (l, rest) =>
        (inr Refreshed,
         mkApp (alter inc_completed l (heap s)) (next_loc s)
               (bump_daily (date_key (now_ord c)) (daily_obj s)) (rest ++ [l])
               (mkTop (top_done (statistics s) + 1) (top_skipped (statistics s))) (hist (pushed s)))
    | None => (inl IndexError, pushed s)
    end.
Proof. run_monad. destruct s; simpl. by destruct (py_pop _ i) as [[l rest]|]. Qed.

Lemma mark_skip_at_run i s :
  mark_skip_at i s =
    match py_pop (tasks s) i with
    | Some (l, rest) =>
        (inr Refreshed,
         mkApp (alter inc_skipped l (heap s)) (next_loc s) (daily_obj s) (rest ++ [l])
               (mkTop (top_done (statistics s)) (top_skipped (statistics s) + 1)) (hist (pushed s)))
    | None => (inl IndexError, pushed s)
    end.
Proof. run_monad. destruct s; simpl. by destruct (py_pop _ i) as [[l rest]|]. Qed.

Lemma add_task_run c a s :
  add_task c a s =
    match py_answer a with
    | None => (inr Silent, s)
    | Some desc =>
        match next_task_id (existing_ids s) with
        | Some tid =>
            (inr Refreshed,
             mkApp (<[next_loc s := mkTask tid desc (now_iso c) 0 0]> (heap s)) (S (next_loc s))
                   (daily_obj s) (tasks s ++ [next_loc s]) (statistics s) (hist (pushed s)))
        | None => (inr Silent, pushed s)
        end
    end.
Proof.
  run_monad. destruct s; simpl. destruct (py_answer a); [|done].
  by destruct (next_task_id _).
Qed.

Lemma edit_task_run sel a s :
  edit_task sel a s =
    match sel with
    | None => (inr (Warning "Please select a task to edit"), s)
    | Some i =>
        match py_getitem (tasks s) i with
        | None => (inl IndexError, s)
        | Some l =>
            match py_answer a with
            | None => (inr Silent, s)
            | Some d => (inr Refreshed, set_heap (alter (set_description d) l (heap s)) (pushed s))
            end
        end
    end.
Proof.
  run_monad. destruct s as [hp n d ts st h]; simpl. destruct sel as [i|]; [|done].
  cbn. destruct (py_getitem ts i) eqn:E; cbn; [|done].
  destruct (py_answer a); cbn; [|done]. by rewrite E.
Qed.

Lemma delete_task_run sel ok s :
  delete_task sel ok s =
    match sel with
    | None => (inr (Warning "Please select a task to delete"), s)
    | Some i =>
        if ok then
          match py_pop (tasks s) i with
          | Some (_, rest) => (inr Refreshed, set_tasks rest (pushed s))
          | None => (inl IndexError, pushed s)
          end
        else (inr Silent, s)
    end.
Proof.
  run_monad. destruct s; simpl. destruct sel as [i|]; [|done]. destruct ok; [|done].
  by destruct (py_pop _ i) as [[l rest]|].
Qed.

Lemma mark_current_done_run c s :
  mark_current_done c s = match tasks s with [] => (inr Silent, s) | _ :: _ => mark_done_at c 0 s end.
Proof. unfold mark_current_done. cbv [mbind PyM_bind gets]. by destruct (tasks s). Qed.

Lemma mark_current_skip_run s :
  mark_current_skip s = match tasks s with [] => (inr Silent, s) | _ :: _ => mark_skip_at 0 s end.
Proof. unfold mark_current_skip. cbv [mbind PyM_bind gets]. by destruct (tasks s). Qed.

(** ** The invariant is preserved *)

Lemma tasks_ok_grows hp hp' ls : store_grows hp hp' -> tasks_ok hp ls -> tasks_ok hp' ls.
Proof.
  intros Hg (Hs & Hnd & Hids).
  assert (Heq : ids_of hp' ls = ids_of hp ls).
  { apply ids_of_ext. eapply Forall_impl; [exact Hs|]. intros l [t Ht].
    destruct (Hg l t Ht) as (t' & -> & Hid). by rewrite Ht; simpl; rewrite Hid. }
  split_and!; [|done|by rewrite Heq].
  eapply Forall_impl; [exact Hs|]. intros l [t Ht]. destruct (Hg l t Ht) as (t' & -> & _). eauto.
Qed.

Lemma snaps_grow hp hp' (es : list snapshot) :
  store_grows hp hp' ->
  Forall (fun sn => tasks_ok hp (snap_tasks sn)) es -> Forall (fun sn => tasks_ok hp' (snap_tasks sn)) es.
Proof. intros Hg H. eapply Forall_impl; [exact H|]. intros sn. by apply tasks_ok_grows. Qed.

Lemma store_grows_alter f l hp :
  (forall t, task_id (f t) = task_id t) -> store_grows hp (alter f l hp).
Proof.
  intros Hf l' t Ht. destruct (decide (l = l')) as [<-|Hne].
  - rewrite lookup_alter_eq, Ht. eexists; split; [done|]. apply Hf.
  - rewrite lookup_alter_ne by done. eauto.
Qed.

Lemma store_grows_insert hp l t : hp !! l = None -> store_grows hp (<[l := t]> hp).
Proof. intros Hl l' t' Ht. rewrite lookup_insert_ne by congruence. eauto. Qed.

Lemma alter_None f l (hp : gmap loc task) l' : hp !! l' = None -> alter f l hp !! l' = None.
Proof.
  intros H. destruct (alter f l hp !! l') eqn:E; [|done].
  assert (Hs : is_Some (alter f l hp !! l')) by eauto.
  rewrite lookup_alter_is_Some, H in Hs. by destruct Hs.
Qed.

Lemma app_wf_pushed s : app_wf s -> app_wf (pushed s).
Proof.
  intros (Hfr & Hlive & Hsn & Hh). unfold pushed, app_wf. simpl. split_and!; [done|done| |].
  - by apply push_Forall.
  - by apply push_wf.
Qed.

(** Popping a task, updating its dict and appending it (the rotation of
    the four [mark_*] handlers) keeps the invariant. *)
Lemma rotate_wf s i l rest f d st :
  app_wf s -> py_pop (tasks s) i = Some (l, rest) -> (forall t, task_id (f t) = task_id t) ->
  app_wf (mkApp (alter f l (heap s)) (next_loc s) d (rest ++ [l]) st (hist (pushed s))).
Proof.
  intros Hwf Hpop Hf. destruct (app_wf_pushed s Hwf) as (Hfr & Hlive & Hsn & Hh).
  unfold pushed in *; simpl in *. split_and!; simpl.
  - intros l' Hl'. by apply alter_None, Hfr.
  - apply tasks_ok_alter; [done|]. eapply tasks_ok_perm; [|exact Hlive].
    symmetry. by eapply py_pop_rotate_perm.
  - eapply snaps_grow; [by apply store_grows_alter|done].
  - done.
Qed.

Lemma add_wf s c desc tid :
  app_wf s -> next_task_id (existing_ids s) = Some tid ->
  app_wf (mkApp (<[next_loc s := mkTask tid desc (now_iso c) 0 0]> (heap s)) (S (next_loc s))
                (daily_obj s) (tasks s ++ [next_loc s]) (statistics s) (hist (pushed s))).
Proof.
  intros Hwf Hid. destruct (app_wf_pushed s Hwf) as (Hfr & Hlive & Hsn & Hh).
  unfold pushed in *; simpl in *.
  assert (Hn : heap s !! next_loc s = None) by (apply Hfr; lia).
  split_and!; simpl.
  - intros l' Hl'. rewrite lookup_insert_ne by lia. apply Hfr. lia.
  - apply tasks_ok_snoc_fresh; [done| |done]. simpl.
    apply next_task_id_fresh in Hid. unfold existing_ids in Hid.
    by rewrite elem_of_list_to_set in Hid.
  - eapply snaps_grow; [by apply store_grows_insert|done].
  - done.
Qed.

Lemma edit_wf s l d : app_wf s -> app_wf (set_heap (alter (set_description d) l (heap s)) (pushed s)).
Proof.
  intros Hwf. destruct (app_wf_pushed s Hwf) as (Hfr & Hlive & Hsn & Hh).
  unfold pushed, set_heap in *; simpl in *. split_and!; simpl.
  - intros l' Hl'. by apply alter_None, Hfr.
  - by apply tasks_ok_alter.
  - eapply snaps_grow; [by apply store_grows_alter|done].
  - done.
Qed.

Lemma delete_wf s i l rest : app_wf s -> py_pop (tasks s) i = Some (l, rest) -> app_wf (set_tasks rest (pushed s)).
Proof.
  intros Hwf Hpop. destruct (app_wf_pushed s Hwf) as (Hfr & Hlive & Hsn & Hh).
  apply py_pop_Some in Hpop as (n & _ & Hx & ->).
  unfold pushed, set_tasks in *; simpl in *. split_and!; try done.
  by eapply tasks_ok_delete.
Qed.

(** Undo / redo install a stored snapshot's list: it is well formed
    because every stored snapshot is. *)
Lemma restore_wf s h' sn :
  app_wf s -> hist_wf h' -> entries h' = entries (hist s) -> sn ∈ entries (hist s) ->
  app_wf (restore sn (set_hist h' s)).
Proof.
  intros (Hfr & Hlive & Hsn & Hh) Hh' Hent Hin.
  unfold restore, set_statistics, set_tasks, set_hist, app_wf; simpl. split_and!; try done.
  - by eapply Forall_forall in Hsn.
  - by rewrite Hent.
Qed.

(** Every handler keeps the invariant. *)
Lemma step_wf c e s : app_wf s -> app_wf (step c e s).
Proof.
  intros Hwf. unfold step, handler. destruct e as [a|sel a|sel ok| | |sel|sel| |].
  - rewrite add_task_run. destruct (py_answer a); [|done].
    destruct (next_task_id _) eqn:E; [by apply add_wf|by apply app_wf_pushed].
  - rewrite edit_task_run. destruct sel; [|done]. destruct (py_getitem _ _); [|done].
    destruct (py_answer a); [by apply edit_wf|done].
  - rewrite delete_task_run. destruct sel; [|done]. destruct ok; [|done].
    destruct (py_pop _ _) as [[l rest]|] eqn:E; [by eapply delete_wf|by apply app_wf_pushed].
  - rewrite mark_current_done_run. destruct (tasks s) as [|t0 ts0] eqn:Et; [done|].
    rewrite mark_done_at_run. destruct (py_pop _ _) as [[l rest]|] eqn:E;
      [by eapply rotate_wf|by apply app_wf_pushed].
  - rewrite mark_current_skip_run. destruct (tasks s) as [|t0 ts0] eqn:Et; [done|].
    rewrite mark_skip_at_run. destruct (py_pop _ _) as [[l rest]|] eqn:E;
      [by eapply rotate_wf|by apply app_wf_pushed].
  - destruct sel; [|done]. simpl. rewrite mark_done_at_run.
    destruct (py_pop _ _) as [[l rest]|] eqn:E; [by eapply rotate_wf|by apply app_wf_pushed].
  - destruct sel; [|done]. simpl. rewrite mark_skip_at_run.
    destruct (py_pop _ _) as [[l rest]|] eqn:E; [by eapply rotate_wf|by apply app_wf_pushed].
  - destruct Hwf as (Hfr & Hlive & Hsn & Hh) eqn:Hw. unfold undo_action.
    destruct (undo (hist s)) as [h' sn| |h'] eqn:E; simpl; [|done|by apply undo_no_fault in E].
    destruct (undo_moved _ _ _ Hh E). eapply restore_wf; [done|by eapply undo_wf|done|done].
  - destruct Hwf as (Hfr & Hlive & Hsn & Hh) eqn:Hw. unfold redo_action.
    destruct (redo (hist s)) as [h' sn| |h'] eqn:E; simpl; [|done|by apply redo_no_fault in E].
    destruct (redo_moved _ _ _ Hh E). eapply restore_wf; [done|by eapply redo_wf|done|done].
Qed.

Lemma initial_wf : app_wf initial_app.
Proof.
  split_and!.
  - intros l _. apply lookup_empty.
  - split_and!; constructor.
  - constructor.
  - by left.
Qed.

Lemma reachable_app_wf s : reachable s -> app_wf s.
Proof. induction 1; [apply initial_wf|by apply step_wf]. Qed.

(** ** What a button press does to the task dicts *)

(** A press leaves the store as it was, updates one dict in place
    (a completion, a skip or a new description), or adds a fresh dict
    with zero counts. *)
Lemma step_heap c e s :
  heap (step c e s) = heap s \/
  (exists f l, heap (step c e s) = alter f l (heap s) /\ forall t, task_grows t (f t)) \/
  (exists t, heap (step c e s) = <[next_loc s := t]> (heap s) /\
             completed_count t = 0 /\ skipped_count t = 0).
Proof.
  assert (Hc : forall t, task_grows t (inc_completed t)) by (intros; red; simpl; split_and!; (done || lia)).
  assert (Hk : forall t, task_grows t (inc_skipped t)) by (intros; red; simpl; split_and!; (done || lia)).
  assert (Hd : forall d t, task_grows t (set_description d t)) by (intros; red; simpl; split_and!; (done || lia)).
  unfold step, handler. destruct e as [a|sel a|sel ok| | |sel|sel| |].
  - rewrite add_task_run. destruct (py_answer a); [|by left].
    destruct (next_task_id _); [right; right; by eexists|by left].
  - rewrite edit_task_run. destruct sel; [|by left]. destruct (py_getitem _ _); [|by left].
    destruct (py_answer a); [right; left; by do 2 eexists|by left].
  - rewrite delete_task_run. destruct sel; [|by left]. destruct ok; [|by left].
    destruct (py_pop _ _) as [[? ?]|]; by left.
  - rewrite mark_current_done_run. destruct (tasks s); [by left|]. rewrite mark_done_at_run.
    destruct (py_pop _ _) as [[? ?]|]; [right; left; by do 2 eexists|by left].
  - rewrite mark_current_skip_run. destruct (tasks s); [by left|]. rewrite mark_skip_at_run.
    destruct (py_pop _ _) as [[? ?]|]; [right; left; by do 2 eexists|by left].
  - destruct sel; [|by left]. simpl. rewrite mark_done_at_run.
    destruct (py_pop _ _) as [[? ?]|]; [right; left; by do 2 eexists|by left].
  - destruct sel; [|by left]. simpl. rewrite mark_skip_at_run.
    destruct (py_pop _ _) as [[? ?]|]; [right; left; by do 2 eexists|by left].
  - left. unfold undo_action. by destruct (undo (hist s)).
  - left. unfold redo_action. by destruct (redo (hist s)).
Qed.

Lemma task_grows_refl t : task_grows t t.
Proof. red. split_and!; (done || lia). Qed.

Lemma counts_grow_alter f l hp : (forall t, task_grows t (f t)) -> counts_grow hp (alter f l hp).
Proof.
  intros Hf l' t Ht. destruct (decide (l = l')) as [<-|Hne].
  - rewrite lookup_alter_eq, Ht. by eexists.
  - rewrite lookup_alter_ne by done. exists t. split; [done|]. apply task_grows_refl.
Qed.

(** ** Reading the store back as values *)

Lemma deref_cons hp l ls :
  deref hp (l :: ls) = t ← hp !! l; ts ← deref hp ls; Some (t :: ts).
Proof. reflexivity. Qed.

Lemma deref_Some hp ls :
  Forall (fun l => is_Some (hp !! l)) ls ->
  exists ts, deref hp ls = Some ts /\ map task_id ts = ids_of hp ls.
Proof.
  induction 1 as [|l ls [t Ht] _ IH]; [by exists []|].
  destruct IH as (ts & Hd & Hm). exists (t :: ts).
  rewrite deref_cons, Ht, ids_of_cons, Ht. simpl. rewrite Hd. simpl. by rewrite Hm.
Qed.

Lemma deref_ext hp hp' ls :
  Forall (fun l => hp !! l = hp' !! l) ls -> deref hp ls = deref hp' ls.
Proof. induction 1 as [|l ls Hl _ IH]; [done|]. by rewrite !deref_cons, Hl, IH. Qed.

Lemma deref_app hp ls ls' ts ts' :
  deref hp ls = Some ts -> deref hp ls' = Some ts' -> deref hp (ls ++ ls') = Some (ts ++ ts').
Proof.
  revert ts. induction ls as [|l ls IH]; intros ts; cbn [Datatypes.app].
  - by intros [= <-] ->.
  - rewrite !deref_cons. destruct (hp !! l) as [t|]; simpl; [|done].
    destruct (deref hp ls) as [ts0|] eqn:E; simpl; [|done]. intros [= <-] H'.
    by rewrite (IH ts0 eq_refl H').
Qed.

(** The dicts of the tasks other than the one acted on are untouched. *)
Lemma deref_alter_notin f l hp ls :
  l ∉ ls -> deref (alter f l hp) ls = deref hp ls.
Proof.
  intros Hl. apply deref_ext, Forall_forall. intros l' Hl'.
  apply lookup_alter_ne. intros ->. contradiction.
Qed.

Lemma deref_lookup hp ls ts n l :
  deref hp ls = Some ts -> ls !! n = Some l -> hp !! l = ts !! n /\ is_Some (hp !! l).
Proof.
  revert ts n. induction ls as [|l0 ls IH]; intros ts n Hd Hl; [done|].
  rewrite deref_cons in Hd. destruct (hp !! l0) as [t0|] eqn:E0; simpl in Hd; [|done].
  destruct (deref hp ls) as [ts0|] eqn:E; simpl in Hd; [|done]. injection Hd as <-.
  destruct n as [|n]; simpl in Hl |- *.
  - injection Hl as <-. rewrite E0. eauto.
  - by apply (IH ts0 n).
Qed.

Lemma deref_delete hp ls ts n :
  deref hp ls = Some ts -> deref hp (delete n ls) = Some (delete n ts).
Proof.
  revert ts n. induction ls as [|l0 ls IH]; intros ts n Hd.
  { by injection Hd as <-. }
  rewrite deref_cons in Hd. destruct (hp !! l0) as [t0|] eqn:E0; simpl in Hd; [|done].
  destruct (deref hp ls) as [ts0|] eqn:E; simpl in Hd; [|done]. injection Hd as <-.
  destruct n as [|n]; [done|].
  change (delete (S n) (l0 :: ls)) with (l0 :: delete n ls).
  change (delete (S n) (t0 :: ts0)) with (t0 :: delete n ts0).
  rewrite deref_cons, E0. simpl. by rewrite (IH ts0 n).
Qed.

(** The rotation on the values: the dict popped at position [n] comes
    back at the end with its counter increased, the others keep their
    order, and the statistics record the completion. *)
(** Popping the task at a valid index and appending it, updated by [f],
    reads back as the queue with that task moved to the end. *)
Lemma rotate_view s i n ts t f :
  app_wf s -> live_tasks s = Some ts ->
  py_norm_index (length ts) i = Some n -> ts !! n = Some t ->
  exists l rest, py_pop (tasks s) i = Some (l, rest) /\
    deref (alter f l (heap s)) (rest ++ [l]) = Some (delete n ts ++ [f t]).
Proof.
  intros (_ & (Hs & Hnd & _) & _) Hd Hn Ht. unfold live_tasks in *.
  pose proof (length_mapM _ _ _ Hd) as Hlen. fold (deref (heap s) (tasks s)) in Hlen.
  destruct (lookup_lt_is_Some_2 (tasks s) n) as [l Hl].
  { apply py_norm_index_Some in Hn. lia. }
  exists l, (delete n (tasks s)). split; [unfold py_pop; by rewrite Hlen, Hn, Hl|].
  destruct (deref_lookup _ _ _ _ _ Hd Hl) as [Hhl _]. rewrite Ht in Hhl.
  assert (Hnotin : l ∉ delete n (tasks s)).
  { intros Hin. pose proof (delete_Permutation (tasks s) n l Hl) as Hp.
    rewrite Hp in Hnd. apply NoDup_cons in Hnd as [Hn' _]. contradiction. }
  apply deref_app.
  - rewrite deref_alter_notin by done. by apply deref_delete.
  - unfold deref. simpl. by rewrite lookup_alter_eq, Hhl.
Qed.

Lemma mark_done_at_view c s i n ts t :
  app_wf s -> live_tasks s = Some ts ->
  py_norm_index (length ts) i = Some n -> ts !! n = Some t ->
  live_tasks (snd (mark_done_at c i s)) = Some (delete n ts ++ [inc_completed t]) /\
  live_statistics (snd (mark_done_at c i s)) = record_done (date_key (now_ord c)) (live_statistics s) /\
  hist (snd (mark_done_at c i s)) = push (hist s) (mkSnap (tasks s) (statistics s)).
Proof.
  intros Hwf Hd Hn Ht. destruct (rotate_view s i n ts t inc_completed Hwf Hd Hn Ht) as (l & rest & Hpop & Hv).
  rewrite mark_done_at_run, Hpop. by split_and!.
Qed.

Lemma mark_skip_at_view s i n ts t :
  app_wf s -> live_tasks s = Some ts ->
  py_norm_index (length ts) i = Some n -> ts !! n = Some t ->
  live_tasks (snd (mark_skip_at i s)) = Some (delete n ts ++ [inc_skipped t]) /\
  live_statistics (snd (mark_skip_at i s)) = record_skip (live_statistics s) /\
  hist (snd (mark_skip_at i s)) = push (hist s) (mkSnap (tasks s) (statistics s)).
Proof.
  intros Hwf Hd Hn Ht. destruct (rotate_view s i n ts t inc_skipped Hwf Hd Hn Ht) as (l & rest & Hpop & Hv).
  rewrite mark_skip_at_run, Hpop. by split_and!.
Qed.

Lemma reachable_run evs s : reachable s -> reachable (run evs s).
Proof.
  revert s. induction evs as [|[c e] evs IH]; intros s Hs; simpl; [done|].
  apply IH. by constructor.
Qed.

Lemma undo_redo_objects c e s :
  (e = Undo \/ e = Redo) -> heap (step c e s) = heap s /\ daily_obj (step c e s) = daily_obj s.
Proof.
  intros [-> | ->]; unfold step, handler, undo_action, redo_action;
    [destruct (undo (hist s))|destruct (redo (hist s))]; done.
Qed.

Lemma undo_unmoved_silent s : undo (hist s) = Unmoved -> undo_action s = (inr Silent, s).
Proof. intros E. unfold undo_action. by rewrite E. Qed.

(** Apart from undo and redo, a handler leaves the history alone or
    pushes the state it started from. *)
Lemma forward_hist c e s :
  e <> Undo -> e <> Redo -> hist (step c e s) = hist s \/ hist (step c e s) = hist (pushed s).
Proof.
  intros Hu Hr. unfold step, handler. destruct e as [a|sel a|sel ok| | |sel|sel| |]; try done.
  - rewrite add_task_run. destruct (py_answer a); [|by left]. destruct (next_task_id _); by right.
  - rewrite edit_task_run. destruct sel; [|by left]. destruct (py_getitem _ _); [|by left].
    destruct (py_answer a); [by right|by left].
  - rewrite delete_task_run. destruct sel; [|by left]. destruct ok; [|by left].
    destruct (py_pop _ _) as [[??]|]; by right.
  - rewrite mark_current_done_run. destruct (tasks s); [by left|].
    rewrite mark_done_at_run. destruct (py_pop _ _) as [[??]|]; by right.
  - rewrite mark_current_skip_run. destruct (tasks s); [by left|].
    rewrite mark_skip_at_run. destruct (py_pop _ _) as [[??]|]; by right.
  - destruct sel; [|by left]. simpl. rewrite mark_done_at_run.
    destruct (py_pop _ _) as [[??]|]; by right.
  - destruct sel; [|by left]. simpl. rewrite mark_skip_at_run.
    destruct (py_pop _ _) as [[??]|]; by right.
Qed.

(** After one event from the start, the history is empty or holds the
    single snapshot of the empty session. *)
Lemma first_step_hist c e :
  hist (step c e initial_app) = empty_history \/ hist (step c e initial_app) = hist (pushed initial_app).
Proof. destruct e; try (apply forward_hist; discriminate); by left. Qed.

Lemma consistent_bump k d t sk sk' :
  stats_consistent (mkStats d t sk) -> stats_consistent (mkStats (bump_daily k d) (t + 1) sk').
Proof. unfold stats_consistent, bump_daily. simpl. rewrite daily_sum_insert. lia. Qed.

(** Apart from undo and redo, a handler leaves [daily] and [total_done]
    alone or records exactly one completion in both. *)
Lemma forward_statistics c e s :
  e <> Undo -> e <> Redo ->
  (daily_obj (step c e s) = daily_obj s /\ top_done (statistics (step c e s)) = top_done (statistics s)) \/
  (daily_obj (step c e s) = bump_daily (date_key (now_ord c)) (daily_obj s) /\
   top_done (statistics (step c e s)) = top_done (statistics s) + 1).
Proof.
  intros Hu Hr. unfold step, handler. destruct e as [a|sel a|sel ok| | |sel|sel| |]; try done.
  - rewrite add_task_run. destruct (py_answer a); [|by left]. destruct (next_task_id _); by left.
  - rewrite edit_task_run. destruct sel; [|by left]. destruct (py_getitem _ _); [|by left].
    destruct (py_answer a); by left.
  - rewrite delete_task_run. destruct sel; [|by left]. destruct ok; [|by left].
    destruct (py_pop _ _) as [[??]|]; by left.
  - rewrite mark_current_done_run. destruct (tasks s); [by left|].
    rewrite mark_done_at_run. destruct (py_pop _ _) as [[??]|]; [by right|by left].
  - rewrite mark_current_skip_run. destruct (tasks s); [by left|].
    rewrite mark_skip_at_run. destruct (py_pop _ _) as [[??]|]; by left.
  - destruct sel; [|by left]. simpl. rewrite mark_done_at_run.
    destruct (py_pop _ _) as [[??]|]; [by right|by left].
  - destruct sel; [|by left]. simpl. rewrite mark_skip_at_run.
    destruct (py_pop _ _) as [[??]|]; by left.
Qed.

Lemma deref_insert_fresh hp ls l t :
  hp !! l = None -> Forall (fun l' => is_Some (hp !! l')) ls -> deref (<[l := t]> hp) ls = deref hp ls.
Proof.
  intros Hl Hs. apply deref_ext. eapply Forall_impl; [exact (not_in_store hp ls l Hl Hs)|].
  intros l' ?. by rewrite lookup_insert_ne.
Qed.

(** A well-formed state reads back as task dicts with distinct identifiers. *)
Lemma app_wf_live s :
  app_wf s -> exists ts, live_tasks s = Some ts /\ NoDup (map task_id ts).
Proof.
  intros (_ & (Hs & _ & Hids) & _). destruct (deref_Some _ _ Hs) as (ts & Hd & Hm).
  exists ts. unfold live_tasks. by rewrite Hd, Hm.
Qed.

Lemma reachable_counts_nonneg s : reachable s -> counts_nonneg (heap s).
Proof.
  induction 1 as [|c e s Hr IH]; [apply map_Forall_empty|].
  destruct (step_heap c e s) as [->|[(f & l & -> & Hf)|(t & -> & H0 & H1)]]; [done| |].
  - intros l' t' [(_ & x & Hx & ->)|(_ & Hx)]%lookup_alter_Some.
    + destruct (Hf x) as (_ & ? & ?). destruct (IH _ _ Hx). lia.
    + by apply (IH l').
  - apply map_Forall_insert_2; [lia|done].
Qed.

(** What holds of every dict of the store holds of the tasks a list
    denotes. *)
Lemma deref_Forall (P : task -> Prop) hp ls ts :
  map_Forall (fun _ t => P t) hp -> deref hp ls = Some ts -> Forall P ts.
Proof.
  intros HP. revert ts. induction ls as [|l ls IH]; intros ts Hd; [by injection Hd as <-|].
  rewrite deref_cons in Hd. destruct (hp !! l) as [t|] eqn:E; simpl in Hd; [|done].
  destruct (deref hp ls) as [ts0|]; simpl in Hd; [|done]. injection Hd as <-.
  constructor; [by apply (HP l)|by apply IH].
Qed.

Lemma daily_sum_bump k d : daily_sum (bump_daily k d) = daily_sum d + 1.
Proof. unfold bump_daily. rewrite daily_sum_insert. lia. Qed.

(** The entry under a non-empty history's cursor is one of its entries. *)
Lemma present_abs_Some {A} (h : history A) :
  hist_wf h -> entries h <> [] -> exists x, present (abs h) = Some x /\ x ∈ entries h.
Proof.
  intros [[He _]|[Hi _]] Hne; [done|]. rewrite abs_nonneg by lia. simpl.
  destruct (lookup_lt_is_Some_2 (entries h) (Z.to_nat (index h))) as [x Hx]; [lia|].
  exists x. split; [done|]. by eapply list_elem_of_lookup_2.
Qed.

Lemma restore_done_bounded s h' sn :
  done_bounded s -> entries h' = entries (hist s) -> sn ∈ entries (hist s) ->
  done_bounded (restore sn (set_hist h' s)).
Proof.
  intros [_ Hsn] He Hin. split; simpl; [|by rewrite He].
  by apply (Forall_forall _ _) with (x := sn) in Hsn.
Qed.

Lemma step_done_bounded c e s : app_wf s -> done_bounded s -> done_bounded (step c e s).
Proof.
  intros (_ & _ & _ & Hhw) Hb. destruct (decide (e = Undo \/ e = Redo)) as [[-> | ->]|Hn].
  - unfold step, handler, undo_action. destruct (undo (hist s)) as [h' sn| |h'] eqn:E; [|done|].
    + destruct (undo_moved _ _ _ Hhw E). by apply restore_done_bounded.
    + by apply undo_no_fault in E.
  - unfold step, handler, redo_action. destruct (redo (hist s)) as [h' sn| |h'] eqn:E; [|done|].
    + destruct (redo_moved _ _ _ Hhw E). by apply restore_done_bounded.
    + by apply redo_no_fault in E.
  - assert (Hu : e <> Undo) by tauto. assert (Hr : e <> Redo) by tauto. destruct Hb as [Htop Hsn].
    assert (Hsn' : forall k, Forall (fun sn => top_done (snap_stats sn) <= daily_sum (bump_daily k (daily_obj s)))
                             (entries (hist s))).
    { intros k. eapply Forall_impl; [exact Hsn|]. intros sn. rewrite daily_sum_bump. lia. }
    destruct (forward_hist c e s Hu Hr) as [Hh|Hh];
      destruct (forward_statistics c e s Hu Hr) as [[Hd Ht]|[Hd Ht]]; unfold done_bounded;
      rewrite Hh, Hd, Ht; (split; [rewrite ?daily_sum_bump; lia|]); cbn [pushed set_hist hist];
      [exact Hsn|apply Hsn'|apply push_Forall; [done|exact Hsn|simpl; lia]|].
    apply push_Forall; [done|apply Hsn'|simpl; rewrite daily_sum_bump; lia].
Qed.

Lemma reachable_done_bounded s : reachable s -> done_bounded s.
Proof.
  induction 1 as [|c e s Hr IH]; [split; [vm_compute; discriminate|constructor]|].
  by apply step_done_bounded; [apply reachable_app_wf|].
Qed.

Lemma undo_step_moved c s h' sn : undo (hist s) = Moved h' sn -> step c Undo s = restore sn (set_hist h' s).
Proof. intros E. unfold step, handler, undo_action. by rewrite E. Qed.

Lemma redo_step_moved c s h' sn : redo (hist s) = Moved h' sn -> step c Redo s = restore sn (set_hist h' s).
Proof. intros E. unfold step, handler, redo_action. by rewrite E. Qed.

(** After a handler that saved the state, on a non-empty history, undo
    moves the cursor back to the entry that was under it before. *)
Lemma undo_after_save c c' e s :
  app_wf s -> entries (hist s) <> [] -> hist (step c e s) = hist (pushed s) ->
  exists h' prev, prev ∈ entries (hist s) /\ undo (hist (step c e s)) = Moved h' prev /\
    step c' Undo (step c e s) = restore prev (set_hist h' (step c e s)).
Proof.
  intros (_ & _ & _ & Hhw) Hne Hh. destruct (present_abs_Some (hist s) Hhw Hne) as (prev & Hp & Hin).
  pose proof (undo_after_push (hist s) (mkSnap (tasks s) (statistics s)) Hhw) as Hu.
  rewrite Hp in Hu. destruct Hu as [h' Hu]. rewrite Hh. exists h', prev.
  split_and!; [done|done|]. apply undo_step_moved. by rewrite Hh.
Qed.

(** ** Theorems *)

(** C4: [mark_current_done] on a non-empty queue: the head moves to the tail
    with its completion count increased, the other tasks shift left by
    one, the completion is recorded under today's key, and the history
    receives the state as it was before. *)
Theorem mark_current_done_rotates c s t ts :
  app_wf s -> live_tasks s = Some (t :: ts) ->
  live_tasks (step c MarkCurrentDone s) = Some (ts ++ [inc_completed t]) /\
  live_statistics (step c MarkCurrentDone s) = record_done (date_key (now_ord c)) (live_statistics s) /\
  hist (step c MarkCurrentDone s) = push (hist s) (mkSnap (tasks s) (statistics s)).
Proof.
  intros Hwf Hd. unfold step, handler. rewrite mark_current_done_run.
  destruct (tasks s) as [|l ls] eqn:Et; [unfold live_tasks in Hd; rewrite Et in Hd; done|].
  rewrite <- Et. apply (mark_done_at_view c s 0 0 (t :: ts) t); [done|done| |done].
  reflexivity.
Qed.

Lemma mark_current_done_rotates_witness :
  live_tasks demo_session = Some [mkTask "A" "Buy milk" "2024-01-03T09:00:00" 0 0;
                                  mkTask "B" "Walk dog" "2024-01-03T09:00:00" 0 0] /\
  live_tasks (step demo_clock MarkCurrentDone demo_session) =
    Some ([mkTask "B" "Walk dog" "2024-01-03T09:00:00" 0 0] ++
          [inc_completed (mkTask "A" "Buy milk" "2024-01-03T09:00:00" 0 0)]).
Proof.
  assert (Hwf : app_wf demo_session) by (apply reachable_app_wf, reachable_run, reach_init).
  assert (Hd : live_tasks demo_session =
                 Some [mkTask "A" "Buy milk" "2024-01-03T09:00:00" 0 0;
                       mkTask "B" "Walk dog" "2024-01-03T09:00:00" 0 0]) by (vm_compute; reflexivity).
  split; [exact Hd|]. apply (mark_current_done_rotates _ _ _ _ Hwf Hd).
Defined.

(** C7: Undo and redo never touch a task dict or the [daily] dict: whatever
    an edit, a completion or a skip wrote there stays, through any
    sequence of undos and redos. *)
Theorem undo_redo_keep_objects evs s :
  Forall (fun ce => snd ce = Undo \/ snd ce = Redo) evs ->
  heap (run evs s) = heap s /\ daily_obj (run evs s) = daily_obj s.
Proof.
  revert s. induction evs as [|[c e] evs IH]; intros s Hf; simpl; [done|].
  apply Forall_cons in Hf as [He Hf]. destruct (IH (step c e s) Hf) as [-> ->].
  by apply undo_redo_objects.
Qed.

Lemma undo_redo_keep_objects_witness :
  heap (run [(demo_clock, Undo); (demo_clock, Redo); (demo_clock, Undo)] demo_session) = heap demo_session.
Proof.
  apply (undo_redo_keep_objects _ demo_session).
  constructor; [left; reflexivity|]. constructor; [right; reflexivity|].
  constructor; [left; reflexivity|]. constructor.
Defined.

(** C5: Undo after "Done (Current)" takes back neither the completion nor
    its day: from any reachable state with a non-empty queue and a
    non-empty history, pressing "Done (Current)" then "Undo" leaves the
    [daily] dict with the completion recorded, the head task's dict with
    its increased count, and [total_done] restored from an older
    snapshot, strictly below the sum of [daily].  The specification
    says undo restores the previous state and that [total_done] is the
    sum of the per-day counts. *)
Theorem undo_after_done_desync c c' s t ts :
  reachable s -> live_tasks s = Some (t :: ts) -> entries (hist s) <> [] ->
  daily_obj (step c' Undo (step c MarkCurrentDone s)) = bump_daily (date_key (now_ord c)) (daily_obj s) /\
  (exists l, head (tasks s) = Some l /\
     heap (step c' Undo (step c MarkCurrentDone s)) !! l = Some (inc_completed t)) /\
  top_done (statistics (step c' Undo (step c MarkCurrentDone s))) <
    daily_sum (daily_obj (step c' Undo (step c MarkCurrentDone s))).
Proof.
  intros Hr Hd Hne. pose proof (reachable_app_wf s Hr) as Hwf.
  destruct (reachable_done_bounded s Hr) as [_ Hsn].
  destruct (tasks s) as [|l ls] eqn:Et; [unfold live_tasks in Hd; by rewrite Et in Hd|].
  assert (Hl : heap s !! l = Some t).
  { unfold live_tasks in Hd. rewrite Et in Hd. by destruct (deref_lookup _ _ _ 0 l Hd). }
  assert (Hs1 : step c MarkCurrentDone s =
                  mkApp (alter inc_completed l (heap s)) (next_loc s)
                    (bump_daily (date_key (now_ord c)) (daily_obj s)) (ls ++ [l])
                    (mkTop (top_done (statistics s) + 1) (top_skipped (statistics s))) (hist (pushed s))).
  { unfold step, handler. rewrite mark_current_done_run, Et, mark_done_at_run, Et, py_pop_head.
    reflexivity. }
  destruct (undo_after_save c c' MarkCurrentDone s Hwf Hne) as (h' & prev & Hin & _ & ->);
    [by rewrite Hs1|].
  rewrite Hs1. cbn. split_and!; [done|exists l; split; [done|by rewrite lookup_alter_eq, Hl]|].
  rewrite daily_sum_bump. apply (Forall_forall _ _) with (x := prev) in Hsn; [lia|done].
Qed.

(** The scenario of the specification (section 8): add "Buy milk" (A)
    and "Walk dog" (B), mark the current task done, undo.  [total_done]
    is back to 0 while [daily] keeps the completion. *)
Lemma undo_after_done_desync_witness :
  top_done (statistics (step demo_clock Undo (step demo_clock MarkCurrentDone demo_session))) <
    daily_sum (daily_obj (step demo_clock Undo (step demo_clock MarkCurrentDone demo_session))).
Proof.
  assert (Hr : reachable demo_session) by (apply reachable_run, reach_init).
  assert (Hd : live_tasks demo_session =
                 Some (mkTask "A" "Buy milk" "2024-01-03T09:00:00" 0 0 ::
                       [mkTask "B" "Walk dog" "2024-01-03T09:00:00" 0 0])) by (vm_compute; reflexivity).
  assert (Hne : entries (hist demo_session) <> []) by (vm_compute; discriminate).
  destruct (undo_after_done_desync demo_clock demo_clock demo_session _ _ Hr Hd Hne) as (_ & _ & H).
  exact H.
Defined.

(** C6: Redo right after undo does not redo the action: after any handler
    that saved the state (on a non-empty history), "Undo" then "Redo"
    installs the list and the counters as they were *before* that
    handler ran, with the history as the handler left it.  The
    specification asks that redo after undo restore the state after the
    action. *)
Theorem redo_after_undo_restores_before c c1 c2 e s :
  reachable s -> entries (hist s) <> [] -> hist (step c e s) = hist (pushed s) ->
  tasks (step c2 Redo (step c1 Undo (step c e s))) = tasks s /\
  statistics (step c2 Redo (step c1 Undo (step c e s))) = statistics s /\
  hist (step c2 Redo (step c1 Undo (step c e s))) = hist (step c e s).
Proof.
  intros Hr Hne Hh. pose proof (reachable_app_wf s Hr) as Hwf. pose proof Hwf as (_ & _ & _ & Hhw).
  destruct (undo_after_save c c1 e s Hwf Hne Hh) as (h' & prev & _ & Hu & ->).
  rewrite Hh in Hu. cbn [pushed set_hist hist] in Hu.
  destruct (undo_redo_back _ _ _ (push_wf _ _ Hhw) Hu) as (x & Hx & Hpx & _).
  rewrite (proj1 (push_top (hist s) (mkSnap (tasks s) (statistics s)) Hhw)) in Hpx. injection Hpx as <-.
  rewrite (redo_step_moved c2 (restore prev (set_hist h' (step c e s))) _ _ Hx). cbn. by rewrite Hh.
Qed.

(** Adding a third task to the session of two, then undo and redo:
    the queue is back to the two tasks. *)
Lemma redo_after_undo_restores_before_witness :
  live_tasks (step demo_clock Redo (step demo_clock Undo (step demo_clock (AddTask (Some "Call mom")) demo_session)))
    = live_tasks demo_session.
Proof.
  assert (Hr : reachable demo_session) by (apply reachable_run, reach_init).
  assert (Hne : entries (hist demo_session) <> []) by (vm_compute; discriminate).
  assert (Hh : hist (step demo_clock (AddTask (Some "Call mom")) demo_session) = hist (pushed demo_session))
    by (vm_compute; reflexivity).
  destruct (redo_after_undo_restores_before demo_clock demo_clock demo_clock _ _ Hr Hne Hh) as (Ht & _).
  unfold live_tasks. rewrite Ht. vm_compute. reflexivity.
Defined.

(** C8: The first action of a session can never be undone: [undo] right
    after it does nothing. *)
Theorem undo_first_action_noop c c' e :
  handler c' Undo (step c e initial_app) = (inr Silent, step c e initial_app).
Proof.
  apply undo_unmoved_silent. destruct (first_step_hist c e) as [-> | ->]; reflexivity.
Qed.

(** C10: Every handler other than undo and redo keeps [total_done] equal to
    the sum of the per-day counts. *)
Theorem forward_steps_consistent c e s :
  e <> Undo -> e <> Redo ->
  stats_consistent (live_statistics s) -> stats_consistent (live_statistics (step c e s)).
Proof.
  intros Hu Hr Hc. unfold live_statistics in *.
  destruct (forward_statistics c e s Hu Hr) as [[-> ->]|[-> ->]]; [done|].
  by eapply consistent_bump.
Qed.

Lemma forward_steps_consistent_witness :
  stats_consistent (live_statistics (step demo_clock MarkCurrentDone demo_session)).
Proof.
  apply forward_steps_consistent; [discriminate|discriminate|].
  vm_compute. reflexivity.
Defined.

(** C11: [add_task] with a non-empty answer appends a new dict with the
    identifier of the allocator, not used by any task, zero counts, and
    pushes the previous state on the history. *)
Theorem add_task_appends c a d s ts :
  app_wf s -> live_tasks s = Some ts -> py_answer a = Some d ->
  exists tid, (tid ∉ map task_id ts) /\
    live_tasks (step c (AddTask a) s) = Some (ts ++ [mkTask tid d (now_iso c) 0 0]) /\
    hist (step c (AddTask a) s) = push (hist s) (mkSnap (tasks s) (statistics s)).
Proof.
  intros (Hfr & (Hs & _ & _) & _) Hd Ha. unfold step, handler. rewrite add_task_run, Ha.
  destruct (next_task_id_total (existing_ids s)) as [tid Htid]. rewrite Htid.
  exists tid. apply next_task_id_fresh in Htid.
  destruct (deref_Some _ _ Hs) as (ts' & Hd' & Hm). unfold live_tasks in Hd. rewrite Hd in Hd'.
  injection Hd' as <-. split_and!.
  - unfold existing_ids in Htid. rewrite elem_of_list_to_set, <- Hm in Htid. done.
  - unfold live_tasks. simpl. apply deref_app.
    + rewrite deref_insert_fresh by (done || (apply Hfr; lia)). done.
    + unfold deref. simpl. by rewrite lookup_insert_eq.
  - done.
Qed.

(** A description of a single space is accepted: [strip()] only tests it. *)
Lemma add_task_appends_witness :
  exists tid, live_tasks (step demo_clock (AddTask (Some " ")) initial_app) =
                Some [mkTask tid " " "2024-01-03T09:00:00" 0 0].
Proof.
  destruct (add_task_appends demo_clock (Some " ") " " initial_app []
              initial_wf eq_refl eq_refl) as (tid & _ & H & _).
  exists tid. exact H.
Defined.

(** C12: An out-of-range selection raises [IndexError] *after* [save_state]
    in delete, mark-done and mark-skip: the history gains an entry for
    an action that did not happen.  Edit reads the task first and raises
    with the state untouched. *)
Theorem index_error_paths c s i a :
  py_norm_index (length (tasks s)) i = None ->
  handler c (DeleteTask (Some i) true) s = (inl IndexError, pushed s) /\
  handler c (MarkSelectedDone (Some i)) s = (inl IndexError, pushed s) /\
  handler c (MarkSelectedSkip (Some i)) s = (inl IndexError, pushed s) /\
  handler c (EditTask (Some i) a) s = (inl IndexError, s).
Proof.
  intros Hi. assert (Hp : py_pop (tasks s) i = None) by (by apply py_pop_None).
  cbv [handler mark_selected_done mark_selected_skip].
  rewrite delete_task_run, mark_done_at_run, mark_skip_at_run, edit_task_run, Hp.
  unfold py_getitem. by rewrite Hi.
Qed.

Lemma index_error_paths_witness :
  handler demo_clock (DeleteTask (Some 5) true) demo_session = (inl IndexError, pushed demo_session).
Proof.
  apply (index_error_paths demo_clock demo_session 5 None). vm_compute. reflexivity.
Defined.

(** "Done (Current)" and "Skip (Current)" are "Done (Selected)" and
    "Skip (Selected)" on the first row when the queue is non-empty; on
    an empty queue they do nothing, where the selected variants would
    raise. *)
Theorem current_is_selected_zero c s :
  (tasks s <> [] ->
     handler c MarkCurrentDone s = handler c (MarkSelectedDone (Some 0)) s /\
     handler c MarkCurrentSkip s = handler c (MarkSelectedSkip (Some 0)) s) /\
  (tasks s = [] ->
     handler c MarkCurrentDone s = (inr Silent, s) /\ handler c MarkCurrentSkip s = (inr Silent, s)).
Proof.
  cbv [handler mark_selected_done mark_selected_skip].
  rewrite mark_current_done_run, mark_current_skip_run.
  split; intros Ht; destruct (tasks s); done.
Qed.

(** C13: No button press, undo and redo included, removes a task dict, changes
    its identifier or lowers one of its counts. *)
Theorem task_counts_monotone c e s :
  reachable s -> counts_grow (heap s) (heap (step c e s)).
Proof.
  intros Hr. destruct (reachable_app_wf s Hr) as (Hfr & _).
  destruct (step_heap c e s) as [->|[(f & l & -> & Hf)|(t & -> & _)]].
  - intros l t Ht. exists t. split; [done|apply task_grows_refl].
  - by apply counts_grow_alter.
  - intros l t' Ht'. exists t'. split; [|apply task_grows_refl].
    rewrite lookup_insert_ne; [done|]. intros Heq. assert (heap s !! l = None) by (apply Hfr; lia). congruence.
Qed.

Lemma task_counts_monotone_witness :
  reachable demo_session /\ counts_grow (heap demo_session) (heap (step demo_clock Undo demo_session)).
Proof.
  assert (Hr : reachable demo_session) by (apply reachable_run, reach_init).
  split; [exact Hr|]. apply (task_counts_monotone _ _ _ Hr).
Defined.

(** C14: Every task dict the program creates has non-negative counts. *)
Theorem task_counts_nonneg s : reachable s -> counts_nonneg (heap s).
Proof. apply reachable_counts_nonneg. Qed.

Lemma task_counts_nonneg_witness : reachable demo_session /\ counts_nonneg (heap demo_session).
Proof.
  assert (Hr : reachable demo_session) by (apply reachable_run, reach_init).
  split; [exact Hr|]. apply (task_counts_nonneg _ Hr).
Defined.

End Session.
