(* ===== verification/Rotation.v ===== *)
(** * Rotation: the queue discipline of the current-task buttons

    "Done (Current)" and "Skip (Current)" ([mark_current_done] 254-269,
    [mark_current_skip] 271-284) pop the head of [self.tasks], update its
    counts and append it.  This file follows a run of such presses: the
    task the [i]-th press acts on is the one at position [i], so every
    task becomes the current one after as many presses as there are
    tasks before it, and after one press per task the queue is back in
    its order, each task updated once by its press.

    The presses are events of Session.v with their clock readings; the
    states are any well-formed ones (Session.app_wf), so the theorems
    hold from start-up and from a loaded file alike. *)

From S2P Require Import Prelude Calendar History Stats Session.

Module Rotation.
Import Session.
Local Open Scope Z_scope.

(** A press of one of the two current-task buttons. *)
Definition current_press (ce : clock * event) : Prop :=
  snd ce = MarkCurrentDone \/ snd ce = MarkCurrentSkip.

(** What the press does to the task it acts on. *)
Definition press_effect (ce : clock * event) (t : task) : task :=
  match snd ce with
  | MarkCurrentSkip => inc_skipped t
  | _ => inc_completed t
  end.

(** The queue after [k] presses of a round: the [k] tasks acted on, each
    updated by its press, have moved behind the others. *)
Definition after_presses (evs : list (clock * event)) (ts : list task) : list task :=
  drop (length evs) ts ++ zip_with press_effect evs (take (length evs) ts).

(** ** Lemmas *)

(** The step lemma: one press on a non-empty queue. *)
Lemma press_step ce s t ts :
  current_press ce -> app_wf s -> live_tasks s = Some (t :: ts) ->
  live_tasks (step (fst ce) (snd ce) s) = Some (ts ++ [press_effect ce t]).
Proof.
  destruct ce as [c e]. unfold current_press, press_effect. simpl.
  intros [-> | ->] Hwf Hd; unfold step, handler;
    [rewrite mark_current_done_run|rewrite mark_current_skip_run];
    (destruct (tasks s) eqn:Et; [unfold live_tasks in Hd; rewrite Et in Hd; done|]).
  - by destruct (mark_done_at_view c s 0 0 (t :: ts) t Hwf Hd eq_refl eq_refl) as [-> _].
  - by destruct (mark_skip_at_view s 0 0 (t :: ts) t Hwf Hd eq_refl eq_refl) as [-> _].
Qed.

(** The loop lemma: [k] presses on a queue of at least [k] tasks. *)
Lemma presses_run evs s ts :
  Forall current_press evs -> app_wf s -> live_tasks s = Some ts -> (length evs <= length ts)%nat ->
  app_wf (run evs s) /\ live_tasks (run evs s) = Some (after_presses evs ts).
Proof.
  unfold after_presses. revert s ts.
  induction evs as [|[c e] evs IH]; intros s ts Hp Hwf Hd Hlen; simpl.
  { by rewrite app_nil_r. }
  apply Forall_cons in Hp as [He Hp]. destruct ts as [|t ts]; simpl in Hlen; [lia|].
  pose proof (press_step (c, e) s t ts He Hwf Hd) as Hd'. simpl in Hd'.
  destruct (IH (step c e s) (ts ++ [press_effect (c, e) t]) Hp (step_wf c e s Hwf) Hd')
    as [Hwf' ->]; [rewrite length_app; simpl; lia|].
  split; [done|]. f_equal.
  rewrite drop_app_le, take_app_le by lia. simpl. by rewrite <- app_assoc.
Qed.

(** ** Theorems *)

(** C15: Liveness of the rotation: whatever mixture of "Done (Current)" and
    "Skip (Current)" the user presses, the task at position [i] of the
    queue is the current task after exactly [i] presses. *)
Theorem every_task_becomes_current evs s ts i t :
  app_wf s -> live_tasks s = Some ts -> ts !! i = Some t ->
  Forall current_press evs -> length evs = i ->
  exists ts', live_tasks (run evs s) = Some (t :: ts').
Proof.
  intros Hwf Hd Hi Hp <-.
  assert (Hlt : (length evs < length ts)%nat) by (by apply lookup_lt_Some in Hi).
  destruct (presses_run evs s ts Hp Hwf Hd ltac:(lia)) as [_ ->].
  unfold after_presses. rewrite (drop_S _ t) by exact Hi.
  by eexists.
Qed.

(** In the two-task session [A; B], one skip makes [B] current. *)
Lemma every_task_becomes_current_witness :
  exists ts', live_tasks (run [(demo_clock, MarkCurrentSkip)] demo_session) =
                Some (mkTask "B" "Walk dog" "2024-01-03T09:00:00" 0 0 :: ts').
Proof.
  assert (Hwf : app_wf demo_session) by (apply reachable_app_wf, reachable_run, reach_init).
  assert (Hd : live_tasks demo_session =
                 Some [mkTask "A" "Buy milk" "2024-01-03T09:00:00" 0 0;
                       mkTask "B" "Walk dog" "2024-01-03T09:00:00" 0 0]) by (vm_compute; reflexivity).
  apply (every_task_becomes_current _ _ _ 1 _ Hwf Hd eq_refl); [|reflexivity].
  constructor; [right; reflexivity|constructor].
Defined.

(** C16: A full round: one press per task acts on every task exactly once, in
    queue order, and leaves the queue in its original order, each task
    updated by its own press. *)
Theorem rotation_round evs s ts :
  app_wf s -> live_tasks s = Some ts ->
  Forall current_press evs -> length evs = length ts ->
  live_tasks (run evs s) = Some (zip_with press_effect evs ts).
Proof.
  intros Hwf Hd Hp Hlen. destruct (presses_run evs s ts Hp Hwf Hd ltac:(lia)) as [_ ->].
  unfold after_presses. by rewrite Hlen, drop_all, take_ge by lia.
Qed.

(** A done then a skip on [A; B]: [A] completed once, [B] skipped once,
    in the original order. *)
Lemma rotation_round_witness :
  live_tasks (run [(demo_clock, MarkCurrentDone); (demo_clock, MarkCurrentSkip)] demo_session) =
    Some [mkTask "A" "Buy milk" "2024-01-03T09:00:00" 1 0; mkTask "B" "Walk dog" "2024-01-03T09:00:00" 0 1].
Proof.
  assert (Hwf : app_wf demo_session) by (apply reachable_app_wf, reachable_run, reach_init).
  assert (Hd : live_tasks demo_session =
                 Some [mkTask "A" "Buy milk" "2024-01-03T09:00:00" 0 0;
                       mkTask "B" "Walk dog" "2024-01-03T09:00:00" 0 0]) by (vm_compute; reflexivity).
  rewrite (rotation_round _ _ _ Hwf Hd); [reflexivity| |reflexivity].
  constructor; [left; reflexivity|]. constructor; [right; reflexivity|constructor].
Defined.

End Rotation.
