(* ===== verification/Display.v ===== *)
(** * Display: what the refresh shows

    After every action the handlers call [update_displays] (351-356).
    This file models the parts of it that compute something:
    - [update_task_display] (358-388): the current-task label, the
      listbox rows and the enabled state of the four mark buttons, with
      the Tk listbox as a value (its items and its selection);
    - [on_task_select] (161-169), the listbox callback;
    - [sorted(self.tasks, key=lambda x: x.get('task_id', 'ZZZ'))]
      (412, 514), the order of the statistics panel and of the per-task
      chart: Python's sort is stable, modelled as a stable insertion sort
      on [str] order (byte order of UTF-8, the order of code points);
    - the seven bars of [update_daily_chart] (464-485): their counts and
      the colour rule.
    Widget drawing and the text layout of the statistics panel are not
    modelled.  Every task carries its ['task_id'] here (Load.v adds the
    missing ones at start-up), so the ['Unknown'] / ['ZZZ'] defaults of
    [.get] are never taken. *)

From S2P Require Import Prelude Calendar Session.
From Stdlib Require Import Sorted.

Module Display.
Import PyDate Session.
Local Open Scope Z_scope.

(** ** The task display *)

(** A Tk listbox: its rows and the indices [curselection()] returns. *)
Record listbox := mkListbox { lb_items : list string; lb_selection : list nat }.

(** [delete(0, tk.END)]: deleting the rows drops their selection. *)
Definition lb_delete_all (lb : listbox) : listbox := mkListbox [] [].

(** [insert(tk.END, row)] *)
Definition lb_insert_end (row : string) (lb : listbox) : listbox :=
  mkListbox (lb_items lb ++ [row]) (lb_selection lb).

(** [f"{task_id} - {current_task['description']} (Done: {completed})"] *)
Definition current_task_text (t : task) : string :=
  task_id t +:+ " - " +:+ description t +:+ " (Done: " +:+ py_str_int (completed_count t) +:+ ")".

(** [f"{task_id}: {task['description']} (✓{completed}, ✗{skipped})"] *)
Definition task_row (t : task) : string :=
  task_id t +:+ ": " +:+ description t +:+ " (✓" +:+ py_str_int (completed_count t) +:+
  ", ✗" +:+ py_str_int (skipped_count t) +:+ ")".

(** What the task section shows. *)
Record task_view := mkView {
  current_label : string;
  current_buttons : bool;    (** [done_btn], [skip_btn] enabled *)
  selected_buttons : bool    (** [done_selected_btn], [skip_selected_btn] enabled *)
}.

(** [update_task_display]: the label and the current-task buttons, the
    listbox refilled row by row, then the selected-task buttons from
    [curselection()]. *)
Definition update_task_display (ts : list task) (lb : listbox) : task_view * listbox :=
  let '(label, cur) :=
    match ts with
    | t :: _ => (current_task_text t, true)
    | [] => ("No tasks available", false)
    end in
  let lb' := foldl (fun lb t => lb_insert_end (task_row t) lb) (lb_delete_all lb) ts in
  let sel := bool_decide (lb_selection lb' <> []) && bool_decide (ts <> []) in
  (mkView label cur sel, lb').

(** [on_task_select]: the selected-task buttons follow the selection
    alone (unlike the refresh, it does not look at the queue). *)
Definition on_task_select (lb : listbox) : bool := bool_decide (lb_selection lb <> []).

(** ** The order of the statistics panel and the per-task chart *)

(** Insert [t] before the first task whose key is not below its own:
    [t] stays ahead of tasks with an equal key, as a stable sort keeps
    it. *)
Fixpoint insert_by_id (t : task) (ts : list task) : list task :=
  match ts with
  | [] => [t]
  | u :: us => if decide (String.le (task_id t) (task_id u)) then t :: u :: us
               else u :: insert_by_id t us
  end.

(** [sorted(tasks, key=task_id)] *)
Definition sort_by_id (ts : list task) : list task := foldr insert_by_id [] ts.

Definition id_le (t u : task) : Prop := String.le (task_id t) (task_id u).

(** ** The 7-day chart *)

(** [for i in range(6, -1, -1)]: the ordinals of the seven days, oldest
    first. *)
Definition chart_days (today : Z) : list Z := map (fun i => today - Z.of_nat i) (rev (seq 0 7)).

(** [self.statistics['daily'].get(date_str, 0)] for each day. *)
Definition chart_counts (daily : gmap string Z) (today : Z) : list Z :=
  map (fun o => default 0 (daily !! date_key o)) (chart_days today).

Inductive color := Green | Red | Blue.

(** [if count == max_count and max_count > 0: 'green' elif count ==
    min_count: 'red' else: 'blue'] *)
Definition bar_color (max_count min_count count : Z) : color :=
  if (count =? max_count) && (max_count >? 0) then Green
  else if count =? min_count then Red else Blue.

(** [if counts:] with [max(counts)], [min(counts)] and the loop. *)
Definition bar_colors (counts : list Z) : list color :=
  match counts with
  | [] => []
  | c0 :: _ =>
      let max_count := foldr Z.max c0 counts in
      let min_count := foldr Z.min c0 counts in
      map (bar_color max_count min_count) counts
  end.

(** ** Lemmas *)

Lemma insert_rows (ts : list task) (lb : listbox) :
  foldl (fun lb t => lb_insert_end (task_row t) lb) lb ts =
    mkListbox (lb_items lb ++ map task_row ts) (lb_selection lb).
Proof.
  revert lb. induction ts as [|t ts IH]; intros [items sel]; simpl.
  - by rewrite app_nil_r.
  - rewrite IH. simpl. by rewrite <- app_assoc.
Qed.

Lemma update_task_display_view ts lb :
  lb_items (snd (update_task_display ts lb)) = map task_row ts /\
  lb_selection (snd (update_task_display ts lb)) = [] /\
  selected_buttons (fst (update_task_display ts lb)) = false /\
  current_buttons (fst (update_task_display ts lb)) = bool_decide (ts <> []) /\
  current_label (fst (update_task_display ts lb)) =
    match ts with t :: _ => current_task_text t | [] => "No tasks available" end.
Proof.
  unfold update_task_display. rewrite insert_rows. destruct ts as [|t ts]; simpl;
    split_and!; try done; by rewrite bool_decide_eq_false_2.
Qed.

Lemma id_le_total t u : ~ id_le t u -> id_le u t.
Proof. unfold id_le. intros H. by destruct (total String.le (task_id t) (task_id u)). Qed.

Lemma insert_by_id_perm t ts : insert_by_id t ts ≡ₚ t :: ts.
Proof.
  induction ts as [|u us IH]; simpl; [done|]. case_decide; [done|].
  rewrite IH. apply Permutation_swap.
Qed.

Lemma insert_by_id_hd u t ts :
  id_le u t -> HdRel id_le u ts -> HdRel id_le u (insert_by_id t ts).
Proof.
  intros Hut Hhd. destruct ts as [|v vs]; simpl; [by constructor|].
  case_decide; constructor; [done|]. by inversion Hhd.
Qed.

Lemma insert_by_id_sorted t ts : Sorted id_le ts -> Sorted id_le (insert_by_id t ts).
Proof.
  induction 1 as [|u us Hs IH Hhd]; simpl; [by repeat constructor|].
  case_decide as Htu.
  - constructor; [by constructor|by constructor].
  - constructor; [done|]. apply insert_by_id_hd; [by apply id_le_total|done].
Qed.

(** Inserting [t] passes over tasks whose key is below its own, never
    over one with its key. *)
Lemma insert_by_id_filter t ts k :
  filter (fun x => task_id x = k) (insert_by_id t ts) = filter (fun x => task_id x = k) (t :: ts).
Proof.
  induction ts as [|u us IH]; simpl; [done|]. case_decide as Htu; [done|].
  rewrite filter_cons, IH, !filter_cons.
  assert (task_id u <> task_id t) by (intros Heq; apply Htu; rewrite Heq; unfold id_le; reflexivity).
  repeat case_decide; congruence.
Qed.

Lemma sort_by_id_perm ts : sort_by_id ts ≡ₚ ts.
Proof. induction ts as [|t ts IH]; simpl; [done|]. by rewrite insert_by_id_perm, IH. Qed.

Lemma foldr_max_bounds c0 (l : list Z) :
  Forall (fun x => x <= foldr Z.max c0 l) l /\ (foldr Z.max c0 l = c0 \/ foldr Z.max c0 l ∈ l).
Proof.
  induction l as [|x l [IHf IHe]]; simpl; [split; [done|by left]|].
  split.
  - constructor; [lia|]. eapply Forall_impl; [exact IHf|]. intros y Hy; simpl in Hy; lia.
  - destruct (Z.max_spec x (foldr Z.max c0 l)) as [[_ ->]|[_ ->]]; [|right; constructor].
    destruct IHe as [->|]; [by left|right; by constructor].
Qed.

Lemma foldr_min_bounds c0 (l : list Z) :
  Forall (fun x => foldr Z.min c0 l <= x) l /\ (foldr Z.min c0 l = c0 \/ foldr Z.min c0 l ∈ l).
Proof.
  induction l as [|x l [IHf IHe]]; simpl; [split; [done|by left]|].
  split.
  - constructor; [lia|]. eapply Forall_impl; [exact IHf|]. intros y Hy; simpl in Hy; lia.
  - destruct (Z.min_spec x (foldr Z.min c0 l)) as [[_ ->]|[_ ->]]; [right; constructor|].
    destruct IHe as [->|]; [by left|right; by constructor].
Qed.

(** Over a non-empty list, the fold computes [max(counts)]: the one
    element every element is below. *)
Lemma foldr_max_is_max c0 l c :
  c0 ∈ l -> c ∈ l -> (Forall (fun x => x <= c) l <-> c = foldr Z.max c0 l).
Proof.
  intros H0 Hc. destruct (foldr_max_bounds c0 l) as [Hf He]. split.
  - intros Hle. assert (Hm : foldr Z.max c0 l ∈ l) by (destruct He as [->|]; done).
    eapply Forall_forall in Hle; [|exact Hm]. eapply Forall_forall in Hf; [|exact Hc]. lia.
  - intros ->. done.
Qed.

Lemma foldr_min_is_min c0 l c :
  c0 ∈ l -> c ∈ l -> (Forall (fun x => c <= x) l <-> c = foldr Z.min c0 l).
Proof.
  intros H0 Hc. destruct (foldr_min_bounds c0 l) as [Hf He]. split.
  - intros Hle. assert (Hm : foldr Z.min c0 l ∈ l) by (destruct He as [->|]; done).
    eapply Forall_forall in Hle; [|exact Hm]. eapply Forall_forall in Hf; [|exact Hc]. lia.
  - intros ->. done.
Qed.

Lemma foldr_max_pos c0 l :
  c0 ∈ l -> (Exists (fun x => 0 < x) l <-> 0 < foldr Z.max c0 l).
Proof.
  intros H0. destruct (foldr_max_bounds c0 l) as [Hf He]. rewrite Exists_exists. split.
  - intros (x & Hx & Hpos). eapply Forall_forall in Hf; [|exact Hx]. lia.
  - intros Hpos. exists (foldr Z.max c0 l). split; [by destruct He as [->|]|done].
Qed.

(** ** Theorems *)

(** C31: After every refresh the listbox holds one row per task in queue
    order and no selection, so the selected-task buttons are disabled
    whatever was selected before: the [if selection and self.tasks]
    branch (383-385) is never taken.  The current-task buttons are
    enabled exactly when the queue is non-empty. *)
Theorem update_task_display_spec ts lb :
  lb_items (snd (update_task_display ts lb)) = map task_row ts /\
  lb_selection (snd (update_task_display ts lb)) = [] /\
  selected_buttons (fst (update_task_display ts lb)) = false /\
  current_buttons (fst (update_task_display ts lb)) = bool_decide (ts <> []) /\
  current_label (fst (update_task_display ts lb)) =
    match ts with t :: _ => current_task_text t | [] => "No tasks available" end.
Proof. apply update_task_display_view. Qed.

(** C32: [sorted(tasks, key=task_id)] as modelled is the stable sort: its
    result is ordered by identifier, is a permutation of the queue, and
    keeps tasks that share an identifier in queue order. *)
Theorem sort_by_id_spec ts :
  Sorted id_le (sort_by_id ts) /\ sort_by_id ts ≡ₚ ts /\
  forall k, filter (fun x => task_id x = k) (sort_by_id ts) = filter (fun x => task_id x = k) ts.
Proof.
  induction ts as [|t ts (IHs & IHp & IHf)]; simpl; [split_and!; by constructor|].
  split_and!.
  - by apply insert_by_id_sorted.
  - exact (sort_by_id_perm (t :: ts)).
  - intros k. by rewrite insert_by_id_filter, !filter_cons, IHf.
Qed.

(** The panel and the chart do not list identifiers in the order the
    allocator hands them out: [Task<N>] sorts between [T] and [U], and
    [Task10] before [Task2]. *)
Example chart_order_example :
  map task_id (sort_by_id [mkTask "Task2" "" "" 0 0; mkTask "U" "" "" 0 0; mkTask "Task10" "" "" 0 0;
                           mkTask "T" "" "" 0 0; mkTask "A" "" "" 0 0])
    = ["A"; "T"; "Task10"; "Task2"; "U"].
Proof. vm_compute. reflexivity. Qed.

(** The colour of a bar: green exactly when its count is the largest
    and some day has a completion; otherwise red exactly when its count
    is the smallest; blue else. *)
Theorem bar_colors_spec counts i c :
  counts !! i = Some c ->
  (bar_colors counts !! i = Some Green <->
     Forall (fun x => x <= c) counts /\ Exists (fun x => 0 < x) counts) /\
  (bar_colors counts !! i = Some Red <->
     ~ (Forall (fun x => x <= c) counts /\ Exists (fun x => 0 < x) counts) /\
     Forall (fun x => c <= x) counts).
Proof.
  intros Hi. destruct counts as [|c0 cs]; [done|].
  assert (Hc : c ∈ c0 :: cs) by (eapply list_elem_of_lookup_2; eauto).
  assert (H0 : c0 ∈ c0 :: cs) by constructor.
  unfold bar_colors. rewrite list_lookup_fmap, Hi. simpl (Some _ = Some _).
  rewrite (foldr_max_is_max c0 _ c H0 Hc), (foldr_min_is_min c0 _ c H0 Hc), (foldr_max_pos c0 _ H0).
  unfold bar_color. case_zbool; destruct (_ =? _) eqn:E; case_zbool; simpl;
    split; split; intros; try (by intuition congruence); intuition lia.
Qed.

(** A week with counts [0 2 1 2 0 0 3]: today's bar, the highest, is green. *)
Lemma bar_colors_spec_witness : bar_colors [0; 2; 1; 2; 0; 0; 3] !! 6%nat = Some Green.
Proof.
  apply (bar_colors_spec [0; 2; 1; 2; 0; 0; 3] 6%nat 3 eq_refl).
  apply (bool_decide_unpack _). vm_compute. reflexivity.
Defined.

End Display.
