(* ===== verification/Panel.v ===== *)
(** * Panel: the statistics text, the two charts and the whole refresh

    [update_displays] (351-356) refreshes four views in turn.  The task
    list is Display.v; this file models the other three and their
    composition:
    - [update_statistics_display] (390-432): the text of the statistics
      panel, line by line;
    - [update_daily_chart] (457-501): the 7-day bars, their colours, the
      average line and the value labels;
    - [update_individual_task_chart] (503-563): the per-task bars, their
      labels and the y-axis limit;
    - [update_displays] itself, on a state of Session.v.

    Python prints floats with [format(x, '.Nf')], which rounds the binary
    double.  The panel is stated against any formatter of the class
    [FloatFormat]; [exact_format] rounds the exact rational half to even.
    For the averages ([total / days] with [days <= 30], times 1, 7 or 30)
    it prints what CPython prints: their exact value is a tie at the last
    printed digit only when it is a dyadic rational, which the double
    holds exactly, and otherwise lies farther than [1/6000] from a tie,
    far beyond the double's error.  For a success rate
    [completed / total * 100] the two roundings of the double can in
    principle land a tie on the other side; the theorems below hold for
    every formatter, so they do not depend on that.

    Strings are UTF-8; [description[:20]] takes code points
    (Prelude.py_str_prefix). *)

From S2P Require Import Prelude Calendar Stats Session Display.
From Stdlib Require Import QArith Qround.

Module Panel.
Import PyDate Stats Session Display.
Local Open Scope Z_scope.

(** ** Printing floats *)

(** [format(x, '.Nf')] *)
Class FloatFormat := fmt_fixed : nat -> Q -> string.

(** Rounding half to even, the rule of [format] on the value it is given. *)
Definition round_half_even (q : Q) : Z :=
  let f := Qfloor q in
  match Qcompare (q - inject_Z f) (1 # 2) with
  | Lt => f
  | Gt => f + 1
  | Eq => if Z.even f then f else f + 1
  end.

Fixpoint zeros (n : nat) : string :=
  match n with O => EmptyString | S n => String (Ascii.ascii_of_nat 48) (zeros n) end.

(** [s] padded on the left with zeros to [d] characters. *)
Definition zero_pad (d : nat) (s : string) : string := zeros (d - String.length s) +:+ s.

(** The exact value rounded to [d] decimals and printed. *)
Definition exact_fixed (d : nat) (q : Q) : string :=
  let n := round_half_even (q * inject_Z (10 ^ Z.of_nat d)) in
  let a := Z.abs n in
  (if n <? 0 then "-" else "") +:+ py_str_int (a / 10 ^ Z.of_nat d) +:+
  match d with O => "" | _ => "." +:+ zero_pad d (py_str_int (a mod 10 ^ Z.of_nat d)) end.

#[export] Instance exact_format : FloatFormat := exact_fixed.

(** ** The views *)

(** A newline. *)
Definition nl : string := String (Ascii.ascii_of_nat 10) EmptyString.

(** A text made of lines, each ended by a newline. *)
Definition unlines (ls : list string) : string := foldr (fun l acc => l +:+ nl +:+ acc) "" ls.

(** [strftime('%a')] *)
Definition weekday_abbr (ord : Z) : string :=
  default "" (py_getitem ["Mon"; "Tue"; "Wed"; "Thu"; "Fri"; "Sat"; "Sun"] ((ord + 6) mod 7)).

(** [f'{int(height)}'] on a bar of positive height ([if height > 0]). *)
Definition bar_label (h : Z) : option string := if 0 <? h then Some (py_str_int h) else None.

(** [max(l) if l else 0] *)
Definition max_or_zero (l : list Z) : Z := match l with [] => 0 | x :: _ => foldr Z.max x l end.

(** The 7-day chart as drawn: day abbreviations, bar heights and colours,
    the height of the average line and its legend, the value labels. *)
Record daily_chart := mkDailyChart {
  dc_days : list string;
  dc_counts : list Z;
  dc_colors : list color;
  dc_avg : Q;
  dc_avg_label : string;
  dc_value_labels : list string
}.

(** The per-task chart: the text "No tasks available", or the grouped
    bars (ids in sorted order, completed and skipped heights, their value
    labels) and the top of the y-axis. *)
Inductive task_chart :=
  | NoTasksText
  | TaskBars (ids : list string) (completed skipped : list Z)
             (completed_labels skipped_labels : list (option string)) (ylim_top : Z).

Section Views.
Context `{FloatFormat}.

(** [f"{task_id} ({task['description'][:20]}...): {completed} done,
    {skipped} skip ({rate:.0f}% success)"] *)
Definition task_line (t : task) : string :=
  task_id t +:+ " (" +:+ py_str_prefix 20 (description t) +:+ "...): " +:+
  py_str_int (completed_count t) +:+ " done, " +:+ py_str_int (skipped_count t) +:+ " skip (" +:+
  fmt_fixed 0 (success_rate (completed_count t) (skipped_count t)) +:+ "% success)".

(** [f"{day_name} ({date}): {count} tasks"] *)
Definition day_line (r : string * string * Z) : string :=
  let '(day_name, date, count) := r in
  day_name +:+ " (" +:+ date +:+ "): " +:+ py_str_int count +:+ " tasks".

(** The lines of [stats_text], in the order the code builds them. *)
Definition statistics_lines (st : Stats.statistics) (ts : list task) (today : Z) : list string :=
  ["STATISTICS (Done Tasks Only)"; "";
   "Daily Average: " +:+ fmt_fixed 2 (calculate_daily_average (daily st) today) +:+ " tasks/day";
   "Weekly Average: " +:+ fmt_fixed 2 (calculate_weekly_average (daily st) today) +:+ " tasks/week";
   "Monthly Average: " +:+ fmt_fixed 2 (calculate_monthly_average (daily st) today) +:+ " tasks/month";
   "";
   "Total Completed: " +:+ py_str_int (total_done st);
   "Total Skipped: " +:+ py_str_int (total_skipped st);
   "";
   "INDIVIDUAL TASK COMPLETION COUNTS:"] ++
  map task_line (sort_by_id ts) ++
  [""; "Recent Daily Counts:"] ++
  map day_line (recent_daily_counts (daily st) today).

(** [update_statistics_display]: the text put in the widget. *)
Definition update_statistics_display (st : Stats.statistics) (ts : list task) (today : Z) : string :=
  unlines (statistics_lines st ts today).

(** [update_daily_chart]: [if counts:] with the average
    [sum(counts) / len(counts)] and its legend [f'Avg: {avg_count:.1f}']. *)
Definition update_daily_chart (d : gmap string Z) (today : Z) : option daily_chart :=
  let counts := chart_counts d today in
  match counts with
  | [] => None
  | _ :: _ =>
      let avg := (inject_Z (zsum counts) / inject_Z (Z.of_nat (length counts)))%Q in
      Some (mkDailyChart (map weekday_abbr (chart_days today)) counts (bar_colors counts)
                         avg ("Avg: " +:+ fmt_fixed 1 avg) (map py_str_int counts))
  end.

(** [update_individual_task_chart]: nothing but a text on an empty queue;
    otherwise the bars of the tasks sorted by id and
    [set_ylim(0, max_val + 1)]. *)
Definition update_individual_task_chart (ts : list task) : task_chart :=
  match ts with
  | [] => NoTasksText
  | _ :: _ =>
      let sorted := sort_by_id ts in
      let completed := map completed_count sorted in
      let skipped := map skipped_count sorted in
      TaskBars (map task_id sorted) completed skipped (map bar_label completed) (map bar_label skipped)
               (Z.max (max_or_zero completed) (max_or_zero skipped) + 1)
  end.

End Views.

(** Everything [update_displays] shows. *)
Record screen := mkScreen {
  scr_tasks : task_view;
  scr_listbox : listbox;
  scr_stats : string;
  scr_daily : option daily_chart;
  scr_chart : task_chart
}.

(** [update_displays] on a session state, with today's ordinal and the
    listbox as it was; [None] when the store does not read back. *)
Definition update_displays `{FloatFormat} (s : app) (today : Z) (lb : listbox) : option screen :=
  ts ← live_tasks s;
  let st := live_statistics s in
  let '(v, lb') := update_task_display ts lb in
  Some (mkScreen v lb' (update_statistics_display st ts today) (update_daily_chart (daily st) today)
                 (update_individual_task_chart ts)).

(** ** Lemmas *)

Lemma recent_daily_counts_length d today : length (recent_daily_counts d today) = 7%nat.
Proof. reflexivity. Qed.

(** A sum of [n] numbers in [[lo, hi]] lies in [[n lo, n hi]]. *)
Lemma zsum_range (l : list Z) lo hi :
  Forall (fun v => lo <= v <= hi) l -> lo * Z.of_nat (length l) <= zsum l <= hi * Z.of_nat (length l).
Proof. unfold zsum. induction 1 as [|v l Hv _ IH]; simpl; lia. Qed.

Lemma Q_between (lo hi a b : Z) :
  0 < b -> lo * b <= a <= hi * b -> (inject_Z lo <= inject_Z a / inject_Z b <= inject_Z hi)%Q.
Proof.
  intros Hb [Hlo Hhi]. assert (Hbq : (0 < inject_Z b)%Q) by (change 0%Q with (inject_Z 0); by rewrite <- Zlt_Qlt).
  split.
  - apply Qle_shift_div_l; [done|]. rewrite <- inject_Z_mult. by rewrite <- Zle_Qle.
  - apply Qle_shift_div_r; [done|]. rewrite <- inject_Z_mult. by rewrite <- Zle_Qle.
Qed.

(** The mean of a non-empty list lies between its smallest and its
    largest element. *)
Lemma mean_between c0 (l : list Z) :
  c0 ∈ l ->
  Exists (fun c => inject_Z c <= inject_Z (zsum l) / inject_Z (Z.of_nat (length l)))%Q l /\
  Exists (fun c => inject_Z (zsum l) / inject_Z (Z.of_nat (length l)) <= inject_Z c)%Q l.
Proof.
  intros H0. destruct (foldr_min_bounds c0 l) as [Hmin Hmin_in]. destruct (foldr_max_bounds c0 l) as [Hmax Hmax_in].
  assert (Hlo : foldr Z.min c0 l ∈ l) by (destruct Hmin_in as [->|]; done).
  assert (Hhi : foldr Z.max c0 l ∈ l) by (destruct Hmax_in as [->|]; done).
  assert (Hlen : (0 < length l)%nat) by (destruct l; [inversion H0|simpl; lia]).
  destruct (Q_between (foldr Z.min c0 l) (foldr Z.max c0 l) (zsum l) (Z.of_nat (length l)))
    as [Q1 Q2]; [lia| |].
  { apply zsum_range. apply Forall_forall. intros x Hx.
    eapply Forall_forall in Hmin; [|exact Hx]. eapply Forall_forall in Hmax; [|exact Hx]. lia. }
  split; apply Exists_exists; eauto.
Qed.

Lemma max_or_zero_ge l : Forall (fun x => x <= max_or_zero l) l.
Proof. destruct l as [|x l']; [constructor|]. apply (foldr_max_bounds x (x :: l')). Qed.

(** The per-task chart lists the queue's tasks, and with non-negative
    counts every bar lies between 0 and the top of the y-axis. *)
Lemma task_chart_ok ts :
  Forall (fun t => 0 <= completed_count t /\ 0 <= skipped_count t) ts ->
  match update_individual_task_chart ts with
  | NoTasksText => ts = []
  | TaskBars ids dn sk _ _ top => ids ≡ₚ map task_id ts /\ Forall (fun h => 0 <= h < top) (dn ++ sk)
  end.
Proof.
  intros Hnn. destruct ts as [|t0 ts0]; [done|].
  unfold update_individual_task_chart. cbv beta iota zeta. set (ts := t0 :: ts0) in *.
  pose proof (sort_by_id_perm ts) as Hp.
  assert (Hs : Forall (fun t => 0 <= completed_count t /\ 0 <= skipped_count t) (sort_by_id ts))
    by (eapply Permutation_Forall; [symmetry; exact Hp|exact Hnn]).
  split; [by apply Permutation_map|].
  pose proof (max_or_zero_ge (map completed_count (sort_by_id ts))) as Hd.
  pose proof (max_or_zero_ge (map skipped_count (sort_by_id ts))) as Hk.
  apply Forall_app. split; apply Forall_forall; intros h Hh.
  - eapply Forall_forall in Hd; [|exact Hh]. apply list_elem_of_fmap in Hh as (t & -> & Ht).
    eapply Forall_forall in Hs; [|exact Ht]. lia.
  - eapply Forall_forall in Hk; [|exact Hh]. apply list_elem_of_fmap in Hh as (t & -> & Ht).
    eapply Forall_forall in Hs; [|exact Ht]. lia.
Qed.

(** The refresh reads the state only through the queue and the
    statistics it shows. *)
Lemma update_displays_ext `{FloatFormat} s s' today lb :
  live_tasks s' = live_tasks s -> live_statistics s' = live_statistics s ->
  update_displays s' today lb = update_displays s today lb.
Proof. intros Ht Hs. unfold update_displays. by rewrite Ht, Hs. Qed.

(** ** Theorems *)

(** C33: The statistics text has ten heading lines, one line per task, two
    more heading lines and seven day lines; the task lines are those of
    the queue's tasks, each once (in identifier order, Display.v), and
    the day lines are the last-7-days table, today first. *)
Theorem statistics_panel_lines `{FloatFormat} st ts today :
  length (statistics_lines st ts today) = (19 + length ts)%nat /\
  take (length ts) (drop 10 (statistics_lines st ts today)) ≡ₚ map task_line ts /\
  drop (12 + length ts) (statistics_lines st ts today) = map day_line (recent_daily_counts (daily st) today).
Proof.
  pose proof (sort_by_id_perm ts) as Hp. pose proof (Permutation_length Hp) as Hl.
  unfold statistics_lines. split_and!.
  - rewrite !length_app, !length_map, recent_daily_counts_length, Hl. simpl. lia.
  - rewrite drop_app_length' by reflexivity.
    rewrite take_app_length' by (by rewrite length_map).
    by apply Permutation_map.
  - rewrite (app_assoc (map task_line _)), app_assoc.
    apply drop_app_length'. rewrite !length_app, length_map, Hl. simpl. lia.
Qed.

Lemma statistics_panel_lines_witness :
  drop 14 (statistics_lines (live_statistics demo_session) [mkTask "A" "Buy milk" "" 3 1; mkTask "B" "Walk dog" "" 0 0] 738888)
    = map day_line (recent_daily_counts (daily (live_statistics demo_session)) 738888).
Proof. apply (statistics_panel_lines _ [mkTask "A" "Buy milk" "" 3 1; mkTask "B" "Walk dog" "" 0 0] 738888). Defined.

(** The 7-day chart draws, oldest day first, the same seven counts as
    the "Recent Daily Counts" table lists today first. *)
Theorem daily_chart_matches_table `{FloatFormat} d today :
  exists ch, update_daily_chart d today = Some ch /\
    dc_counts ch = rev (map (fun r : string * string * Z => r.2) (recent_daily_counts d today)) /\
    length (dc_counts ch) = 7%nat.
Proof. eexists. split; [reflexivity|]. split; reflexivity. Qed.

(** The average line of the 7-day chart is never below every bar nor
    above every bar. *)
Theorem daily_chart_average_bounds `{FloatFormat} d today ch :
  update_daily_chart d today = Some ch ->
  Exists (fun c => inject_Z c <= dc_avg ch)%Q (dc_counts ch) /\
  Exists (fun c => dc_avg ch <= inject_Z c)%Q (dc_counts ch).
Proof.
  unfold update_daily_chart. destruct (chart_counts d today) as [|c0 cs] eqn:E; [done|].
  intros [= <-]. exact (mean_between c0 (c0 :: cs) ltac:(constructor)).
Qed.

Lemma daily_chart_average_bounds_witness :
  exists ch, update_daily_chart daily_example 738888 = Some ch /\
    Exists (fun c => inject_Z c <= dc_avg ch)%Q (dc_counts ch).
Proof.
  eexists. split; [reflexivity|].
  apply (daily_chart_average_bounds daily_example 738888 _ eq_refl).
Defined.

(** C17: The whole refresh never fails on a state the program can reach: the
    listbox shows one row per task and no selection, and the per-task
    chart shows the queue's tasks with every bar between 0 and the top
    of its axis. *)
Theorem refresh_total `{FloatFormat} s today lb :
  reachable s ->
  exists ts scr, live_tasks s = Some ts /\ update_displays s today lb = Some scr /\
    lb_items (scr_listbox scr) = map task_row ts /\ selected_buttons (scr_tasks scr) = false /\
    match scr_chart scr with
    | NoTasksText => ts = []
    | TaskBars ids dn sk _ _ top => ids ≡ₚ map task_id ts /\ Forall (fun h => 0 <= h < top) (dn ++ sk)
    end.
Proof.
  intros Hr. destruct (app_wf_live s (reachable_app_wf s Hr)) as (ts & Hd & _).
  pose proof (deref_Forall _ _ _ _ (reachable_counts_nonneg s Hr) Hd) as Hnn.
  destruct (update_task_display_view ts lb) as (Hitems & _ & Hsel & _).
  unfold update_displays. rewrite Hd. simpl.
  destruct (update_task_display ts lb) as [v lb'] eqn:E. simpl in *.
  exists ts. eexists. split_and!; [done|reflexivity|done|done|]. simpl.
  by apply task_chart_ok.
Qed.

Lemma refresh_total_witness : is_Some (update_displays demo_session 738888 (mkListbox [] [])).
Proof.
  assert (Hr : reachable demo_session) by (apply reachable_run, reach_init).
  destruct (refresh_total demo_session 738888 (mkListbox [] []) Hr) as (ts & scr & _ & Hs & _).
  rewrite Hs. by eexists.
Defined.

End Panel.
