(* ===== verification/Load.v ===== *)
(** * Load: the data file, the start-up migration and restarting

    src/todo.py persists [{'tasks': self.tasks, 'statistics':
    self.statistics}] with [json.dump] in [save_data] (565-577) and reads
    it back in [load_data] (579-613), which [__init__] calls (line 33).
    [load_data] keeps the tasks and statistics of the file, and for
    backward compatibility gives every task dict without a [task_id] the
    identifier of its position ([chr(65 + i)], then [Task{i+1}]) and
    every dict without counts the count 0.  A missing file, and any
    exception while reading it, leave the empty queue and zeroed
    statistics.

    A task dict read from the file is a [raw_task], whose optional keys
    are the ones the migration tests; JSON text itself is not modelled
    (a file is the value [json.load] returns, and [json.dump] then
    [json.load] is taken to give back the same value).  A file whose
    task dicts lack ['description'] or ['created'], or whose statistics
    lack a key, is outside the model: the program would raise [KeyError]
    later, in [update_task_display] or [update_statistics_display].

    [start] is the state after [__init__]: the store holds the loaded
    dicts at identities [0 .. n-1], the history is empty.

    [save_data_io] adds what the write does to the file on disk:
    [open(DATA_FILE, 'w')] truncates it before [json.dump] writes, so a
    dump that raises leaves a truncated text that the next [load_data]
    rejects, while a failing [open] leaves the file as it was;
    [on_closing] (615-618) saves that way before closing the window.
    Restarting after a successful save shows the same screen as the
    session did (Panel.update_displays). *)

From S2P Require Import Prelude TaskId History Stats Session Display Panel.

Module Load.
Import TaskId History Stats Session Display Panel.
Local Open Scope Z_scope.

(** A task dict as [json.load] returns it. *)
Record raw_task := mkRaw {
  raw_task_id : option string;
  raw_description : string;
  raw_created : string;
  raw_completed_count : option Z;
  raw_skipped_count : option Z
}.

(** The top-level dict of the data file: [data.get('tasks', [])] and
    [data.get('statistics', {...})] fall back when a key is absent. *)
Record data_file := mkData {
  data_tasks : option (list raw_task);
  data_statistics : option Stats.statistics
}.

(** [chr(65 + i) if i < 26 else f"Task{i+1}"] (line 597). *)
Definition position_id (i : nat) : string :=
  if decide (i < 26)%nat then letter i else task_label (Z.of_nat i + 1).

(** One iteration of [for i, task in enumerate(self.tasks)] (595-602). *)
Definition migrate_task (i : nat) (t : raw_task) : task :=
  mkTask (default (position_id i) (raw_task_id t)) (raw_description t) (raw_created t)
         (default 0 (raw_completed_count t)) (default 0 (raw_skipped_count t)).

Definition migrate (ts : list raw_task) : list task := imap migrate_task ts.

(** [load_data]: [None] is a missing file or one whose reading raised;
    both give the values of [__init__] (lines 21-30 and 606-613). *)
Definition load_data (f : option data_file) : list task * Stats.statistics :=
  match f with
  | None => ([], initial_statistics)
  | Some d => (migrate (default [] (data_tasks d)), default initial_statistics (data_statistics d))
  end.

(** [__init__] (15-33): the loaded dicts in a fresh store, an empty
    history. *)
Definition app_of_data (ts : list task) (st : Stats.statistics) : app :=
  mkApp (map_seq 0 ts) (length ts) (Stats.daily st) (seq 0 (length ts))
        (mkTop (total_done st) (total_skipped st)) empty_history.

Definition start (f : option data_file) : app :=
  let '(ts, st) := load_data f in app_of_data ts st.

(** A task dict as [json.dump] writes it: every key present. *)
Definition to_raw (t : task) : raw_task :=
  mkRaw (Some (task_id t)) (description t) (created t) (Some (completed_count t)) (Some (skipped_count t)).

(** [save_data] (565-577): the file it writes, when the queue reads back. *)
Definition save_data (s : app) : option data_file :=
  (fun ts => mkData (Some (map to_raw ts)) (Some (live_statistics s))) <$> live_tasks s.

(** How the write of [save_data] ended: [open(DATA_FILE, 'w')] raised
    and the file is untouched; [json.dump] raised after [open] had
    truncated the file, leaving a proper prefix of a JSON text, which
    [json.load] rejects; or both succeeded. *)
Inductive write_outcome := Written | OpenFailed (reason : string) | DumpFailed (reason : string).

(** The message box [save_data] shows. *)
Inductive message := ShowInfo (title text : string) | ShowError (title text : string).

(** [save_data] (565-577) on the data file on disk ([None]: missing or
    unreadable): the file afterwards and the message shown. *)
Definition save_data_io (w : write_outcome) (disk : option data_file) (s : app) :
    option data_file * message :=
  match w with
  | Written => (save_data s, ShowInfo "Success" "Data saved successfully!")
  | OpenFailed e => (disk, ShowError "Error" ("Failed to save data: " +:+ e))
  | DumpFailed e => (None, ShowError "Error" ("Failed to save data: " +:+ e))
  end.

(** [on_closing] (615-618): save, then [self.root.destroy()]. *)
Definition on_closing (w : write_outcome) (disk : option data_file) (s : app) :
    option data_file * message :=
  save_data_io w disk s.

(** Button presses from a state. *)
Definition steps : relation app := fun s s' => exists c e, s' = step c e s.

(** A data file of the format before identifiers and counts existed. *)
Definition old_file : data_file :=
  mkData (Some [mkRaw None "Buy milk" "2024-01-02T08:00:00" None None;
                mkRaw None "Walk dog" "2024-01-02T08:01:00" (Some 3) None]) None.

(** ** Lemmas *)

Lemma position_id_inj i j : position_id i = position_id j -> i = j.
Proof.
  unfold position_id. repeat case_decide.
  - by apply letter_inj.
  - intros Heq. by apply letter_not_task_label in Heq.
  - intros Heq. symmetry in Heq. by apply letter_not_task_label in Heq.
  - intros Heq%task_label_inj. lia.
Qed.

Lemma migrate_task_id ts i :
  map task_id (migrate ts) !! i = (fun r => default (position_id i) (raw_task_id r)) <$> ts !! i.
Proof. unfold migrate. rewrite list_lookup_fmap, list_lookup_imap. by destruct (ts !! i). Qed.

Lemma imap_to_raw (f : nat -> raw_task -> task) ts :
  (forall i t, f i (to_raw t) = t) -> imap f (map to_raw ts) = ts.
Proof.
  revert f. induction ts as [|t ts IH]; intros f Hf; [done|].
  change (map to_raw (t :: ts)) with (to_raw t :: map to_raw ts).
  rewrite imap_cons, Hf. f_equal. apply IH. intros. apply Hf.
Qed.

(** Migration leaves a dict with every key present as it is. *)
Lemma migrate_to_raw ts : migrate (map to_raw ts) = ts.
Proof. apply imap_to_raw. by intros i []. Qed.

Lemma deref_map_seq start ts : deref (map_seq start ts) (seq start (length ts)) = Some ts.
Proof.
  revert start. induction ts as [|t ts IH]; intros start; [done|].
  cbn [length seq]. rewrite map_seq_cons, deref_cons, lookup_insert_eq. simpl.
  rewrite (deref_ext _ (map_seq (S start) ts)), IH; [done|].
  apply Forall_forall. intros l Hl%list_elem_of_In%in_seq. apply lookup_insert_ne. lia.
Qed.

Lemma live_start f :
  live_tasks (start f) = Some (fst (load_data f)) /\ live_statistics (start f) = snd (load_data f).
Proof.
  unfold start. destruct (load_data f) as [ts [d td tk]]. split; [apply deref_map_seq|done].
Qed.

(** The state [__init__] builds is well formed exactly when the loaded
    identifiers are distinct. *)
Lemma start_wf f : NoDup (map task_id (fst (load_data f))) -> app_wf (start f).
Proof.
  intros Hnd. destruct (live_start f) as [Hl _].
  unfold start in *. destruct (load_data f) as [ts st]. simpl in *.
  assert (Hs : Forall (fun l => is_Some ((map_seq 0 ts : gmap loc task) !! l)) (seq 0 (length ts))).
  { apply Forall_forall. intros l Hl'%list_elem_of_In%in_seq.
    apply not_eq_None_Some. rewrite lookup_map_seq_None. lia. }
  unfold app_wf, tasks_ok; simpl. split_and!.
  - intros l Hle. apply lookup_map_seq_None. lia.
  - exact Hs.
  - apply NoDup_seq.
  - destruct (deref_Some _ _ Hs) as (ts' & Hd & <-). unfold live_tasks in Hl. simpl in Hl.
    rewrite Hl in Hd. by injection Hd as ->.
  - constructor.
  - by left.
Qed.

(** Saving a session and loading the file gives back its queue and
    statistics. *)
Lemma load_save s ts : live_tasks s = Some ts -> load_data (save_data s) = (ts, live_statistics s).
Proof. intros Hs. unfold save_data. rewrite Hs. simpl. by rewrite migrate_to_raw. Qed.

(** [NoDup] of the values an [omap] keeps, by the positions they come from. *)
Lemma NoDup_omap_lookup {A B} (f : A -> option B) (l : list A) :
  NoDup (omap f l) <->
  forall i j a b x, l !! i = Some a -> l !! j = Some b -> f a = Some x -> f b = Some x -> i = j.
Proof.
  induction l as [|a l IH]; simpl.
  { split; [intros _ i ? ? ? ? []; done|constructor]. }
  destruct (f a) as [y|] eqn:Ha; [rewrite NoDup_cons|]; rewrite IH; split.
  - intros [Hy Hl] [|i] [|j] a' b x; simpl; intros Ea Eb Fa Fb; simplify_eq; try done.
    + destruct Hy. apply list_elem_of_omap. exists b. split; [by eapply list_elem_of_lookup_2|congruence].
    + destruct Hy. apply list_elem_of_omap. exists a'. split; [by eapply list_elem_of_lookup_2|congruence].
    + f_equal. by apply (Hl i j a' b x).
  - intros H. split.
    + intros (b & [j Ej]%list_elem_of_lookup & Fb)%list_elem_of_omap.
      by discriminate (H 0%nat (S j) a b y eq_refl Ej Ha Fb).
    + intros i j a' b x Ea Eb Fa Fb. by injection (H (S i) (S j) a' b x Ea Eb Fa Fb).
  - intros Hl [|i] [|j] a' b x; simpl; intros Ea Eb Fa Fb; simplify_eq; try congruence.
    f_equal. by apply (Hl i j a' b x).
  - intros H i j a' b x Ea Eb Fa Fb. by injection (H (S i) (S j) a' b x Ea Eb Fa Fb).
Qed.

(** ** Theorems *)

(** C24: If the identifiers of the loaded tasks are distinct, every state the
    buttons lead to from the start-up state has task dicts with
    distinct identifiers and a well-formed history. *)
Theorem loaded_session_invariant f s :
  NoDup (map task_id (fst (load_data f))) -> rtc steps (start f) s ->
  (exists ts, live_tasks s = Some ts /\ NoDup (map task_id ts)) /\ hist_wf (hist s).
Proof.
  intros Hnd Hr. assert (Hwf : app_wf s).
  { revert Hr. apply (rtc_ind_r (fun s => app_wf s)); [by apply start_wf|].
    intros y z _ [c [e ->]] IH. by apply step_wf. }
  split; [by apply app_wf_live|apply Hwf].
Qed.

Lemma loaded_session_invariant_witness :
  NoDup (map task_id (fst (load_data (Some old_file)))) /\
  hist_wf (hist (step demo_clock MarkCurrentDone (start (Some old_file)))).
Proof.
  assert (Hnd : NoDup (map task_id (fst (load_data (Some old_file))))).
  { apply (bool_decide_unpack _). vm_compute. reflexivity. }
  assert (Hr : rtc steps (start (Some old_file)) (step demo_clock MarkCurrentDone (start (Some old_file)))).
  { apply rtc_once. by exists demo_clock, MarkCurrentDone. }
  split; [exact Hnd|]. apply (loaded_session_invariant _ _ Hnd Hr).
Defined.



(** C26: The migration gives the loaded tasks distinct identifiers exactly
    when the identifiers the file carries are distinct and none of them
    is the positional identifier ([chr(65 + i)] or [Task{i+1}]) of a
    position [i] whose dict has no [task_id]: the guard
    ['task_id' not in task] looks at that one dict only, never at the
    identifiers already present. *)
Theorem migration_ids_distinct_iff ts :
  NoDup (map task_id (migrate ts)) <->
  NoDup (omap raw_task_id ts) /\
  (forall i r, ts !! i = Some r -> raw_task_id r = None -> position_id i ∉ omap raw_task_id ts).
Proof.
  rewrite NoDup_alt, NoDup_omap_lookup. split.
  - intros Hnd. split.
    + intros i j ri rj x Ei Ej Ri Rj. apply (Hnd i j x); rewrite migrate_task_id;
        [rewrite Ei; simpl; by rewrite Ri|rewrite Ej; simpl; by rewrite Rj].
    + intros i r Ei Ri (rj & (j & Ej)%list_elem_of_lookup & Rj)%list_elem_of_omap.
      assert (i = j) as <-.
      { apply (Hnd i j (position_id i)); rewrite migrate_task_id;
          [rewrite Ei; simpl; by rewrite Ri|rewrite Ej; simpl; by rewrite Rj]. }
      congruence.
  - intros [Hex Hpos] i j x. rewrite !migrate_task_id.
    destruct (ts !! i) as [ri|] eqn:Ei, (ts !! j) as [rj|] eqn:Ej; simpl; try done.
    destruct (raw_task_id ri) as [xi|] eqn:Ri, (raw_task_id rj) as [xj|] eqn:Rj;
      simpl; intros [= <-] [= Hx]; subst.
    + by apply (Hex i j ri rj xi).
    + destruct (Hpos j rj Ej Rj). apply list_elem_of_omap. exists ri.
      split; [by eapply list_elem_of_lookup_2|done].
    + destruct (Hpos i ri Ei Ri). apply list_elem_of_omap. exists rj.
      split; [by eapply list_elem_of_lookup_2|done].
    + by apply position_id_inj.
Qed.

(** A file whose first task has no [task_id] and whose second carries
    [A] loads as two tasks named [A]. *)
Lemma migration_ids_distinct_iff_witness :
  ~ NoDup (map task_id (migrate [mkRaw None "Buy milk" "2024-01-03T09:00:00" None None;
                                 mkRaw (Some "A") "Walk dog" "2024-01-03T09:05:00" (Some 2) (Some 0)])).
Proof.
  intros Hnd. destruct (proj1 (migration_ids_distinct_iff _) Hnd) as [_ Hpos].
  apply (Hpos 0%nat _ eq_refl eq_refl). vm_compute. constructor.
Defined.

(** C25: Saving and restarting gives back the queue and the statistics the
    session showed (the history starts afresh). *)
Theorem restart_roundtrip s ts :
  live_tasks s = Some ts ->
  load_data (save_data s) = (ts, live_statistics s) /\
  live_tasks (start (save_data s)) = Some ts /\
  live_statistics (start (save_data s)) = live_statistics s /\
  hist (start (save_data s)) = empty_history /\
  (forall (fmt : FloatFormat) today lb,
     @update_displays fmt (start (save_data s)) today lb = @update_displays fmt s today lb).
Proof.
  intros Hs. pose proof (load_save s ts Hs) as Hl.
  destruct (live_start (save_data s)) as [H1 H2]. rewrite Hl in H1, H2. simpl in H1, H2.
  split_and!; [done|done|done| |].
  - unfold start. by rewrite Hl.
  - intros fmt today lb. apply update_displays_ext; [by rewrite H1|done].
Qed.

Lemma restart_roundtrip_witness :
  live_tasks (start (save_data demo_session)) =
    Some [mkTask "A" "Buy milk" "2024-01-03T09:00:00" 0 0; mkTask "B" "Walk dog" "2024-01-03T09:00:00" 0 0].
Proof.
  assert (Hs : live_tasks demo_session =
                 Some [mkTask "A" "Buy milk" "2024-01-03T09:00:00" 0 0;
                       mkTask "B" "Walk dog" "2024-01-03T09:00:00" 0 0]) by (vm_compute; reflexivity).
  apply (restart_roundtrip _ _ Hs).
Defined.

End Load.
