(* ===== verification/Gui.v ===== *)
(** * Gui: the window [__init__] builds

    [main] (620-623) creates the Tk root and a [TodoApp]; [__init__]
    (15-57) sets the window's title and size, builds the data structures
    and loads the file (Load.start), makes the main frame with its grid
    weights, calls the four [create_*_section] methods (59-159), wires
    [WM_DELETE_WINDOW] to [on_closing] and refreshes every view.

    The window is the state of this file: the widgets created so far
    (each with its kind, its options that matter and its parent), the
    attributes [self.<name>] that point at them, and the log of the Tk
    calls that configure them ([grid], [rowconfigure] and
    [columnconfigure], [bind], [yscrollcommand], [protocol], [title],
    [geometry]).  The methods are programs of the monad [GuiM], whose
    failure is [AttributeError] on an attribute name.  Fonts, paddings,
    [sticky] and figure sizes only change how the window looks and are
    left out.

    [update_displays_gui] is the refresh as the window sees it: it reads
    the attributes the four view methods read, in the code's order, and
    then shows Panel.update_displays.  The theorems: start-up never
    raises and shows the refresh of the loaded state; the attributes
    every callback reads exist; the widgets form a tree in which no two
    widgets share a grid cell. *)

From S2P Require Import Prelude Session Display Panel Load.

Module Gui.
Import Session Display Panel Load.

(** ** The window *)

(** The bound methods the widgets call. *)
Inductive command :=
  | CmdMarkCurrentDone | CmdMarkCurrentSkip | CmdMarkSelectedDone | CmdMarkSelectedSkip
  | CmdAddTask | CmdEditTask | CmdDeleteTask | CmdUndo | CmdRedo | CmdSaveData.

(** What a widget, a binding or the window manager calls back. *)
Inductive callback := OnCommand (c : command) | OnTaskSelect | OnClosing.

Inductive projection := Rectilinear | Polar.

(** The widgets of the window, with the options that carry behaviour:
    texts, commands, the variable a label shows, the widget a scrollbar
    scrolls, the figure a canvas draws and the projection of axes. *)
Inductive wkind :=
  | Root
  | Frame
  | LabelFrame (text : string)
  | Label (text : string)
  | VarLabel (var : nat)
  | StringVar
  | Button (text : string) (cmd : command)
  | Listbox (height : nat)
  | Scrollbar (target : nat)
  | TextArea (height width : nat)
  | Figure
  | Axes (fig : nat) (proj : projection)
  | FigureCanvas (fig : nat).

Record widget := mkWidget { w_kind : wkind; w_parent : option nat }.

Inductive axis := Row | Column.

(** The Tk calls that configure the window, in the order made. *)
Inductive tk_call :=
  | Title (s : string)
  | Geometry (s : string)
  | Grid (w row column : nat)
  | Weight (w : nat) (ax : axis) (index weight : nat)
  | Bind (w : nat) (sequence : string) (cb : callback)
  | YScroll (w scrollbar : nat)
  | Protocol (name : string) (cb : callback).

(** A widget is the position of its creation in [g_widgets]. *)
Record gui := mkGui {
  g_widgets : list widget;
  g_attrs : gmap string nat;
  g_calls : list tk_call
}.

Definition empty_gui : gui := mkGui [] ∅ [].

(** ** The monad of the construction *)

(** [inl a]: [AttributeError: 'TodoApp' object has no attribute a]. *)
Definition GuiM (A : Type) : Type := gui -> string + (A * gui).

#[export] Instance GuiM_ret : MRet GuiM := fun A x g => inr (x, g).
#[export] Instance GuiM_bind : MBind GuiM := fun A B f m g =>
  match m g with
  | inl a => inl a
  | inr (x, g') => f x g'
  end.

(** [W(parent, ...)]: a new widget. *)
Definition new_widget (k : wkind) (parent : option nat) : GuiM nat := fun g =>
  inr (length (g_widgets g), mkGui (g_widgets g ++ [mkWidget k parent]) (g_attrs g) (g_calls g)).

(** [self.a = w] *)
Definition setattr (a : string) (w : nat) : GuiM unit := fun g =>
  inr (tt, mkGui (g_widgets g) (<[a := w]> (g_attrs g)) (g_calls g)).

(** [self.a] *)
Definition getattr (a : string) : GuiM nat := fun g =>
  match g_attrs g !! a with
  | Some w => inr (w, g)
  | None => inl a
  end.

(** [self.a1], ..., [self.an] in turn. *)
Fixpoint getattrs (l : list string) : GuiM unit :=
  match l with
  | [] => mret tt
  | a :: l' => _ ← getattr a; getattrs l'
  end.

Definition tk (c : tk_call) : GuiM unit := fun g =>
  inr (tt, mkGui (g_widgets g) (g_attrs g) (g_calls g ++ [c])).

(** [w = W(parent, ...); w.grid(row=r, column=c)] *)
Definition place (k : wkind) (parent : nat) (r c : nat) : GuiM nat :=
  w ← new_widget k (Some parent);
  tk (Grid w r c);;
  mret w.

(** [self.a = W(parent, ...); self.a.grid(row=r, column=c)] *)
Definition place_attr (a : string) (k : wkind) (parent : nat) (r c : nat) : GuiM nat :=
  w ← new_widget k (Some parent);
  setattr a w;;
  tk (Grid w r c);;
  mret w.

(** ** The sections *)

(** [create_task_section] (59-120). *)
Definition create_task_section : GuiM unit :=
  mf ← getattr "main_frame";
  task_frame ← place (LabelFrame "Tasks Management") mf 0 0;
  tk (Weight task_frame Column 0 1);;
  current_task_frame ← place Frame task_frame 0 0;
  tk (Weight current_task_frame Column 1 1);;
  _ ← place (Label "Current Task:") current_task_frame 0 0;
  var ← new_widget StringVar None;
  setattr "current_task_var" var;;
  _ ← place_attr "current_task_label" (VarLabel var) current_task_frame 0 1;
  action_frame ← place Frame task_frame 1 0;
  _ ← place_attr "done_btn" (Button "Done (Current)" CmdMarkCurrentDone) action_frame 0 0;
  _ ← place_attr "skip_btn" (Button "Skip (Current)" CmdMarkCurrentSkip) action_frame 0 1;
  _ ← place_attr "done_selected_btn" (Button "Done (Selected)" CmdMarkSelectedDone) action_frame 0 2;
  _ ← place_attr "skip_selected_btn" (Button "Skip (Selected)" CmdMarkSelectedSkip) action_frame 0 3;
  list_frame ← place Frame task_frame 2 0;
  tk (Weight list_frame Column 0 1);;
  tk (Weight list_frame Row 0 1);;
  lb ← place_attr "task_listbox" (Listbox 8) list_frame 0 0;
  tk (Bind lb "<<ListboxSelect>>" OnTaskSelect);;
  sb ← place (Scrollbar lb) list_frame 0 1;
  tk (YScroll lb sb);;
  mgmt_frame ← place Frame task_frame 3 0;
  _ ← place (Button "Add Task" CmdAddTask) mgmt_frame 0 0;
  _ ← place (Button "Edit Task" CmdEditTask) mgmt_frame 0 1;
  _ ← place (Button "Delete Task" CmdDeleteTask) mgmt_frame 0 2;
  _ ← place (Button "Undo" CmdUndo) mgmt_frame 0 3;
  _ ← place (Button "Redo" CmdRedo) mgmt_frame 0 4;
  _ ← place (Button "Save Progress" CmdSaveData) mgmt_frame 0 5;
  tk (Weight task_frame Row 2 1).

(** [create_statistics_section] (122-135). *)
Definition create_statistics_section : GuiM unit :=
  mf ← getattr "main_frame";
  stats_frame ← place (LabelFrame "Statistics") mf 0 1;
  txt ← place_attr "stats_text" (TextArea 15 30) stats_frame 0 0;
  sb ← place (Scrollbar txt) stats_frame 0 1;
  tk (YScroll txt sb);;
  tk (Weight stats_frame Column 0 1);;
  tk (Weight stats_frame Row 0 1).

(** [self.fig, self.ax = plt.subplots(...)]; [self.canvas =
    FigureCanvasTkAgg(self.fig, frame)] placed at (0, 0) of [frame]. *)
Definition chart_section (title fig_a ax_a canvas_a : string) (proj : projection) (row column : nat) :
  GuiM unit :=
  mf ← getattr "main_frame";
  frame ← place (LabelFrame title) mf row column;
  fig ← new_widget Figure None;
  ax ← new_widget (Axes fig proj) None;
  setattr fig_a fig;;
  setattr ax_a ax;;
  _ ← place_attr canvas_a (FigureCanvas fig) frame 0 0;
  tk (Weight frame Column 0 1);;
  tk (Weight frame Row 0 1).

(** [create_daily_chart_section] (137-147). *)
Definition create_daily_chart_section : GuiM unit :=
  chart_section "7-Day Performance Chart" "fig1" "ax1" "canvas1" Rectilinear 1 0.

(** [create_radar_chart_section] (149-159): [projection='polar']. *)
Definition create_radar_chart_section : GuiM unit :=
  chart_section "Task Performance Radar" "fig2" "ax2" "canvas2" Polar 1 1.

(** ** The refresh as the window sees it *)

(** The attributes [update_task_display] (358-388),
    [update_statistics_display] (390-432) and [update_daily_chart]
    (457-501) read, and those [update_individual_task_chart] (503-563)
    reads: on an empty queue it returns after [self.canvas2.draw()]
    without reaching [self.fig2]. *)
Definition task_display_reads : list string :=
  ["current_task_var"; "done_btn"; "skip_btn"; "task_listbox"; "done_selected_btn"; "skip_selected_btn"].

Definition task_chart_reads (ts : list task) : list string :=
  match ts with
  | [] => ["ax2"; "canvas2"]
  | _ :: _ => ["ax2"; "fig2"; "canvas2"]
  end.

Definition display_reads (ts : list task) : list string :=
  task_display_reads ++ ["stats_text"] ++ ["ax1"; "fig1"; "canvas1"] ++ task_chart_reads ts.

(** [update_displays] (351-356).  A missing attribute aborts the call;
    what the views drew before it is not kept, as nothing is shown of
    a window whose construction raised. *)
Definition update_displays_gui `{FloatFormat} (s : app) (today : Z) (lb : listbox) : GuiM (option screen) :=
  match live_tasks s with
  | None => mret None
  | Some ts =>
      getattrs (display_reads ts);;
      mret (update_displays s today lb)
  end.

(** The attributes a callback reads, the refresh that ends it included,
    when the queue is [ts] at that refresh. *)
Definition callback_reads (cb : callback) (ts : list task) : list string :=
  match cb with
  | OnCommand CmdSaveData => []
  | OnCommand (CmdEditTask | CmdDeleteTask | CmdMarkSelectedDone | CmdMarkSelectedSkip) =>
      "task_listbox" :: display_reads ts
  | OnCommand _ => display_reads ts
  | OnTaskSelect => ["task_listbox"; "done_selected_btn"; "skip_selected_btn"]
  | OnClosing => ["root"]
  end.

(** ** [__init__] and [main] *)

(** Lines 16-18 and 36-54: the widgets.  Lines 21-33 build
    [self.tasks], [self.history], [self.statistics] and call
    [load_data], which touches no widget; [init] takes their result
    from Load.start. *)
Definition build_window (root : nat) : GuiM unit :=
  setattr "root" root;;
  tk (Title "Advanced ToDo List Application");;
  tk (Geometry "1200x800");;
  mf ← new_widget Frame (Some root);
  setattr "main_frame" mf;;
  tk (Grid mf 0 0);;
  tk (Weight root Column 0 1);;
  tk (Weight root Row 0 1);;
  tk (Weight mf Column 0 1);;
  tk (Weight mf Column 1 1);;
  tk (Weight mf Row 0 1);;
  tk (Weight mf Row 1 1);;
  create_task_section;;
  create_statistics_section;;
  create_daily_chart_section;;
  create_radar_chart_section;;
  tk (Protocol "WM_DELETE_WINDOW" OnClosing).

(** The empty listbox of a new window. *)
Definition lb0 : listbox := mkListbox [] [].

(** [__init__] (15-57): the window, then [self.update_displays()]. *)
Definition init `{FloatFormat} (root : nat) (disk : option data_file) (today : Z) :
  GuiM (app * option screen) :=
  build_window root;;
  let s := start disk in
  scr ← update_displays_gui s today lb0;
  mret (s, scr).

(** [main] (620-623) up to [root.mainloop()]: [root = tk.Tk()] and
    [TodoApp(root)]. *)
Definition main `{FloatFormat} (disk : option data_file) (today : Z) : GuiM (app * option screen) :=
  root ← new_widget Root None;
  init root disk today.

Definition launch `{FloatFormat} (disk : option data_file) (today : Z) :=
  main disk today empty_gui.

(** ** Properties of a window, as decidable checks *)

(** The (container, cell) of every [grid] call. *)
Definition grid_cells (g : gui) : list (option nat * (nat * nat)) :=
  omap (fun c => match c with
                 | Grid w r col => Some (g_widgets g !! w ≫= w_parent, (r, col))
                 | _ => None
                 end) (g_calls g).

Definition gridded (g : gui) : list nat :=
  omap (fun c => match c with Grid w _ _ => Some w | _ => None end) (g_calls g).

(** Every parent is a widget created before its child. *)
Definition tree_ok (g : gui) : Prop :=
  forall w x p, g_widgets g !! w = Some x -> w_parent x = Some p -> p < w.

(** No widget is placed twice and no two widgets share a cell of the
    same container. *)
Definition layout_ok (g : gui) : Prop := NoDup (gridded g) /\ NoDup (grid_cells g).

(** Every attribute a callback or the refresh reads exists. *)
Definition callbacks_ready (g : gui) : Prop :=
  forall cb ts, Forall (fun a => is_Some (g_attrs g !! a)) (callback_reads cb ts).

Definition tree_ok_b (g : gui) : bool :=
  forallb (fun '(w, x) => match w_parent x with Some p => (p <? w)%nat | None => true end)
          (zip (seq 0 (length (g_widgets g))) (g_widgets g)).

(** [tk.Tk()]: the window before [TodoApp(root)]. *)
Definition root_gui : gui := mkGui [mkWidget Root None] ∅ [].

(** The window [__init__] builds on it. *)
Definition window : gui :=
  match build_window 0 root_gui with
  | inr (_, g) => g
  | inl _ => root_gui
  end.

(** [window] is a closed value: it is computed by [vm_compute], never
    unfolded by [simpl]. *)
Arguments window : simpl never.

(** ** Lemmas *)

Lemma build_window_run : build_window 0 root_gui = inr (tt, window).
Proof. vm_compute. reflexivity. Qed.

Lemma getattrs_ok g l : Forall (fun a => is_Some (g_attrs g !! a)) l -> getattrs l g = inr (tt, g).
Proof.
  induction 1 as [|a l [w Hw] _ IH]; [done|].
  simpl. cbv [mbind GuiM_bind getattr]. by rewrite Hw.
Qed.

Lemma getattrs_missing g l a :
  a ∈ l -> g_attrs g !! a = None -> exists b, getattrs l g = inl b /\ g_attrs g !! b = None.
Proof.
  induction l as [|b l IH]; intros Hin Ha; [by apply not_elem_of_nil in Hin|].
  simpl. cbv [mbind GuiM_bind getattr].
  destruct (g_attrs g !! b) eqn:Hb; [|by exists b].
  apply IH; [|done]. apply elem_of_cons in Hin as [->|]; [congruence|done].
Qed.

Lemma tree_ok_b_sound g : tree_ok_b g = true -> tree_ok g.
Proof.
  unfold tree_ok_b, tree_ok. intros Hb w x p Hw Hp.
  apply forallb_forall with (x := (w, x)) in Hb.
  - rewrite Hp in Hb. by apply Nat.ltb_lt.
  - apply list_elem_of_In, list_elem_of_lookup. exists w.
    rewrite lookup_zip_with, lookup_seq_lt by (eapply lookup_lt_Some; eauto). simpl. by rewrite Hw.
Qed.

Lemma has_attrs_sound g l :
  forallb (fun a => bool_decide (is_Some (g_attrs g !! a))) l = true ->
  Forall (fun a => is_Some (g_attrs g !! a)) l.
Proof.
  intros Hb. apply Forall_forall. intros a Ha%list_elem_of_In.
  eapply forallb_forall in Hb; [|exact Ha]. by apply bool_decide_eq_true in Hb.
Qed.

Lemma window_ready : callbacks_ready window.
Proof. intros [[]| |] [|t ts]; apply has_attrs_sound; vm_compute; reflexivity. Qed.

Lemma launch_run `{FloatFormat} disk today :
  launch disk today =
    match update_displays_gui (start disk) today lb0 window with
    | inl a => inl a
    | inr (scr, g) => inr ((start disk, scr), g)
    end.
Proof.
  unfold launch, main, init. cbv [mbind GuiM_bind new_widget]. simpl.
  fold root_gui. rewrite build_window_run. by destruct (update_displays_gui _ _ _ _) as [|[]].
Qed.

(** [main] builds [window] and shows the refresh of the loaded state. *)
Lemma launch_ok `{FloatFormat} disk today :
  launch disk today = inr ((start disk, update_displays (start disk) today lb0), window).
Proof.
  destruct (live_start disk) as [Hl _].
  rewrite launch_run. unfold update_displays_gui. rewrite Hl.
  cbv [mbind GuiM_bind]. by rewrite getattrs_ok by apply (window_ready (OnCommand CmdUndo)).
Qed.

(** ** Theorems *)

(** C9: Start-up never raises: whatever the data file, [main] builds the
    window, every attribute the refresh reads exists when
    [self.update_displays()] runs, and the window shows the refresh of
    the loaded state; every callback the window can fire later finds
    the attributes it reads. *)
Theorem init_ready `{FloatFormat} disk today :
  exists scr, update_displays (start disk) today lb0 = Some scr /\
    launch disk today = inr ((start disk, Some scr), window) /\
    callbacks_ready window.
Proof.
  destruct (live_start disk) as [Hl _]. rewrite launch_ok.
  unfold update_displays. rewrite Hl. simpl. destruct (update_task_display _ lb0).
  eexists. split_and!; [reflexivity|reflexivity|exact window_ready].
Qed.

(** The widgets form a tree (each parent created before its child), no
    widget is placed twice and no two widgets of one container share a
    grid cell. *)
Lemma window_layout : tree_ok window /\ layout_ok window.
Proof.
  split; [apply tree_ok_b_sound; vm_compute; reflexivity|].
  split; [apply (bool_decide_unpack (NoDup (gridded window)))|apply (bool_decide_unpack (NoDup (grid_cells window)))];
    vm_compute; reflexivity.
Qed.

End Gui.
