(* ===== verification/Ui.v ===== *)
(** * Ui: the window's event loop

    After [main] has built the window (Gui.v), [root.mainloop()] (623)
    runs the callbacks the user's gestures fire.  This file composes the
    components the way the window does:
    - a click on a row of the listbox selects that row and fires
      [<<ListboxSelect>>], that is [on_task_select] (161-169);
    - a click on an enabled button calls its command: the Session
      handler with the widget inputs it reads ([curselection()[0]] of
      the listbox, the dialog's answer, the confirmation), whose
      [update_displays] redraws the screen (Panel.update_displays);
      "Save Progress" calls [save_data] (565-577, Load.save_data_io);
      a disabled button does nothing;
    - an exception a callback raises is printed by Tk and the loop goes
      on with the state the callback left.

    The state is the application state, what the screen shows and the
    data file.  The theorems: the listbox always lists the queue and
    its selection is a row of it; no gesture makes a callback raise, so
    the [IndexError] paths of Session.v are not reachable from the
    window; the row the user selects is the task "Done (Selected)"
    acts on; closing after a successful save and starting again shows
    the screen the session would show.

    Tk's [exportselection], by which another widget's text selection
    (in a dialog, say) can clear the listbox's, is not modelled: it only
    empties [curselection()], a case the handlers that read it warn
    about. *)

From S2P Require Import Prelude Calendar TaskId History Stats Session Display Panel Load Gui.

Module Ui.
Import PyDate TaskId History Session Display Panel Load Gui.

(** ** The state of the running window *)

Record ui := mkUi { u_app : app; u_screen : screen; u_disk : option data_file }.

(** What a callback reads besides the widgets: the dialog's answer
    ([askstring]), the confirmation ([askyesno]) and how the write of
    [save_data] goes. *)
Record inputs := mkInputs { in_answer : option string; in_confirm : bool; in_write : write_outcome }.

Inductive gesture :=
  | ClickRow (row : nat)
  | Press (w : nat) (inp : inputs).

Inductive outcome :=
  | Ignored
  | Selected
  | Handled (r : exn + reply)
  | Saved (m : message).

(** [selection = self.task_listbox.curselection()]; [selection[0]]. *)
Definition selection_of (lb : listbox) : option Z :=
  match lb_selection lb with
  | [] => None
  | i :: _ => Some (Z.of_nat i)
  end.

(** The handler a command runs, with the inputs it reads. *)
Definition to_event (cmd : command) (sel : option Z) (inp : inputs) : option event :=
  match cmd with
  | CmdMarkCurrentDone => Some MarkCurrentDone
  | CmdMarkCurrentSkip => Some MarkCurrentSkip
  | CmdMarkSelectedDone => Some (MarkSelectedDone sel)
  | CmdMarkSelectedSkip => Some (MarkSelectedSkip sel)
  | CmdAddTask => Some (AddTask (in_answer inp))
  | CmdEditTask => Some (EditTask sel (in_answer inp))
  | CmdDeleteTask => Some (DeleteTask sel (in_confirm inp))
  | CmdUndo => Some Undo
  | CmdRedo => Some Redo
  | CmdSaveData => None
  end.

Definition attr_is (a : string) (w : nat) : bool := bool_decide (g_attrs window !! a = Some w).

(** The [state] the last [config] gave a button: the refresh sets the
    four task buttons (358-388), [on_task_select] the two selected-task
    ones; the others stay [normal]. *)
Definition button_enabled (v : task_view) (w : nat) : bool :=
  if attr_is "done_btn" w || attr_is "skip_btn" w then current_buttons v
  else if attr_is "done_selected_btn" w || attr_is "skip_selected_btn" w then selected_buttons v
  else true.

(** A click on the listbox at row [i] (counted from the top, possibly
    below the last row): Tk's binding selects [index @x,y], the nearest
    row, which is the last one for a click below it; on an empty listbox
    nothing is selected and no [<<ListboxSelect>>] fires.  Then
    [on_task_select] sets the selected-task buttons. *)
Definition click_row (i : nat) (scr : screen) : option screen :=
  let lb := scr_listbox scr in
  if decide (lb_items lb = []) then None
  else
    let lb' := mkListbox (lb_items lb) [Nat.min i (length (lb_items lb) - 1)] in
    let v := scr_tasks scr in
    Some (mkScreen (mkView (current_label v) (current_buttons v) (on_task_select lb')) lb'
                   (scr_stats scr) (scr_daily scr) (scr_chart scr)).

(** A command: "Save Progress" writes the file and shows a message; the
    others run their handler, which redraws the screen when it calls
    [update_displays] (a store that does not read back, never the case
    on a reachable state, would leave the screen as it was). *)
Definition run_command `{FloatFormat} (c : clock) (cmd : command) (inp : inputs) (u : ui) : outcome * ui :=
  match to_event cmd (selection_of (scr_listbox (u_screen u))) inp with
  | None =>
      let '(d, m) := save_data_io (in_write inp) (u_disk u) (u_app u) in
      (Saved m, mkUi (u_app u) (u_screen u) d)
  | Some e =>
      let '(r, s') := handler c e (u_app u) in
      let scr := match r with
                 | inr Refreshed => default (u_screen u) (update_displays s' (now_ord c) (scr_listbox (u_screen u)))
                 | _ => u_screen u
                 end in
      (Handled r, mkUi s' scr (u_disk u))
  end.

(** One gesture on the window [main] built. *)
Definition ui_step `{FloatFormat} (c : clock) (x : gesture) (u : ui) : outcome * ui :=
  match x with
  | ClickRow i =>
      match click_row i (u_screen u) with
      | Some scr => (Selected, mkUi (u_app u) scr (u_disk u))
      | None => (Ignored, u)
      end
  | Press w inp =>
      match g_widgets window !! w with
      | Some (mkWidget (Button _ cmd) _) =>
          if button_enabled (scr_tasks (u_screen u)) w then run_command c cmd inp u else (Ignored, u)
      | _ => (Ignored, u)
      end
  end.

(** The window's close button: [on_closing] (615-618). *)
Definition close (w : write_outcome) (u : ui) : option data_file * message :=
  on_closing w (u_disk u) (u_app u).

(** The states of the window started on [disk]. *)
Inductive ui_reachable `{FloatFormat} (disk : option data_file) : ui -> Prop :=
  | ui_launch today scr :
      launch disk today = inr ((start disk, Some scr), window) -> ui_reachable disk (mkUi (start disk) scr disk)
  | ui_next c x u : ui_reachable disk u -> ui_reachable disk (snd (ui_step c x u)).

(** The task section shows the queue: one row per task in queue order,
    a selection among those rows, the current-task buttons enabled
    exactly when there is a task. *)
Definition in_sync (u : ui) : Prop :=
  exists ts, live_tasks (u_app u) = Some ts /\
    lb_items (scr_listbox (u_screen u)) = map task_row ts /\
    Forall (fun i => i < length ts) (lb_selection (scr_listbox (u_screen u))) /\
    current_buttons (scr_tasks (u_screen u)) = bool_decide (ts <> []).

(** The selection a handler receives names a row of a queue of [n]
    tasks. *)
Definition sel_ok (n : nat) (sel : option Z) : Prop :=
  match sel with
  | None => True
  | Some i => exists k, i = Z.of_nat k /\ k < n
  end.

Definition event_sel_ok (n : nat) (e : event) : Prop :=
  match e with
  | EditTask sel _ | DeleteTask sel _ | MarkSelectedDone sel | MarkSelectedSkip sel => sel_ok n sel
  | _ => True
  end.

(** The file the specification's two-task session saves, and the window
    started on it. *)
Definition demo_disk : option data_file := save_data demo_session.

Definition demo_screen : screen :=
  default (mkScreen (mkView "" false false) lb0 "" None NoTasksText) (update_displays (start demo_disk) 738888 lb0).

Definition demo_ui : ui := mkUi (start demo_disk) demo_screen demo_disk.

(** ** Lemmas *)

Lemma live_tasks_length s ts : live_tasks s = Some ts -> length ts = length (tasks s).
Proof. intros Hd. symmetry. exact (length_mapM _ _ _ Hd). Qed.

(** A handler that does not end in [update_displays] leaves the queue
    and the task dicts as they were: it returned early, or raised
    before [pop] removed anything. *)
Lemma handler_quiet c e s :
  fst (handler c e s) <> inr Refreshed ->
  tasks (snd (handler c e s)) = tasks s /\ heap (snd (handler c e s)) = heap s.
Proof.
  destruct e; cbv [handler mark_selected_done mark_selected_skip undo_action redo_action];
    rewrite ?add_task_run, ?edit_task_run, ?delete_task_run, ?mark_current_done_run,
      ?mark_current_skip_run, ?mark_done_at_run, ?mark_skip_at_run;
    repeat (case_match; rewrite ?mark_done_at_run, ?mark_skip_at_run); simpl; intros; by try congruence.
Qed.

Lemma live_quiet c e s :
  fst (handler c e s) <> inr Refreshed -> live_tasks (snd (handler c e s)) = live_tasks s.
Proof. intros Hq. destruct (handler_quiet c e s Hq) as [Ht Hh]. unfold live_tasks. by rewrite Ht, Hh. Qed.

(** On a well-formed state, a handler given a selection among the rows
    raises nothing. *)
Lemma handler_safe c e s ts :
  app_wf s -> live_tasks s = Some ts -> event_sel_ok (length ts) e ->
  exists r, fst (handler c e s) = inr r.
Proof.
  intros Hwf Hd He. pose proof (live_tasks_length s ts Hd) as Hlen.
  assert (Hpop : forall k, k < length ts -> exists l rest, py_pop (tasks s) (Z.of_nat k) = Some (l, rest)).
  { intros k Hk. destruct (py_pop_nonneg (tasks s) (Z.of_nat k)) as (x & _ & Hp); [lia|]. eauto. }
  destruct e; cbv [handler mark_selected_done mark_selected_skip undo_action redo_action] in *;
    rewrite ?add_task_run, ?edit_task_run, ?delete_task_run, ?mark_current_done_run,
      ?mark_current_skip_run.
  - repeat case_match; eauto.
  - destruct selection as [i|]; [|eauto]. destruct He as (k & -> & Hk).
    rewrite py_getitem_nonneg by lia. rewrite Nat2Z.id.
    destruct (lookup_lt_is_Some_2 (tasks s) k) as [l ->]; [lia|]. repeat case_match; eauto.
  - destruct selection as [i|]; [|eauto]. destruct He as (k & -> & Hk).
    destruct confirm; [|eauto]. destruct (Hpop k Hk) as (? & ? & ->). eauto.
  - case_match; [eauto|]. match goal with H : tasks s = _ |- _ => rewrite mark_done_at_run, H, py_pop_head end. eauto.
  - case_match; [eauto|]. match goal with H : tasks s = _ |- _ => rewrite mark_skip_at_run, H, py_pop_head end. eauto.
  - destruct selection as [i|]; [|eauto]. destruct He as (k & -> & Hk).
    rewrite mark_done_at_run. destruct (Hpop k Hk) as (? & ? & ->). eauto.
  - destruct selection as [i|]; [|eauto]. destruct He as (k & -> & Hk).
    rewrite mark_skip_at_run. destruct (Hpop k Hk) as (? & ? & ->). eauto.
  - destruct (undo (hist s)) eqn:Eu; eauto. by apply (undo_no_fault _ h) in Eu; [|apply Hwf].
  - destruct (redo (hist s)) eqn:Eu; eauto. by apply (redo_no_fault _ h) in Eu; [|apply Hwf].
Qed.

Lemma to_event_sel_ok n cmd lb inp e :
  Forall (fun i => i < n) (lb_selection lb) -> to_event cmd (selection_of lb) inp = Some e ->
  event_sel_ok n e.
Proof.
  unfold selection_of. intros Hs. destruct cmd; intros [= <-]; simpl; try done;
    destruct (lb_selection lb) as [|i sel]; simpl; try done; apply Forall_cons in Hs as [Hi _]; eauto.
Qed.

(** The refresh of a well-formed state shows its queue. *)
Lemma refresh_in_sync `{FloatFormat} s today lb d :
  app_wf s -> exists scr, update_displays s today lb = Some scr /\ in_sync (mkUi s scr d).
Proof.
  intros Hwf. destruct (app_wf_live s Hwf) as (ts & Hd & _).
  destruct (update_task_display_view ts lb) as (Hi & Hs & _ & Hc & _).
  unfold update_displays. rewrite Hd. simpl. destruct (update_task_display ts lb) as [v lb'].
  eexists. split; [reflexivity|]. exists ts. simpl in *. rewrite Hi, Hs. by split_and!.
Qed.

(** A click on a row the listbox shows selects that row. *)
Lemma click_row_index i scr :
  i < length (lb_items (scr_listbox scr)) ->
  click_row i scr =
    Some (mkScreen (mkView (current_label (scr_tasks scr)) (current_buttons (scr_tasks scr))
                           (on_task_select (mkListbox (lb_items (scr_listbox scr)) [i])))
                   (mkListbox (lb_items (scr_listbox scr)) [i]) (scr_stats scr) (scr_daily scr) (scr_chart scr)).
Proof.
  intros Hlt. unfold click_row. rewrite decide_False by (intros E; rewrite E in Hlt; simpl in Hlt; lia).
  by rewrite Nat.min_l by lia.
Qed.

Lemma click_row_in_sync i u scr :
  in_sync u -> click_row i (u_screen u) = Some scr -> in_sync (mkUi (u_app u) scr (u_disk u)).
Proof.
  intros (ts & Hd & Hi & Hs & Hc). unfold click_row.
  case_decide as Hne; [done|]. intros [= <-]. exists ts. simpl. rewrite Hi in Hne |- *.
  rewrite length_map. destruct ts as [|t ts']; [done|].
  split_and!; [done|done|constructor; [simpl; lia|constructor]|done].
Qed.

(** One gesture keeps the state well formed and the screen in sync. *)
Lemma ui_step_inv `{FloatFormat} c x u :
  app_wf (u_app u) -> in_sync u ->
  app_wf (u_app (snd (ui_step c x u))) /\ in_sync (snd (ui_step c x u)).
Proof.
  intros Hwf Hs. destruct x as [i|w inp]; unfold ui_step.
  - destruct (click_row i (u_screen u)) eqn:E; [|done]. split; [done|]. by eapply click_row_in_sync.
  - destruct (g_widgets window !! w) as [[[] p]|]; try done.
    destruct (button_enabled _ w); [|split; assumption]. unfold run_command.
    destruct (to_event cmd _ inp) as [e|]; [|by destruct (save_data_io _ _ _)].
    pose proof (step_wf c e _ Hwf) as Hwf'. unfold step in Hwf'.
    destruct (handler c e (u_app u)) as [r s'] eqn:Eh. cbn [fst snd u_app u_screen u_disk] in *. split; [done|].
    destruct r as [ex|[| |msg]].
    2: { destruct (refresh_in_sync s' (now_ord c) (scr_listbox (u_screen u)) (u_disk u) Hwf')
           as (scr & -> & Hsync). exact Hsync. }
    all: assert (Hl : live_tasks s' = live_tasks (u_app u))
           by (pose proof (live_quiet c e (u_app u)) as Hq; rewrite Eh in Hq; by apply Hq);
      destruct Hs as (ts & Hd & Hrest); exists ts; cbn [u_app u_screen]; by rewrite Hl.
Qed.

(** The screen a launch shows (read off without unfolding [window]). *)
Lemma launched_screen {A B} (s s' : A) (o o' : option B) (g g' : gui) :
  @inr string _ ((s, o), g) = inr ((s', o'), g') -> o = o'.
Proof. intros Heq. by apply (f_equal (fun r => match r with inr ((_, o), _) => o | inl _ => None end)) in Heq. Qed.

(** Every state of the window is well formed and in sync. *)
Lemma ui_reachable_inv `{FloatFormat} disk u :
  NoDup (map task_id (fst (load_data disk))) -> ui_reachable disk u -> app_wf (u_app u) /\ in_sync u.
Proof.
  intros Hnd. induction 1 as [today scr Hl|c x u _ [Hwf Hs]].
  2: { apply ui_step_inv; assumption. }
  pose proof (start_wf disk Hnd) as Hwf. rewrite launch_ok in Hl. apply launched_screen in Hl.
  destruct (refresh_in_sync (start disk) today lb0 disk Hwf) as (scr' & Hu & Hsync).
  rewrite Hu in Hl. injection Hl as ->. by split.
Qed.

Lemma demo_disk_ids : NoDup (map task_id (fst (load_data demo_disk))).
Proof. apply (bool_decide_unpack (NoDup (map task_id (fst (load_data demo_disk))))). vm_compute. reflexivity. Qed.

(** The button [self.done_selected_btn] calls [mark_selected_done] and
    is enabled by the selection. *)
Lemma done_selected_button w :
  g_attrs window !! "done_selected_btn" = Some w ->
  (exists p, g_widgets window !! w = Some (mkWidget (Button "Done (Selected)" CmdMarkSelectedDone) p)) /\
  forall v, button_enabled v w = selected_buttons v.
Proof.
  intros Hw. vm_compute in Hw. injection Hw as <-.
  split; [eexists; vm_compute; reflexivity|intros [? ? ?]; vm_compute; reflexivity].
Qed.

(** A press of an enabled button whose command is a handler runs one
    Session step. *)
Lemma press_runs_step `{FloatFormat} c w inp u text cmd p e :
  g_widgets window !! w = Some (mkWidget (Button text cmd) p) ->
  button_enabled (scr_tasks (u_screen u)) w = true ->
  to_event cmd (selection_of (scr_listbox (u_screen u))) inp = Some e ->
  u_app (snd (ui_step c (Press w inp) u)) = step c e (u_app u).
Proof.
  intros Hw Hb He. unfold ui_step. rewrite Hw, Hb. unfold run_command. rewrite He.
  unfold step. by destruct (handler c e (u_app u)).
Qed.

(** A successful save followed by [main] shows the screen the session
    would show now. *)
Lemma relaunch_screen `{FloatFormat} s ts today :
  live_tasks s = Some ts ->
  launch (save_data s) today = inr ((start (save_data s), update_displays s today lb0), window).
Proof.
  intros Hs. rewrite launch_ok. destruct (live_start (save_data s)) as [H1 H2].
  rewrite (load_save s ts Hs) in H1, H2. by rewrite (update_displays_ext s) by (by rewrite H1 || done).
Qed.

(** ** Theorems *)

(** C2: Started on a file whose task identifiers are distinct, the
    window always lists the queue: one listbox row per task in queue
    order, a selection among those rows, and the current-task buttons
    enabled exactly when there is a task. *)
Theorem window_in_sync `{FloatFormat} disk u :
  NoDup (map task_id (fst (load_data disk))) -> ui_reachable disk u -> in_sync u.
Proof. intros Hnd Hr. apply (ui_reachable_inv disk u Hnd Hr). Qed.

Lemma window_in_sync_witness : in_sync demo_ui.
Proof.
  apply (window_in_sync demo_disk); [exact demo_disk_ids|].
  apply (ui_launch demo_disk 738888). vm_compute. reflexivity.
Defined.

(** C1: No gesture on the window makes a callback raise: the selection a
    handler reads is always a row of the queue and the history cursor
    always in range, so the [IndexError] paths of [delete_task],
    [edit_task], [mark_selected_done], [mark_selected_skip], [undo] and
    [redo] are never taken from the window. *)
Theorem window_never_raises `{FloatFormat} disk u c x ex :
  NoDup (map task_id (fst (load_data disk))) -> ui_reachable disk u ->
  fst (ui_step c x u) <> Handled (inl ex).
Proof.
  intros Hnd Hr. destruct (ui_reachable_inv disk u Hnd Hr) as [Hwf (ts & Hd & _ & Hsel & _)].
  destruct x as [i|w inp]; unfold ui_step; [by destruct (click_row i (u_screen u))|].
  destruct (g_widgets window !! w) as [[[] p]|]; try (destruct (button_enabled _ w)); try done.
  unfold run_command.
  destruct (to_event cmd _ inp) as [e|] eqn:He; [|by destruct (save_data_io _ _ _)].
  destruct (handler_safe c e (u_app u) ts Hwf Hd) as [r Hr']; [by eapply to_event_sel_ok|].
  destruct (handler c e (u_app u)) as [r' s']. simpl in Hr' |- *. by subst.
Qed.

Lemma window_never_raises_witness :
  fst (ui_step demo_clock (Press 10 (mkInputs None true Written)) (snd (ui_step demo_clock (ClickRow 1) demo_ui)))
    <> Handled (inl IndexError).
Proof.
  apply (window_never_raises demo_disk); [exact demo_disk_ids|].
  apply ui_next. apply (ui_launch demo_disk 738888). vm_compute. reflexivity.
Defined.

(** C3: Started on a file whose task identifiers are distinct,
    selecting row [i] of the listbox and pressing "Done (Selected)"
    acts on the task that row shows: it moves to the end of the queue
    with its completed count increased, and today's count and the total
    grow by one. *)
Theorem select_then_done `{FloatFormat} (disk : option data_file) (u : ui) (ts : list task) (i : nat) (t : task)
    (c c' : clock) (w : nat) (inp : inputs) :
  NoDup (map task_id (fst (load_data disk))) -> ui_reachable disk u ->
  live_tasks (u_app u) = Some ts -> ts !! i = Some t ->
  g_attrs window !! "done_selected_btn" = Some w ->
  lb_items (scr_listbox (u_screen u)) !! i = Some (task_row t) /\
  live_tasks (u_app (snd (ui_step c' (Press w inp) (snd (ui_step c (ClickRow i) u))))) =
    Some (delete i ts ++ [inc_completed t]) /\
  live_statistics (u_app (snd (ui_step c' (Press w inp) (snd (ui_step c (ClickRow i) u))))) =
    Stats.record_done (date_key (now_ord c')) (live_statistics (u_app u)).
Proof.
  intros Hnd Hr Hd Ht Hw. destruct (ui_reachable_inv disk u Hnd Hr) as [Hwf (ts' & Hd' & Hi & _)].
  rewrite Hd in Hd'. injection Hd' as <-.
  assert (Hrow : lb_items (scr_listbox (u_screen u)) !! i = Some (task_row t)) by (by rewrite Hi, list_lookup_fmap, Ht).
  split; [done|].
  assert (Hlt : i < length (lb_items (scr_listbox (u_screen u)))) by (by eapply lookup_lt_Some).
  destruct (done_selected_button w Hw) as [[p Hb] Hen].
  assert (Hu1 : snd (ui_step c (ClickRow i) u) =
                  mkUi (u_app u) (mkScreen (mkView (current_label (scr_tasks (u_screen u)))
                    (current_buttons (scr_tasks (u_screen u))) (on_task_select (mkListbox (lb_items (scr_listbox (u_screen u))) [i])))
                    (mkListbox (lb_items (scr_listbox (u_screen u))) [i]) (scr_stats (u_screen u))
                    (scr_daily (u_screen u)) (scr_chart (u_screen u))) (u_disk u))
    by (unfold ui_step; by rewrite click_row_index).
  rewrite Hu1, (press_runs_step c' w inp _ _ _ p (MarkSelectedDone (Some (Z.of_nat i))) Hb); [|by rewrite Hen|done].
  cbn [u_app]. unfold step, handler, mark_selected_done.
  destruct (mark_done_at_view c' (u_app u) (Z.of_nat i) i ts t Hwf Hd) as (H1 & H2 & _);
    [apply py_norm_index_nat; by eapply lookup_lt_Some|done|].
  by split.
Qed.

(** Row 1 of the window started on the saved two-task session shows
    [B]; selecting it and pressing "Done (Selected)" (widget 10) leaves
    [A; B] with [B] completed once. *)
Lemma select_then_done_witness :
  live_tasks (u_app (snd (ui_step demo_clock (Press 10 (mkInputs None true Written))
                            (snd (ui_step demo_clock (ClickRow 1) demo_ui))))) =
    Some [mkTask "A" "Buy milk" "2024-01-03T09:00:00" 0 0; mkTask "B" "Walk dog" "2024-01-03T09:00:00" 1 0].
Proof.
  refine (proj1 (proj2 (select_then_done demo_disk demo_ui
            [mkTask "A" "Buy milk" "2024-01-03T09:00:00" 0 0; mkTask "B" "Walk dog" "2024-01-03T09:00:00" 0 0]
            1 (mkTask "B" "Walk dog" "2024-01-03T09:00:00" 0 0) demo_clock demo_clock 10
            (mkInputs None true Written) demo_disk_ids _ _ _ _))).
  - apply (ui_launch demo_disk 738888). vm_compute. reflexivity.
  - vm_compute. reflexivity.
  - reflexivity.
  - vm_compute. reflexivity.
Defined.

(** C18: Started on a file whose task identifiers are distinct,
    closing the window after any session, with a save that
    succeeds, and running [main] again shows at once the screen the
    session would show: the same rows, statistics text and charts. *)
Theorem close_and_relaunch `{FloatFormat} disk u today :
  NoDup (map task_id (fst (load_data disk))) -> ui_reachable disk u ->
  exists scr, update_displays (u_app u) today lb0 = Some scr /\
    launch (fst (close Written u)) today = inr ((start (fst (close Written u)), Some scr), window).
Proof.
  intros Hnd Hr. destruct (ui_reachable_inv disk u Hnd Hr) as [Hwf _].
  destruct (refresh_in_sync (u_app u) today lb0 (u_disk u) Hwf) as (scr & Hscr & ts & Hd & _).
  exists scr. split; [done|]. unfold close, on_closing, save_data_io. cbn [fst].
  by rewrite (relaunch_screen _ ts) , Hscr.
Qed.

Lemma close_and_relaunch_witness :
  exists scr, update_displays (u_app demo_ui) 738889 lb0 = Some scr /\
    launch (fst (close Written demo_ui)) 738889 = inr ((start (fst (close Written demo_ui)), Some scr), window).
Proof.
  apply (close_and_relaunch demo_disk demo_ui 738889 demo_disk_ids).
  apply (ui_launch demo_disk 738888). vm_compute. reflexivity.
Defined.

End Ui.
