(* ===== verification/Radar.v ===== *)
(** * Radar: the per-task chart on the polar axes

    [create_radar_chart_section] (149-159) creates [self.ax2] with
    [subplot_kw=dict(projection='polar')] (Gui.v), and
    [update_individual_task_chart] (503-563), whose docstring reads "bar
    chart instead of radar", draws on those axes the grouped bar chart of
    Panel.v: for the task at position [i] of the sorted list,
    [ax2.bar(i - width/2, completed, width)] and
    [ax2.bar(i + width/2, skipped, width)] with [width = 0.35].

    On polar axes the first argument of [bar] is an angle in radians and
    the height a radius: each bar is a sector from the centre, the bar at
    [x] spanning the angles [(x - width/2, x + width/2)] taken modulo
    [2 PI].  Positions [0 .. 5] fit in one turn, position [6] (6 rad,
    0.28 rad short of a full turn) comes back over position [0].  The
    theorems: up to six tasks no two tasks' bars overlap; from seven
    tasks on the first task's completed bar and the seventh task's
    skipped bar overlap whenever both are drawn.

    Angles are real numbers; the bounds [3 < PI < 3.35] come from the
    Standard Library ([PI2_3_2] and Machin's series [PI_2_3_7_ineq]). *)

From Stdlib Require Import Reals Lra Machin.
From S2P Require Import Prelude Session Display Panel Gui.

Module Radar.
Import Session Display Panel Gui.

Local Open Scope R_scope.

(** [width = 0.35] *)
Definition width : R := 35 / 100.

(** A bar of [ax.bar(x, height, width)] (centred on [x]). *)
Record bar := mkBar { b_x : R; b_width : R; b_height : R }.

(** The bars [update_individual_task_chart] draws, each with the
    position [i] of its task: [bars1] at [x - width/2], [bars2] at
    [x + width/2], for [x = np.arange(len(task_ids))]. *)
Definition chart_bars (ch : task_chart) : list (nat * bar) :=
  match ch with
  | NoTasksText => []
  | TaskBars _ completed skipped _ _ _ =>
      imap (fun i h => (i, mkBar (INR i - width / 2) width (IZR h))) completed ++
      imap (fun i h => (i, mkBar (INR i + width / 2) width (IZR h))) skipped
  end.

(** On polar axes: the angle [theta] lies in the bar's open sector. *)
Definition in_sector (b : bar) (theta : R) : Prop :=
  exists k : Z, b_x b - b_width b / 2 < theta + 2 * PI * IZR k < b_x b + b_width b / 2.

(** Two sectors drawn from the centre overlap when both have a positive
    radius and their angles meet. *)
Definition bars_overlap (b1 b2 : bar) : Prop :=
  0 < b_height b1 /\ 0 < b_height b2 /\ exists theta, in_sector b1 theta /\ in_sector b2 theta.

(** ** Lemmas *)

Lemma PI_gt_3 : 3 < PI.
Proof. pose proof PI2_3_2. lra. Qed.

Lemma PI_lt_335 : PI < 335 / 100.
Proof.
  pose proof (proj2 (PI_2_3_7_ineq 0)) as Hpi. simpl in Hpi.
  unfold tg_alt, PI_2_3_7_tg, Ratan_seq in Hpi. simpl in Hpi. lra.
Qed.

(** A bar of position [i] lies in [(i - width, i + width)]. *)
Lemma chart_bars_pos ts i b :
  In (i, b) (chart_bars (update_individual_task_chart ts)) ->
  (i < length ts)%nat /\ b_width b = width /\
  (b_x b = INR i - width / 2 \/ b_x b = INR i + width / 2).
Proof.
  unfold update_individual_task_chart. destruct ts as [|t ts']; [done|].
  rewrite <- (Permutation_length (sort_by_id_perm (t :: ts'))). cbn [chart_bars].
  intros [Hin|Hin]%in_app_or; apply list_elem_of_In, elem_of_lookup_imap in Hin as (j & h & [= -> ->] & Hj);
    apply lookup_lt_Some in Hj; rewrite length_map in Hj; simpl; split_and!; auto.
Qed.

(** Two sectors of half-width at most [width] around angles in [[0, 5]]
    meet only within one turn, and then their centres are closer than
    [2 width]. *)
Lemma sectors_meet a b theta (k1 k2 : Z) :
  0 <= a <= 5 -> 0 <= b <= 5 ->
  a - width < theta + 2 * PI * IZR k1 < a + width ->
  b - width < theta + 2 * PI * IZR k2 < b + width ->
  Rabs (a - b) < 2 * width.
Proof.
  intros Ha Hb H1 H2. pose proof PI_gt_3 as Hpi. unfold width in *.
  assert (Hk1 : IZR k1 = IZR k2 + IZR (k1 - k2)) by (rewrite minus_IZR; ring).
  rewrite Hk1 in H1. set (d := IZR (k1 - k2)) in *.
  destruct (Z_lt_le_dec (k1 - k2) 0) as [Hlt|Hge]; [|destruct (Z.eq_dec (k1 - k2) 0) as [H0|Hne]].
  - assert (Hle : (k1 - k2 <= -1)%Z) by lia. apply IZR_le in Hle. simpl in Hle. fold d in Hle.
    assert (PI * d <= - PI) by nra. exfalso. nra.
  - assert (Hd0 : d = 0) by (unfold d; by rewrite H0). rewrite Hd0 in H1.
    apply Rabs_def1; nra.
  - assert (Hgt : (1 <= k1 - k2)%Z) by lia. apply IZR_le in Hgt.
    fold d in Hgt. assert (PI * d >= PI) by nra. exfalso. nra.
Qed.

Lemma INR_apart (i j : nat) : i <> j -> 1 <= Rabs (INR i - INR j).
Proof.
  intros Hij. destruct (Nat.lt_gt_cases i j) as [[Hlt|Hlt] _]; [done| |];
    apply lt_INR in Hlt; rewrite ?S_INR in *.
  - assert (INR (S i) <= INR j) by (apply le_INR; apply INR_lt in Hlt; lia).
    rewrite S_INR in *. rewrite Rabs_minus_sym, Rabs_right; lra.
  - assert (INR (S j) <= INR i) by (apply le_INR; apply INR_lt in Hlt; lia).
    rewrite S_INR in *. rewrite Rabs_right; lra.
Qed.

(** A bar's sector lies within [width] of its task's position. *)
Lemma sector_near ts i b theta :
  In (i, b) (chart_bars (update_individual_task_chart ts)) -> in_sector b theta ->
  exists k : Z, INR i - width < theta + 2 * PI * IZR k < INR i + width.
Proof.
  intros Hin [k Hk]. destruct (chart_bars_pos ts i b Hin) as (_ & Hw & [Hx|Hx]);
    rewrite Hw, Hx in Hk; exists k; unfold width in *; lra.
Qed.

(** [self.ax2] are the polar axes of [self.fig2]. *)
Lemma ax2_polar : g_attrs window !! "ax2" = Some 31%nat /\ g_widgets window !! 31%nat = Some (mkWidget (Axes 30 Polar) None).
Proof. split; vm_compute; reflexivity. Qed.

(** ** Theorems *)

(** C35: With at most six tasks the per-task chart is readable on its
    polar axes: no bar of one task overlaps a bar of another. *)
Theorem radar_bars_disjoint ts i j b1 b2 :
  (length ts <= 6)%nat ->
  In (i, b1) (chart_bars (update_individual_task_chart ts)) ->
  In (j, b2) (chart_bars (update_individual_task_chart ts)) ->
  i <> j -> ~ bars_overlap b1 b2.
Proof.
  intros Hlen Hi Hj Hij (_ & _ & theta & Hs1 & Hs2).
  destruct (sector_near ts i b1 theta Hi Hs1) as [k1 Hk1], (sector_near ts j b2 theta Hj Hs2) as [k2 Hk2].
  destruct (chart_bars_pos ts i b1 Hi) as [Hil _], (chart_bars_pos ts j b2 Hj) as [Hjl _].
  assert (Hi5 : INR i <= 5) by (replace 5 with (INR 5) by (simpl; lra); apply le_INR; lia).
  assert (Hj5 : INR j <= 5) by (replace 5 with (INR 5) by (simpl; lra); apply le_INR; lia).
  pose proof (sectors_meet (INR i) (INR j) theta k1 k2 (conj (pos_INR i) Hi5) (conj (pos_INR j) Hj5) Hk1 Hk2).
  pose proof (INR_apart i j Hij). unfold width in *. lra.
Qed.

Lemma radar_bars_disjoint_witness :
  ~ bars_overlap (mkBar (INR 0 - width / 2) width 1) (mkBar (INR 1 + width / 2) width 1).
Proof.
  set (ts := [mkTask "A" "Buy milk" "" 1 0; mkTask "B" "Walk dog" "" 0 1]).
  apply (radar_bars_disjoint ts 0 1); [simpl; lia| | |lia].
  - vm_compute. left. reflexivity.
  - vm_compute. right. right. right. left. reflexivity.
Defined.

(** C34: From seven tasks on, the chart wraps around the polar axes: the
    seventh task (in identifier order), drawn at 6 rad, lands on the
    first, so the first task's completed bar and the seventh task's
    skipped bar overlap as soon as both counts are positive. *)
Theorem radar_bars_wrap ts t0 t6 :
  sort_by_id ts !! 0%nat = Some t0 -> sort_by_id ts !! 6%nat = Some t6 ->
  (0 < completed_count t0)%Z -> (0 < skipped_count t6)%Z ->
  g_widgets window !! 31%nat = Some (mkWidget (Axes 30 Polar) None) /\
  exists b0 b6, In (0%nat, b0) (chart_bars (update_individual_task_chart ts)) /\
    In (6%nat, b6) (chart_bars (update_individual_task_chart ts)) /\ bars_overlap b0 b6.
Proof.
  intros H0 H6 Hc Hs. split; [apply ax2_polar|].
  destruct ts as [|t ts']; [done|].
  exists (mkBar (INR 0 - width / 2) width (IZR (completed_count t0))),
         (mkBar (INR 6 + width / 2) width (IZR (skipped_count t6))).
  unfold update_individual_task_chart. cbn [chart_bars]. split_and!.
  - apply in_or_app. left. apply list_elem_of_In, elem_of_lookup_imap. eexists _, _.
    split; [reflexivity|]. by rewrite list_lookup_fmap, H0.
  - apply in_or_app. right. apply list_elem_of_In, elem_of_lookup_imap. eexists _, _.
    split; [reflexivity|]. by rewrite list_lookup_fmap, H6.
  - pose proof PI_gt_3. pose proof PI_lt_335.
    split; [by apply IZR_lt in Hc|]. split; [by apply IZR_lt in Hs|].
    exists (3 - PI). split; [exists 0%Z|exists 1%Z]; simpl; unfold width; lra.
Qed.

(** Seven tasks [A .. G], [A] completed once and [G] skipped once:
    their bars overlap. *)
Lemma radar_bars_wrap_witness :
  exists b0 b6,
    In (0%nat, b0) (chart_bars (update_individual_task_chart
      (map (fun k => mkTask k "" "" (if String.eqb k "A" then 1 else 0) (if String.eqb k "G" then 1 else 0))
           ["A"; "B"; "C"; "D"; "E"; "F"; "G"]))) /\
    In (6%nat, b6) (chart_bars (update_individual_task_chart
      (map (fun k => mkTask k "" "" (if String.eqb k "A" then 1 else 0) (if String.eqb k "G" then 1 else 0))
           ["A"; "B"; "C"; "D"; "E"; "F"; "G"]))) /\ bars_overlap b0 b6.
Proof.
  apply (radar_bars_wrap _ (mkTask "A" "" "" 1 0) (mkTask "G" "" "" 0 1)); vm_compute; reflexivity.
Defined.

End Radar.
