(* ===== verification/Clock.v ===== *)
(** * Clock: [datetime.now()] as a sequence of readings

    The code never reads the clock once per action: every iteration of
    the loops of [calculate_daily_average] (439-445) and of the
    "Recent Daily Counts" block of [update_statistics_display]
    (425-430) calls [datetime.now()] afresh, the latter twice per line
    (the date at 427, the day name at 429).  Stats.v and Panel.v take
    one [today] for the whole loop.  This file models each call as its
    own reading, a day ordinal, and relates the two models:
    - with a clock that stays on one day the loops compute exactly what
      Stats.v computes (so the single-[today] model is the steady case);
    - if midnight passes between two iterations of the 30-day loop, its
      window counts one day twice, never sees the oldest day, and the
      average can differ from that of either day;
    - if midnight passes between lines 427 and 429, the line shows the
      next day's name beside the date.

    [datetime.now().isoformat()] (218), the [created] field of a new
    task, is modelled from CPython's [datetime.isoformat]; for the years
    1000 to 9999 its first ten characters are the [strftime('%Y-%m-%d')]
    key of the same reading, so [clock_of] turns one reading into the
    [Session.clock] the handlers take. *)

From Stdlib Require Import QArith.
From S2P Require Import Prelude Calendar Stats Session Panel.

Module Clock.
Import PyDate Stats Session Panel.
Local Open Scope Z_scope.

(** ** The loops with one reading per call *)

(** [for i in range(30): date = (datetime.now() - timedelta(days=i))
    .strftime('%Y-%m-%d')], the [i]-th call reading the day [nows !! i]. *)
Definition window_keys_now (nows : list Z) : list string :=
  imap (fun i o => date_key (o - Z.of_nat i)) nows.

(** [calculate_daily_average] (434-447) with its 30 readings. *)
Definition calculate_daily_average_now (d : gmap string Z) (nows : list Z) : Q :=
  if decide (d = ∅) then 0%Q
  else
    let '(total, days) := avg_loop d (window_keys_now nows) 0 0 in
    (inject_Z total / inject_Z (Z.max days 1))%Q.

(** The "Recent Daily Counts" lines (425-430): the [i]-th line reads the
    clock for its date, then again for its day name. *)
Definition recent_daily_counts_now (d : gmap string Z) (nows : list (Z * Z)) : list (string * string * Z) :=
  imap (fun i '(o_date, o_name) =>
          let date := date_key (o_date - Z.of_nat i) in
          (weekday_name (o_name - Z.of_nat i), date, default 0 (d !! date))) nows.

(** A clock that reads [today] for the first [j] of [n] calls and
    [today + 1] for the others: midnight passes between call [j - 1]
    and call [j]. *)
Definition rollover (today : Z) (j n : nat) : list Z :=
  replicate j today ++ replicate (n - j) (today + 1).

(** ** [isoformat] *)

(** What [datetime.now()] returns: the day and the time of day. *)
Record datetime := mkDatetime {
  dt_ord : Z; dt_hour : Z; dt_minute : Z; dt_second : Z; dt_microsecond : Z
}.

(** [%0wd] on a non-negative int. *)
Definition pad (w : nat) (v : Z) : string := zero_pad w (py_str_int v).

(** CPython's [datetime.isoformat()]: [YYYY-MM-DDTHH:MM:SS], with
    [.ffffff] only when the microsecond is not zero. *)
Definition isoformat (dt : datetime) : string :=
  let '(y, m, d) := ord2ymd (dt_ord dt) in
  pad 4 y +:+ "-" +:+ pad 2 m +:+ "-" +:+ pad 2 d +:+ "T" +:+
  pad 2 (dt_hour dt) +:+ ":" +:+ pad 2 (dt_minute dt) +:+ ":" +:+ pad 2 (dt_second dt) +:+
  (if dt_microsecond dt =? 0 then "" else "." +:+ pad 6 (dt_microsecond dt)).

(** One reading as the clock a handler takes: its day and [isoformat()]. *)
Definition clock_of (dt : datetime) : clock := mkClock (dt_ord dt) (isoformat dt).

(** ** Lemmas *)

Lemma imap_replicate {A B} (g : nat -> A -> B) n x :
  imap g (replicate n x) = map (fun i => g i x) (seq 0 n).
Proof.
  rewrite (imap_ext _ (fun i _ => g i x)).
  - by rewrite imap_seq_0, length_replicate.
  - intros i y Hy. by apply lookup_replicate in Hy as [-> _].
Qed.

Lemma window_keys_now_steady today n : window_keys_now (replicate n today) = window_keys today n.
Proof. unfold window_keys_now, window_keys. by rewrite imap_replicate. Qed.

Lemma window_keys_now_rollover today j n :
  (j <= n)%nat ->
  window_keys_now (rollover today j n) = window_keys today j ++ window_keys (today + 1 - Z.of_nat j) (n - j).
Proof.
  intros Hj. unfold window_keys_now, rollover. rewrite imap_app, !imap_replicate, length_replicate.
  f_equal. unfold window_keys. apply map_ext. intros i. f_equal. lia.
Qed.

Lemma elem_of_window_keys k today n : k ∈ window_keys today n <-> exists i, (i < n)%nat /\ k = date_key (today - Z.of_nat i).
Proof.
  unfold window_keys. rewrite list_elem_of_fmap. setoid_rewrite elem_of_seq.
  split; intros (i & ? & ?); exists i; naive_solver lia.
Qed.

Lemma weekday_name_next x : weekday_name (x + 1) <> weekday_name x.
Proof.
  unfold weekday_name. rewrite <- Z.add_assoc, (Z.add_comm 1 6), Z.add_assoc, <- Z.add_mod_idemp_l by lia.
  pose proof (Z.mod_pos_bound (x + 6) 7 ltac:(lia)) as Hr.
  assert (Hc : (x + 6) mod 7 = 0 \/ (x + 6) mod 7 = 1 \/ (x + 6) mod 7 = 2 \/ (x + 6) mod 7 = 3 \/
               (x + 6) mod 7 = 4 \/ (x + 6) mod 7 = 5 \/ (x + 6) mod 7 = 6) by lia.
  by repeat destruct Hc as [->|Hc]; [..|rewrite Hc].
Qed.

Lemma forallb_seqZ (f : Z -> bool) a n y : forallb f (seqZ a n) = true -> a <= y < a + n -> f y = true.
Proof. intros H Hy. apply forallb_forall with (x := y) in H; [done|]. apply list_elem_of_In, elem_of_seqZ. lia. Qed.

(** [%04d] and [%02d] print what [str] and [pad2] print on the years
    1000 to 9999 and on the numbers below 100, checked by evaluation. *)
Definition year_ok (y : Z) : bool :=
  String.eqb (pad 4 y) (py_str_int y) && (String.length (py_str_int y) =? 4)%nat.

Definition two_digits_ok (v : Z) : bool := String.eqb (pad 2 v) (pad2 v).

Lemma years_ok : forallb year_ok (seqZ 1000 9000) = true.
Proof. vm_compute. reflexivity. Qed.

Lemma two_digits_all_ok : forallb two_digits_ok (seqZ 0 100) = true.
Proof. vm_compute. reflexivity. Qed.

Lemma pad_year y : 1000 <= y <= 9999 -> pad 4 y = py_str_int y /\ String.length (py_str_int y) = 4%nat.
Proof.
  intros Hy. pose proof (forallb_seqZ year_ok 1000 9000 y years_ok ltac:(lia)) as H.
  apply andb_prop in H as [H1 H2]. split; [exact (proj1 (String.eqb_eq _ _) H1)|exact (proj1 (Nat.eqb_eq _ _) H2)].
Qed.

Lemma pad_two v : 0 <= v < 100 -> pad 2 v = pad2 v.
Proof. intros Hv. exact (proj1 (String.eqb_eq _ _) (forallb_seqZ two_digits_ok 0 100 v two_digits_all_ok ltac:(lia))). Qed.

(** For the years 1000 to 9999 [isoformat()] starts with the
    [strftime('%Y-%m-%d')] key of the same day. *)
Lemma isoformat_key dt y m d :
  ord2ymd (dt_ord dt) = (y, m, d) -> 1000 <= y <= 9999 ->
  exists rest, isoformat dt = date_key (dt_ord dt) +:+ rest /\ String.length (date_key (dt_ord dt)) = 10%nat.
Proof.
  intros Hymd Hy. pose proof (ord2ymd_valid (dt_ord dt)) as Hv. rewrite Hymd in Hv. destruct Hv as [Hm Hd].
  pose proof (days_in_month_le_31 y m) as H31. destruct (pad_year y Hy) as [Hp4 Hl4].
  unfold isoformat, date_key. rewrite Hymd, Hp4, !pad_two by lia. unfold strftime_Ymd.
  eexists. split; [rewrite !string_app_assoc; reflexivity|].
  rewrite !string_length_app, Hl4. simpl.
  rewrite (proj1 (pad2_spec m m ltac:(lia) ltac:(lia))), (proj1 (pad2_spec d d ltac:(lia) ltac:(lia))). done.
Qed.

(** ** Theorems *)

(** With a clock that stays on one day, the 30-day loop and the
    "Recent Daily Counts" loop, which call [datetime.now()] in every
    iteration, compute what the one-[today] model of Stats.v computes. *)
Lemma steady_clock_agrees d today :
  window_keys_now (replicate 30 today) = window_keys today 30 /\
  calculate_daily_average_now d (replicate 30 today) = calculate_daily_average d today /\
  recent_daily_counts_now d (replicate 7 (today, today)) = recent_daily_counts d today.
Proof.
  split_and!; [apply window_keys_now_steady| |].
  - unfold calculate_daily_average_now, calculate_daily_average. by rewrite window_keys_now_steady.
  - unfold recent_daily_counts_now, recent_daily_counts. by rewrite imap_replicate.
Qed.

(** C29: If midnight passes between two iterations of the 30-day loop of
    [calculate_daily_average] (after [j] of them), the window is the
    last [j] days of the old date followed by [30 - j] days counted from
    the new one: the day [today + 1 - j] is counted twice, and neither
    the new day nor the oldest day [today - 29] is counted. *)
Theorem midnight_window today j :
  (0 < j < 30)%nat ->
  window_keys_now (rollover today j 30) = window_keys today j ++ window_keys (today + 1 - Z.of_nat j) (30 - j) /\
  ~ NoDup (window_keys_now (rollover today j 30)) /\
  date_key (today + 1) ∉ window_keys_now (rollover today j 30) /\
  date_key (today - 29) ∉ window_keys_now (rollover today j 30).
Proof.
  intros Hj. rewrite window_keys_now_rollover by lia.
  assert (Hout : forall o, (o > today \/ o < today - 28) ->
            date_key o ∉ window_keys today j ++ window_keys (today + 1 - Z.of_nat j) (30 - j)).
  { intros o Ho [Hk|Hk]%elem_of_app; apply elem_of_window_keys in Hk as (i & Hi & Hk%date_key_inj); lia. }
  split_and!; [done| |apply Hout; lia|apply Hout; lia].
  intros (_ & Hdis & _)%NoDup_app. apply (Hdis (date_key (today - Z.of_nat (j - 1)))).
  - apply elem_of_window_keys. exists (j - 1)%nat. split; [lia|done].
  - apply elem_of_window_keys. exists 0%nat. split; [lia|]. f_equal. lia.
Qed.

(** Midnight after five iterations, on 2024-01-03 with one task done
    that day and three on 2023-12-30: the day 2023-12-30 is counted
    twice and the average is [7/3], where a clock on either day gives
    [2]. *)
Lemma midnight_window_witness :
  let d := <[date_key 738888 := 1]> (<[date_key 738884 := 3]> ∅) in
  ~ NoDup (window_keys_now (rollover 738888 5 30)) /\
  (calculate_daily_average_now d (rollover 738888 5 30) == 7 # 3)%Q /\
  (calculate_daily_average d 738888 == 2)%Q /\ (calculate_daily_average d 738889 == 2)%Q.
Proof.
  split; [apply (midnight_window 738888 5); lia|]. vm_compute. split_and!; reflexivity.
Defined.

(** C30: If midnight passes between the two [datetime.now()] calls of one
    "Recent Daily Counts" line (427 and 429), the line shows the date
    of the old day beside the name of the next one, which is never the
    weekday of that date. *)
Theorem midnight_mislabels_line d nows i day :
  nows !! i = Some (day, day + 1) ->
  recent_daily_counts_now d nows !! i =
    Some (weekday_name (day - Z.of_nat i + 1), date_key (day - Z.of_nat i), default 0 (d !! date_key (day - Z.of_nat i))) /\
  weekday_name (day - Z.of_nat i + 1) <> weekday_name (day - Z.of_nat i).
Proof.
  intros Hi. split; [|apply weekday_name_next].
  unfold recent_daily_counts_now. rewrite list_lookup_imap, Hi. simpl.
  by replace (day + 1 - Z.of_nat i) with (day - Z.of_nat i + 1) by lia.
Qed.

(** The first line read just before midnight of 2024-01-03 (a
    Wednesday) and its name just after: "Thursday (2024-01-03)". *)
Lemma midnight_mislabels_line_witness :
  recent_daily_counts_now ∅ [(738888, 738889)] !! 0%nat = Some ("Thursday", "2024-01-03", 0).
Proof.
  rewrite (proj1 (midnight_mislabels_line ∅ [(738888, 738889)] 0 738888 eq_refl)). vm_compute. reflexivity.
Defined.

(** The [created] stamp of a task added at a reading and the key its
    completion is counted under agree: for the years 1000 to 9999 the
    first ten characters of [isoformat()] are the
    [strftime('%Y-%m-%d')] key of the same reading. *)
Lemma created_matches_key dt y m d :
  ord2ymd (dt_ord dt) = (y, m, d) -> 1000 <= y <= 9999 ->
  String.substring 0 10 (now_iso (clock_of dt)) = date_key (now_ord (clock_of dt)).
Proof.
  intros Hymd Hy. destruct (isoformat_key dt y m d Hymd Hy) as (rest & Hiso & Hlen). simpl.
  rewrite Hiso, <- Hlen. apply substring_app_prefix.
Qed.

End Clock.
